(** * Property views of EXT_structural_metadata (CesiumGltf/PropertyView.h)

    A shallow embedding of the [PropertyView] family of class templates:
    the constructors that resolve a class property (and an optional
    property-table / property-texture override) into a status and a set of
    parsed fields, and the two array codecs (bit-packed booleans, strings with
    an offset table).

    Integers of the source are [Z] with their wrap-around written out, a
    [std::byte] is a [Z] in [0, 256), a [std::vector] is a [list], a
    [std::optional] is an [option].  A constructor body is a sequence of
    statements over the object under construction, with [return] as an early
    exit. *)

From Stdlib Require Import ZArith Lia.
From stdpp Require Import base option list strings.

Local Open Scope Z_scope.

#[local] Set Warnings "-register-all".

(** ** Status codes (PropertyView.h, lines 13-92) *)

Inductive PropertyViewStatus :=
| Valid
| ErrorNonexistentProperty
| ErrorTypeMismatch
| ErrorComponentTypeMismatch
| ErrorArrayTypeMismatch
| ErrorInvalidNormalization
| ErrorInvalidOffset
| ErrorInvalidScale
| ErrorInvalidMax
| ErrorInvalidMin
| ErrorInvalidNoDataValue
| ErrorInvalidDefaultValue.

#[global] Instance PropertyViewStatus_eq_dec : EqDecision PropertyViewStatus.
Proof. solve_decision. Defined.

(** The [int32_t] constant behind each status. *)
Definition PropertyViewStatusType (s : PropertyViewStatus) : Z :=
  match s with
  | Valid => 0
  | ErrorNonexistentProperty => 1
  | ErrorTypeMismatch => 2
  | ErrorComponentTypeMismatch => 3
  | ErrorArrayTypeMismatch => 4
  | ErrorInvalidNormalization => 5
  | ErrorInvalidOffset => 6
  | ErrorInvalidScale => 7
  | ErrorInvalidMax => 8
  | ErrorInvalidMin => 9
  | ErrorInvalidNoDataValue => 10
  | ErrorInvalidDefaultValue => 11
  end.

(** [_status != PropertyViewStatus::Valid] *)
Definition notValid (s : PropertyViewStatus) : bool :=
  bool_decide (s ≠ Valid).

(** ** Property types and component types *)

(** Modelled from the spec: the enumeration [PropertyType] of PropertyType.h,
    which is not part of the sources at hand (type tag
    SCALAR/VECN/MATN/BOOLEAN/STRING/ENUM). *)
Inductive PropertyType :=
| Invalid | Scalar | Vec2 | Vec3 | Vec4 | Mat2 | Mat3 | Mat4
| String | Boolean | Enum.

(** Modelled from the spec: the enumeration [PropertyComponentType] of
    PropertyType.h (integer widths 8/16/32/64 signed or unsigned, or a 32/64
    bit float; [None] for the types without components). *)
Inductive PropertyComponentType :=
| None_ | Int8 | Uint8 | Int16 | Uint16 | Int32 | Uint32 | Int64 | Uint64
| Float32 | Float64.

#[global] Instance PropertyType_eq_dec : EqDecision PropertyType.
Proof. solve_decision. Defined.

#[global] Instance PropertyComponentType_eq_dec :
  EqDecision PropertyComponentType.
Proof. solve_decision. Defined.

(** Modelled from the spec: [convertStringToPropertyType] of PropertyType.h. *)
Definition convertStringToPropertyType (s : string) : PropertyType :=
  if bool_decide (s = "SCALAR"%string) then Scalar
  else if bool_decide (s = "VEC2"%string) then Vec2
  else if bool_decide (s = "VEC3"%string) then Vec3
  else if bool_decide (s = "VEC4"%string) then Vec4
  else if bool_decide (s = "MAT2"%string) then Mat2
  else if bool_decide (s = "MAT3"%string) then Mat3
  else if bool_decide (s = "MAT4"%string) then Mat4
  else if bool_decide (s = "STRING"%string) then String
  else if bool_decide (s = "BOOLEAN"%string) then Boolean
  else if bool_decide (s = "ENUM"%string) then Enum
  else Invalid.

(** Modelled from the spec: [convertStringToPropertyComponentType] of
    PropertyType.h. *)
Definition convertStringToPropertyComponentType (s : string)
  : PropertyComponentType :=
  if bool_decide (s = "INT8"%string) then Int8
  else if bool_decide (s = "UINT8"%string) then Uint8
  else if bool_decide (s = "INT16"%string) then Int16
  else if bool_decide (s = "UINT16"%string) then Uint16
  else if bool_decide (s = "INT32"%string) then Int32
  else if bool_decide (s = "UINT32"%string) then Uint32
  else if bool_decide (s = "INT64"%string) then Int64
  else if bool_decide (s = "UINT64"%string) then Uint64
  else if bool_decide (s = "FLOAT32"%string) then Float32
  else if bool_decide (s = "FLOAT64"%string) then Float64
  else None_.

(** The two labels [case Float32: case Float64:] of the switches on
    [TypeToPropertyType<ElementType>::component]. *)
Definition isFloatComponent (c : PropertyComponentType) : bool :=
  match c with
  | Float32 | Float64 => true
  | _ => false
  end.

(** ** JSON values *)

(** Modelled from the spec: [CesiumUtility::JsonValue] (JsonValue.h is not part
    of the sources at hand), a JSON tree offering [isArray], [isBool],
    [isString], [getArray] and a safe numeric extraction.  A number is kept as
    the integer the document holds. *)
Inductive JsonValue :=
| JNull
| JNumber (n : Z)
| JBool (b : bool)
| JString (s : string)
| JArray (items : list JsonValue)
| JObject (fields : list (string * JsonValue)).

Definition isArray (j : JsonValue) : bool :=
  match j with JArray _ => true | _ => false end.

Definition isBool (j : JsonValue) : bool :=
  match j with JBool _ => true | _ => false end.

Definition isString (j : JsonValue) : bool :=
  match j with JString _ => true | _ => false end.

Definition getArray (j : JsonValue) : list JsonValue :=
  match j with JArray items => items | _ => [] end.

Definition getBool (j : JsonValue) : bool :=
  match j with JBool b => b | _ => false end.

Definition getString (j : JsonValue) : string :=
  match j with JString s => s | _ => EmptyString end.

(** ** Class properties and overrides *)

Module ClassProperty.
(** Modelled from the spec: the [ClassProperty] of EXT_structural_metadata that
    PropertyView.h reads ([type], optional [componentType], [array] with an
    optional [count], [normalized], [required] and the six optional raw JSON
    values); the header under CesiumGltf/include declares an older schema
    without [array], [count], [offset], [scale], [required] and [noData]. *)
Record t := {
  type : string;
  componentType : option string;
  array : bool;
  count : option Z;
  normalized : bool;
  offset : option JsonValue;
  scale : option JsonValue;
  max : option JsonValue;
  min : option JsonValue;
  required : bool;
  noData : option JsonValue;
  defaultProperty : option JsonValue
}.
End ClassProperty.

Module PropertyTableProperty.
(** Modelled from the spec: the override descriptor carried by a property
    table property (PropertyTableProperty.h): raw [offset], [scale], [max],
    [min] only. *)
Record t := {
  offset : option JsonValue;
  scale : option JsonValue;
  max : option JsonValue;
  min : option JsonValue
}.
End PropertyTableProperty.

Module PropertyTextureProperty.
(** Modelled from the spec: the override descriptor carried by a property
    texture property (PropertyTextureProperty.h): raw [offset], [scale],
    [max], [min] only. *)
Record t := {
  offset : option JsonValue;
  scale : option JsonValue;
  max : option JsonValue;
  min : option JsonValue
}.
End PropertyTextureProperty.

(** ** Element types

    The template parameter [ElementType] is a scalar, a [glm] vector or a
    [glm] matrix over a component type.  What the views use of it is collected
    here: the traits [TypeToPropertyType<T>::value] and [::component],
    [sizeof(T)], the parser and the bytes [std::memcpy] copies. *)

(** Outcome of [JsonValue::getSafeNumber<T>]: a value, or one of the two
    exceptions [getScalar] catches. *)
Inductive SafeNumber (T : Type) :=
| Number (x : T)
| JsonValueNotRealValue
| narrowing_error.
Arguments Number {T} x.
Arguments JsonValueNotRealValue {T}.
Arguments narrowing_error {T}.

Record ScalarType := {
  carrier : Type;
  componentOf : PropertyComponentType;
  sizeofScalar : Z;
  getSafeNumber : JsonValue → SafeNumber carrier;
  scalarBytes : carrier → list Z
}.

Inductive Shape :=
| IsMetadataScalar
| IsMetadataVecN (N : nat)
| IsMetadataMatN (N : nat).

Record ElementType := {
  scalarOf : ScalarType;
  shapeOf : Shape
}.

(** A value of the element type: a scalar, the [N] components of a vector, or
    the [N] columns of a matrix. *)
Inductive Value (T : Type) :=
| scalar (x : T)
| vecN (components : list T)
| matN (columns : list (list T)).
Arguments scalar {T} x.
Arguments vecN {T} components.
Arguments matN {T} columns.

Definition ValueOf (E : ElementType) : Type := Value (carrier (scalarOf E)).

(** [TypeToPropertyType<T>::value] *)
Definition TypeToPropertyType_value (E : ElementType) : PropertyType :=
  match shapeOf E with
  | IsMetadataScalar => Scalar
  | IsMetadataVecN 2 => Vec2
  | IsMetadataVecN 3 => Vec3
  | IsMetadataVecN 4 => Vec4
  | IsMetadataMatN 2 => Mat2
  | IsMetadataMatN 3 => Mat3
  | IsMetadataMatN 4 => Mat4
  | _ => Invalid
  end.

(** [TypeToPropertyType<T>::component] *)
Definition TypeToPropertyType_component (E : ElementType)
  : PropertyComponentType :=
  componentOf (scalarOf E).

(** [sizeof(T)] *)
Definition sizeof (E : ElementType) : Z :=
  match shapeOf E with
  | IsMetadataScalar => sizeofScalar (scalarOf E)
  | IsMetadataVecN N => Z.of_nat N * sizeofScalar (scalarOf E)
  | IsMetadataMatN N => Z.of_nat N * Z.of_nat N * sizeofScalar (scalarOf E)
  end.

(** The object representation [std::memcpy] reads. *)
Definition valueBytes (E : ElementType) (v : ValueOf E) : list Z :=
  match v with
  | scalar x => scalarBytes (scalarOf E) x
  | vecN xs => concat (scalarBytes (scalarOf E) <$> xs)
  | matN cols => concat ((λ col, concat (scalarBytes (scalarOf E) <$> col)) <$> cols)
  end.

(** ** Validation and parsing helpers (lines 94-224) *)

Definition validatePropertyType (E : ElementType) (classProperty : ClassProperty.t)
  : PropertyViewStatus :=
  if bool_decide (TypeToPropertyType_value E ≠
                  convertStringToPropertyType (ClassProperty.type classProperty))
  then ErrorTypeMismatch
  else
    let expectedComponentType := TypeToPropertyType_component E in
    match ClassProperty.componentType classProperty with
    | None =>
        if bool_decide (expectedComponentType ≠ None_)
        then ErrorComponentTypeMismatch
        else if ClassProperty.array classProperty then ErrorArrayTypeMismatch
        else Valid
    | Some componentType =>
        if bool_decide (expectedComponentType ≠
                        convertStringToPropertyComponentType componentType)
        then ErrorComponentTypeMismatch
        else if ClassProperty.array classProperty then ErrorArrayTypeMismatch
        else Valid
    end.

Definition validateArrayPropertyType (E : ElementType)
    (classProperty : ClassProperty.t) : PropertyViewStatus :=
  if bool_decide (TypeToPropertyType_value E ≠
                  convertStringToPropertyType (ClassProperty.type classProperty))
  then ErrorTypeMismatch
  else
    let expectedComponentType := TypeToPropertyType_component E in
    match ClassProperty.componentType classProperty with
    | None =>
        if bool_decide (expectedComponentType ≠ None_)
        then ErrorComponentTypeMismatch
        else if negb (ClassProperty.array classProperty)
        then ErrorArrayTypeMismatch
        else Valid
    | Some componentType =>
        if bool_decide (expectedComponentType ≠
                        convertStringToPropertyComponentType componentType)
        then ErrorComponentTypeMismatch
        else if negb (ClassProperty.array classProperty)
        then ErrorArrayTypeMismatch
        else Valid
    end.

(** [getScalar]: both exceptions of [getSafeNumber] become [std::nullopt]. *)
Definition getScalar (T : ScalarType) (jsonValue : JsonValue)
  : option (carrier T) :=
  match getSafeNumber T jsonValue with
  | Number x => Some x
  | JsonValueNotRealValue => None
  | narrowing_error => None
  end.

(** [getVecN]: an array of exactly [N] numbers, parsed in order; the first
    component that fails aborts the parse. *)
Definition getVecN (T : ScalarType) (N : nat) (jsonValue : JsonValue)
  : option (list (carrier T)) :=
  if negb (isArray jsonValue) then None
  else
    let array := getArray jsonValue in
    if bool_decide (length array ≠ N) then None
    else mapM (getScalar T) array.

(** Splits [N * N] parsed numbers into the [N] columns [result[i]], column [i]
    holding the elements [array[i * N + j]]. *)
Fixpoint columns {A} (N remaining : nat) (l : list A) : list (list A) :=
  match remaining with
  | O => []
  | S r => take N l :: columns N r (drop N l)
  end.

(** [getMatN] *)
Definition getMatN (T : ScalarType) (N : nat) (jsonValue : JsonValue)
  : option (list (list (carrier T))) :=
  if negb (isArray jsonValue) then None
  else
    let array := getArray jsonValue in
    if bool_decide (length array ≠ (N * N)%nat) then None
    else columns N N <$> mapM (getScalar T) array.

(** The private [getValue] of the scalar views (lines 628-641): the parser
    selected by [if constexpr] on the shape of the type. *)
Definition getValue (E : ElementType) (jsonValue : JsonValue)
  : option (ValueOf E) :=
  match shapeOf E with
  | IsMetadataScalar => scalar <$> getScalar (scalarOf E) jsonValue
  | IsMetadataVecN N => vecN <$> getVecN (scalarOf E) N jsonValue
  | IsMetadataMatN N => matN <$> getMatN (scalarOf E) N jsonValue
  end.

(** The private [getArrayValue] of the numeric array views (lines 1691-1737
    and 2122-2170): every element is parsed in order, then the values are
    copied into [values.size() * sizeof(T)] bytes. *)
Definition getArrayValue (E : ElementType) (jsonValue : JsonValue)
  : option (list Z) :=
  if negb (isArray jsonValue) then None
  else
    values ← mapM (getValue E) (getArray jsonValue);
    Some (concat (valueBytes E <$> values)).

(** ** Statements of a constructor body

    A statement transforms the object under construction and tells whether
    [return] was executed. *)

Inductive Flow := Next | Returned.

Definition Stmt (S : Type) : Type := S → Flow * S.

Definition skip {S} : Stmt S := λ s, (Next, s).

Definition return_ {S} : Stmt S := λ s, (Returned, s).

Definition assign {S} (f : S → S) : Stmt S := λ s, (Next, f s).

Definition andThen {S} (a b : Stmt S) : Stmt S :=
  λ s, match a s with
       | (Next, s') => b s'
       | (Returned, s') => (Returned, s')
       end.

Definition if_ {S} (c : S → bool) (a : Stmt S) : Stmt S :=
  λ s, if c s then a s else (Next, s).

(** [if (opt) { ... }] on an optional of the arguments, the body reading the
    value it holds. *)
Definition ifSome {S A} (o : option A) (body : A → Stmt S) : Stmt S :=
  match o with
  | Some x => body x
  | None => skip
  end.

Definition exec {S} (body : Stmt S) (s : S) : S := snd (body s).

Notation "a ;;; b" := (andThen a b) (at level 100, right associativity).

Definition isNone {A} (o : option A) : bool :=
  match o with Some _ => false | None => true end.

(** ** Members of the numeric scalar views

    [A] is the type of [_offset], [_scale], [_max], [_min] and
    [_defaultValue]; [B] is the type of [_noData].  The plain view has
    [A = B = ElementType], the normalized one has [A = NormalizedType]. *)
Section ScalarMembers.
Context {A B : Type}.

Record ScalarMembers := {
  _status : PropertyViewStatus;
  _required : bool;
  _offset : option A;
  _scale : option A;
  _max : option A;
  _min : option A;
  _noData : option B;
  _defaultValue : option A
}.

Definition set_status (x : PropertyViewStatus) (v : ScalarMembers) :=
  {| _status := x; _required := _required v; _offset := _offset v;
     _scale := _scale v; _max := _max v; _min := _min v;
     _noData := _noData v; _defaultValue := _defaultValue v |}.

Definition set_offset (x : option A) (v : ScalarMembers) :=
  {| _status := _status v; _required := _required v; _offset := x;
     _scale := _scale v; _max := _max v; _min := _min v;
     _noData := _noData v; _defaultValue := _defaultValue v |}.

Definition set_scale (x : option A) (v : ScalarMembers) :=
  {| _status := _status v; _required := _required v; _offset := _offset v;
     _scale := x; _max := _max v; _min := _min v;
     _noData := _noData v; _defaultValue := _defaultValue v |}.

Definition set_max (x : option A) (v : ScalarMembers) :=
  {| _status := _status v; _required := _required v; _offset := _offset v;
     _scale := _scale v; _max := x; _min := _min v;
     _noData := _noData v; _defaultValue := _defaultValue v |}.

Definition set_min (x : option A) (v : ScalarMembers) :=
  {| _status := _status v; _required := _required v; _offset := _offset v;
     _scale := _scale v; _max := _max v; _min := x;
     _noData := _noData v; _defaultValue := _defaultValue v |}.

Definition set_noData (x : option B) (v : ScalarMembers) :=
  {| _status := _status v; _required := _required v; _offset := _offset v;
     _scale := _scale v; _max := _max v; _min := _min v;
     _noData := x; _defaultValue := _defaultValue v |}.

Definition set_defaultValue (x : option A) (v : ScalarMembers) :=
  {| _status := _status v; _required := _required v; _offset := _offset v;
     _scale := _scale v; _max := _max v; _min := _min v;
     _noData := _noData v; _defaultValue := x |}.

(** The member initialisers shared by the constructors from a class
    property: everything empty but the status and the required flag. *)
Definition initialMembers (status : PropertyViewStatus) (required : bool) :=
  {| _status := status; _required := required; _offset := None;
     _scale := None; _max := None; _min := None;
     _noData := None; _defaultValue := None |}.

(** [_status = error; return;] *)
Definition fail (error : PropertyViewStatus) : Stmt ScalarMembers :=
  assign (set_status error) ;;; return_.
End ScalarMembers.
Arguments ScalarMembers : clear implicits.

(** ** [PropertyView<ElementType, false>] (lines 244-642) *)
Module PropertyView.
Section WithElementType.
Variable E : ElementType.

Definition t : Type := ScalarMembers (ValueOf E) (ValueOf E).

(** Lines 280-295; the same block at 389-404 and 456-471 for an override.
    Only the two floating-point labels parse the value; a value that does
    not parse falls through to [default]. *)
Definition resolveOffset (raw : option JsonValue) : Stmt t :=
  ifSome raw (λ offset,
    if isFloatComponent (TypeToPropertyType_component E)
    then (assign (set_offset (getValue E offset)) ;;;
          if_ (λ v, isNone (_offset v)) (fail ErrorInvalidOffset))
    else fail ErrorInvalidOffset).

(** Lines 297-312; the same block at 406-421 and 473-488. *)
Definition resolveScale (raw : option JsonValue) : Stmt t :=
  ifSome raw (λ scale,
    if isFloatComponent (TypeToPropertyType_component E)
    then (assign (set_scale (getValue E scale)) ;;;
          if_ (λ v, isNone (_scale v)) (fail ErrorInvalidScale))
    else fail ErrorInvalidScale).

(** Lines 314-321; the same block at 423-430 and 490-497.  The test after
    the assignment of [_max] reads [_scale]. *)
Definition resolveMax (raw : option JsonValue) : Stmt t :=
  ifSome raw (λ max,
    assign (set_max (getValue E max)) ;;;
    if_ (λ v, isNone (_scale v)) (fail ErrorInvalidMax)).

(** Lines 323-330; the same block at 432-439 and 499-506. *)
Definition resolveMin (raw : option JsonValue) : Stmt t :=
  ifSome raw (λ min,
    assign (set_min (getValue E min)) ;;;
    if_ (λ v, isNone (_scale v)) (fail ErrorInvalidMin)).

(** Lines 332-343. *)
Definition resolveNoData (raw : option JsonValue) : Stmt t :=
  ifSome raw (λ noData,
    if_ (λ v, negb (_required v)) (assign (set_noData (getValue E noData))) ;;;
    if_ (λ v, isNone (_noData v)) (fail ErrorInvalidNoDataValue)).

(** Lines 345-356. *)
Definition resolveDefault (raw : option JsonValue) : Stmt t :=
  ifSome raw (λ defaultProperty,
    if_ (λ v, negb (_required v))
        (assign (set_defaultValue (getValue E defaultProperty))) ;;;
    if_ (λ v, isNone (_defaultValue v)) (fail ErrorInvalidDefaultValue)).

(** [PropertyView(const ClassProperty&)], lines 262-357. *)
Definition ofClassProperty (classProperty : ClassProperty.t) : t :=
  exec
    (if_ (λ v, notValid (_status v)) return_ ;;;
     if_ (λ _, ClassProperty.normalized classProperty)
         (fail ErrorInvalidNormalization) ;;;
     resolveOffset (ClassProperty.offset classProperty) ;;;
     resolveScale (ClassProperty.scale classProperty) ;;;
     resolveMax (ClassProperty.max classProperty) ;;;
     resolveMin (ClassProperty.min classProperty) ;;;
     resolveNoData (ClassProperty.noData classProperty) ;;;
     resolveDefault (ClassProperty.defaultProperty classProperty))
    (initialMembers (validatePropertyType E classProperty)
                    (ClassProperty.required classProperty)).

(** [PropertyView(const ClassProperty&, const PropertyTableProperty&)],
    lines 379-440: the delegated constructor runs first. *)
Definition ofPropertyTableProperty (classProperty : ClassProperty.t)
    (property : PropertyTableProperty.t) : t :=
  exec
    (if_ (λ v, notValid (_status v)) return_ ;;;
     resolveOffset (PropertyTableProperty.offset property) ;;;
     resolveScale (PropertyTableProperty.scale property) ;;;
     resolveMax (PropertyTableProperty.max property) ;;;
     resolveMin (PropertyTableProperty.min property))
    (ofClassProperty classProperty).

(** [PropertyView(const ClassProperty&, const PropertyTextureProperty&)],
    lines 446-507. *)
Definition ofPropertyTextureProperty (classProperty : ClassProperty.t)
    (property : PropertyTextureProperty.t) : t :=
  exec
    (if_ (λ v, notValid (_status v)) return_ ;;;
     resolveOffset (PropertyTextureProperty.offset property) ;;;
     resolveScale (PropertyTextureProperty.scale property) ;;;
     resolveMax (PropertyTextureProperty.max property) ;;;
     resolveMin (PropertyTextureProperty.min property))
    (ofClassProperty classProperty).

(** The public accessors, lines 516-595. *)
Definition status (v : t) : PropertyViewStatus := _status v.
Definition arrayCount (v : t) : Z := 0.
Definition normalized (v : t) : bool := false.
Definition offset (v : t) : option (ValueOf E) := _offset v.
Definition scale (v : t) : option (ValueOf E) := _scale v.
Definition max (v : t) : option (ValueOf E) := _max v.
Definition min (v : t) : option (ValueOf E) := _min v.
Definition required (v : t) : bool := _required v.
Definition noData (v : t) : option (ValueOf E) := _noData v.
Definition defaultValue (v : t) : option (ValueOf E) := _defaultValue v.
End WithElementType.
End PropertyView.

(** ** [PropertyView<ElementType, true>] (lines 657-987)

    [N] is [TypeToNormalizedType<ElementType>::type], the type of the
    transformed values. *)
Module NormalizedPropertyView.
Section WithElementType.
Variables E N : ElementType.

Definition t : Type := ScalarMembers (ValueOf N) (ValueOf E).

(** Lines 699-706; the same block at 798-805 and 849-856. *)
Definition resolveOffset (raw : option JsonValue) : Stmt t :=
  ifSome raw (λ offset,
    assign (set_offset (getValue N offset)) ;;;
    if_ (λ v, isNone (_offset v)) (fail ErrorInvalidOffset)).

(** Lines 708-715; the same block at 807-814 and 858-865. *)
Definition resolveScale (raw : option JsonValue) : Stmt t :=
  ifSome raw (λ scale,
    assign (set_scale (getValue N scale)) ;;;
    if_ (λ v, isNone (_scale v)) (fail ErrorInvalidScale)).

(** Lines 717-724; the same block at 816-823 and 867-874. *)
Definition resolveMax (raw : option JsonValue) : Stmt t :=
  ifSome raw (λ max,
    assign (set_max (getValue N max)) ;;;
    if_ (λ v, isNone (_scale v)) (fail ErrorInvalidMax)).

(** Lines 726-733; the same block at 825-832 and 876-883. *)
Definition resolveMin (raw : option JsonValue) : Stmt t :=
  ifSome raw (λ min,
    assign (set_min (getValue N min)) ;;;
    if_ (λ v, isNone (_scale v)) (fail ErrorInvalidMin)).

(** [PropertyView(const ClassProperty&)], lines 682-766.  The block that
    records [ErrorInvalidNormalization] (lines 695-697) has no [return]. *)
Definition ofClassProperty (classProperty : ClassProperty.t) : t :=
  exec
    (if_ (λ v, notValid (_status v)) return_ ;;;
     if_ (λ _, negb (ClassProperty.normalized classProperty))
         (assign (set_status ErrorInvalidNormalization)) ;;;
     resolveOffset (ClassProperty.offset classProperty) ;;;
     resolveScale (ClassProperty.scale classProperty) ;;;
     resolveMax (ClassProperty.max classProperty) ;;;
     resolveMin (ClassProperty.min classProperty) ;;;
     if_ (λ v, _required v)
         (ifSome (ClassProperty.noData classProperty)
                 (λ _, fail ErrorInvalidNoDataValue) ;;;
          ifSome (ClassProperty.defaultProperty classProperty)
                 (λ _, fail ErrorInvalidDefaultValue)) ;;;
     ifSome (ClassProperty.noData classProperty) (λ noData,
       assign (set_noData (getValue E noData)) ;;;
       if_ (λ v, isNone (_noData v)) (fail ErrorInvalidNoDataValue)) ;;;
     ifSome (ClassProperty.defaultProperty classProperty) (λ defaultProperty,
       assign (set_defaultValue (getValue N defaultProperty)) ;;;
       if_ (λ v, isNone (_defaultValue v)) (fail ErrorInvalidDefaultValue)))
    (initialMembers (validatePropertyType E classProperty)
                    (ClassProperty.required classProperty)).

(** [PropertyView(const ClassProperty&, const PropertyTableProperty&)],
    lines 788-833. *)
Definition ofPropertyTableProperty (classProperty : ClassProperty.t)
    (property : PropertyTableProperty.t) : t :=
  exec
    (if_ (λ v, notValid (_status v)) return_ ;;;
     resolveOffset (PropertyTableProperty.offset property) ;;;
     resolveScale (PropertyTableProperty.scale property) ;;;
     resolveMax (PropertyTableProperty.max property) ;;;
     resolveMin (PropertyTableProperty.min property))
    (ofClassProperty classProperty).

(** [PropertyView(const ClassProperty&, const PropertyTextureProperty&)],
    lines 839-884. *)
Definition ofPropertyTextureProperty (classProperty : ClassProperty.t)
    (property : PropertyTextureProperty.t) : t :=
  exec
    (if_ (λ v, notValid (_status v)) return_ ;;;
     resolveOffset (PropertyTextureProperty.offset property) ;;;
     resolveScale (PropertyTextureProperty.scale property) ;;;
     resolveMax (PropertyTextureProperty.max property) ;;;
     resolveMin (PropertyTextureProperty.min property))
    (ofClassProperty classProperty).

(** The public accessors, lines 893-940. *)
Definition status (v : t) : PropertyViewStatus := _status v.
Definition arrayCount (v : t) : Z := 0.
Definition normalized (v : t) : bool := true.
Definition offset (v : t) : option (ValueOf N) := _offset v.
Definition scale (v : t) : option (ValueOf N) := _scale v.
Definition max (v : t) : option (ValueOf N) := _max v.
Definition min (v : t) : option (ValueOf N) := _min v.
Definition required (v : t) : bool := _required v.
Definition noData (v : t) : option (ValueOf E) := _noData v.
Definition defaultValue (v : t) : option (ValueOf N) := _defaultValue v.
End WithElementType.
End NormalizedPropertyView.

(** ** Members of the numeric array views

    The parsed arrays are held as byte buffers
    ([std::optional<std::vector<std::byte>>]). *)

(** [std::vector::size()] *)
Definition size {A} (l : list A) : Z := Z.of_nat (length l).

(** [static_cast<size_t>(x)] of an [int64_t]. *)
Definition to_size_t (x : Z) : Z := x `mod` 2 ^ 64.

Module ArrayMembers.
Record t := {
  _status : PropertyViewStatus;
  _count : Z;
  _required : bool;
  _offset : option (list Z);
  _scale : option (list Z);
  _max : option (list Z);
  _min : option (list Z);
  _noData : option (list Z);
  _defaultValue : option (list Z)
}.

Definition set_status (x : PropertyViewStatus) (v : t) :=
  {| _status := x; _count := _count v; _required := _required v;
     _offset := _offset v; _scale := _scale v; _max := _max v;
     _min := _min v; _noData := _noData v;
     _defaultValue := _defaultValue v |}.

Definition set_offset (x : option (list Z)) (v : t) :=
  {| _status := _status v; _count := _count v; _required := _required v;
     _offset := x; _scale := _scale v; _max := _max v;
     _min := _min v; _noData := _noData v;
     _defaultValue := _defaultValue v |}.

Definition set_scale (x : option (list Z)) (v : t) :=
  {| _status := _status v; _count := _count v; _required := _required v;
     _offset := _offset v; _scale := x; _max := _max v;
     _min := _min v; _noData := _noData v;
     _defaultValue := _defaultValue v |}.

Definition set_max (x : option (list Z)) (v : t) :=
  {| _status := _status v; _count := _count v; _required := _required v;
     _offset := _offset v; _scale := _scale v; _max := x;
     _min := _min v; _noData := _noData v;
     _defaultValue := _defaultValue v |}.

Definition set_min (x : option (list Z)) (v : t) :=
  {| _status := _status v; _count := _count v; _required := _required v;
     _offset := _offset v; _scale := _scale v; _max := _max v;
     _min := x; _noData := _noData v;
     _defaultValue := _defaultValue v |}.

Definition set_noData (x : option (list Z)) (v : t) :=
  {| _status := _status v; _count := _count v; _required := _required v;
     _offset := _offset v; _scale := _scale v; _max := _max v;
     _min := _min v; _noData := x;
     _defaultValue := _defaultValue v |}.

Definition set_defaultValue (x : option (list Z)) (v : t) :=
  {| _status := _status v; _count := _count v; _required := _required v;
     _offset := _offset v; _scale := _scale v; _max := _max v;
     _min := _min v; _noData := _noData v;
     _defaultValue := x |}.

(** The member initialisers of the constructors from a class property:
    [_count] is [*classProperty.count] or 0. *)
Definition initialMembers (status : PropertyViewStatus)
    (classProperty : ClassProperty.t) : t :=
  {| _status := status;
     _count := match ClassProperty.count classProperty with
               | Some count => count
               | None => 0
               end;
     _required := ClassProperty.required classProperty;
     _offset := None; _scale := None; _max := None; _min := None;
     _noData := None; _defaultValue := None |}.

(** [_status = error; return;] *)
Definition fail (error : PropertyViewStatus) : Stmt t :=
  assign (set_status error) ;;; return_.

(** [!x || (_count > 0 && x->size() != static_cast<size_t>(_count))] *)
Definition invalidForCount (x : option (list Z)) (count : Z) : bool :=
  match x with
  | None => true
  | Some bytes =>
      bool_decide (0 < count) && bool_decide (size bytes ≠ to_size_t count)
  end.

(** [x && (_count == 0 || x->size() == static_cast<size_t>(_count))] *)
Definition validForCount (x : option (list Z)) (count : Z) : bool :=
  match x with
  | None => false
  | Some bytes =>
      bool_decide (count = 0) || bool_decide (size bytes = to_size_t count)
  end.
End ArrayMembers.

(** ** [PropertyView<PropertyArrayView<ElementType>>] (lines 1300-1738) *)
Module ArrayPropertyView.
Import ArrayMembers.
Section WithElementType.
Variable E : ElementType.

(** Lines 1340-1356; the same block at 1451-1467 and 1519-1535. *)
Definition resolveOffset (raw : option JsonValue) : Stmt t :=
  ifSome raw (λ offset,
    if isFloatComponent (TypeToPropertyType_component E)
    then (assign (set_offset (getArrayValue E offset)) ;;;
          if_ (λ v, negb (validForCount (_offset v) (_count v)))
              (fail ErrorInvalidOffset))
    else fail ErrorInvalidOffset).

(** Lines 1358-1374; the same block at 1469-1485 and 1537-1553. *)
Definition resolveScale (raw : option JsonValue) : Stmt t :=
  ifSome raw (λ scale,
    if isFloatComponent (TypeToPropertyType_component E)
    then (assign (set_scale (getArrayValue E scale)) ;;;
          if_ (λ v, negb (validForCount (_scale v) (_count v)))
              (fail ErrorInvalidScale))
    else fail ErrorInvalidScale).

(** Lines 1376-1384. *)
Definition resolveMax (raw : option JsonValue) : Stmt t :=
  ifSome raw (λ max,
    assign (set_max (getArrayValue E max)) ;;;
    if_ (λ v, invalidForCount (_max v) (_count v)) (fail ErrorInvalidMax)).

(** Lines 1386-1394. *)
Definition resolveMin (raw : option JsonValue) : Stmt t :=
  ifSome raw (λ min,
    assign (set_min (getArrayValue E min)) ;;;
    if_ (λ v, invalidForCount (_min v) (_count v)) (fail ErrorInvalidMin)).

(** Lines 1396-1405. *)
Definition resolveNoData (raw : option JsonValue) : Stmt t :=
  ifSome raw (λ noData,
    if_ (λ v, negb (_required v))
        (assign (set_noData (getArrayValue E noData))) ;;;
    if_ (λ v, isNone (_noData v)) (fail ErrorInvalidNoDataValue)).

(** Lines 1407-1417. *)
Definition resolveDefault (raw : option JsonValue) : Stmt t :=
  ifSome raw (λ defaultProperty,
    if_ (λ v, negb (_required v))
        (assign (set_defaultValue (getArrayValue E defaultProperty))) ;;;
    if_ (λ v, isNone (_defaultValue v)) (fail ErrorInvalidDefaultValue)).

(** Lines 1487-1494 and 1555-1562: the override's [max]. *)
Definition overrideMax (raw : option JsonValue) : Stmt t :=
  ifSome raw (λ max,
    assign (set_max (getArrayValue E max)) ;;;
    if_ (λ v, isNone (_scale v)) (fail ErrorInvalidMax)).

(** Lines 1496-1503 and 1564-1571: the override's [min]. *)
Definition overrideMin (raw : option JsonValue) : Stmt t :=
  ifSome raw (λ min,
    assign (set_min (getArrayValue E min)) ;;;
    if_ (λ v, isNone (_scale v)) (fail ErrorInvalidMin)).

(** [PropertyView(const ClassProperty&)], lines 1320-1418. *)
Definition ofClassProperty (classProperty : ClassProperty.t) : t :=
  exec
    (if_ (λ v, notValid (_status v)) return_ ;;;
     if_ (λ _, ClassProperty.normalized classProperty)
         (fail ErrorInvalidNormalization) ;;;
     resolveOffset (ClassProperty.offset classProperty) ;;;
     resolveScale (ClassProperty.scale classProperty) ;;;
     resolveMax (ClassProperty.max classProperty) ;;;
     resolveMin (ClassProperty.min classProperty) ;;;
     resolveNoData (ClassProperty.noData classProperty) ;;;
     resolveDefault (ClassProperty.defaultProperty classProperty))
    (initialMembers (validateArrayPropertyType E classProperty) classProperty).

(** [PropertyView(const ClassProperty&, const PropertyTableProperty&)],
    lines 1441-1504. *)
Definition ofPropertyTableProperty (classProperty : ClassProperty.t)
    (property : PropertyTableProperty.t) : t :=
  exec
    (if_ (λ v, notValid (_status v)) return_ ;;;
     resolveOffset (PropertyTableProperty.offset property) ;;;
     resolveScale (PropertyTableProperty.scale property) ;;;
     overrideMax (PropertyTableProperty.max property) ;;;
     overrideMin (PropertyTableProperty.min property))
    (ofClassProperty classProperty).

(** [PropertyView(const ClassProperty&, const PropertyTextureProperty&)],
    lines 1510-1572. *)
Definition ofPropertyTextureProperty (classProperty : ClassProperty.t)
    (property : PropertyTextureProperty.t) : t :=
  exec
    (if_ (λ v, notValid (_status v)) return_ ;;;
     resolveOffset (PropertyTextureProperty.offset property) ;;;
     resolveScale (PropertyTextureProperty.scale property) ;;;
     overrideMax (PropertyTextureProperty.max property) ;;;
     overrideMin (PropertyTextureProperty.min property))
    (ofClassProperty classProperty).

(** The public accessors, lines 1578-1666; an array accessor hands out the
    bytes of the buffer it views. *)
Definition status (v : t) : PropertyViewStatus := _status v.
Definition arrayCount (v : t) : Z := _count v.
Definition normalized (v : t) : bool := false.
Definition offset (v : t) : option (list Z) := _offset v.
Definition scale (v : t) : option (list Z) := _scale v.
Definition max (v : t) : option (list Z) := _max v.
Definition min (v : t) : option (list Z) := _min v.
Definition required (v : t) : bool := _required v.
Definition noData (v : t) : option (list Z) := _noData v.
Definition defaultValue (v : t) : option (list Z) := _defaultValue v.
End WithElementType.
End ArrayPropertyView.

(** ** [PropertyView<PropertyArrayView<ElementType>, true>]
    (lines 1753-2171) *)
Module NormalizedArrayPropertyView.
Import ArrayMembers.
Section WithElementType.
Variables E N : ElementType.

(** Lines 1799-1807; the same block at 1894-1902 and 1949-1957. *)
Definition resolveOffset (raw : option JsonValue) : Stmt t :=
  ifSome raw (λ offset,
    assign (set_offset (getArrayValue N offset)) ;;;
    if_ (λ v, invalidForCount (_offset v) (_count v))
        (fail ErrorInvalidOffset)).

(** Lines 1809-1817. *)
Definition resolveScale (raw : option JsonValue) : Stmt t :=
  ifSome raw (λ scale,
    assign (set_scale (getArrayValue N scale)) ;;;
    if_ (λ v, invalidForCount (_scale v) (_count v))
        (fail ErrorInvalidScale)).

(** Lines 1904-1912 and 1959-1967: the override's [scale];
    [!_scale || (_count > 0 || _scale->size() != static_cast<size_t>(_count))]. *)
Definition overrideScale (raw : option JsonValue) : Stmt t :=
  ifSome raw (λ scale,
    assign (set_scale (getArrayValue N scale)) ;;;
    if_ (λ v, match _scale v with
              | None => true
              | Some bytes =>
                  bool_decide (0 < _count v)
                  || bool_decide (size bytes ≠ to_size_t (_count v))
              end)
        (fail ErrorInvalidScale)).

(** Lines 1819-1827; the same block at 1914-1922 and 1969-1977. *)
Definition resolveMax (raw : option JsonValue) : Stmt t :=
  ifSome raw (λ max,
    assign (set_max (getArrayValue N max)) ;;;
    if_ (λ v, invalidForCount (_max v) (_count v)) (fail ErrorInvalidMax)).

(** Lines 1829-1837; the same block at 1924-1932 and 1979-1987. *)
Definition resolveMin (raw : option JsonValue) : Stmt t :=
  ifSome raw (λ min,
    assign (set_min (getArrayValue N min)) ;;;
    if_ (λ v, invalidForCount (_min v) (_count v)) (fail ErrorInvalidMin)).

(** Lines 1839-1848. *)
Definition resolveNoData (raw : option JsonValue) : Stmt t :=
  ifSome raw (λ noData,
    if_ (λ v, negb (_required v))
        (assign (set_noData (getArrayValue E noData))) ;;;
    if_ (λ v, isNone (_noData v)) (fail ErrorInvalidNoDataValue)).

(** Lines 1850-1860. *)
Definition resolveDefault (raw : option JsonValue) : Stmt t :=
  ifSome raw (λ defaultProperty,
    if_ (λ v, negb (_required v))
        (assign (set_defaultValue (getArrayValue N defaultProperty))) ;;;
    if_ (λ v, isNone (_defaultValue v)) (fail ErrorInvalidDefaultValue)).

(** [PropertyView(const ClassProperty&)], lines 1779-1861. *)
Definition ofClassProperty (classProperty : ClassProperty.t) : t :=
  exec
    (if_ (λ v, notValid (_status v)) return_ ;;;
     if_ (λ _, negb (ClassProperty.normalized classProperty))
         (fail ErrorInvalidNormalization) ;;;
     resolveOffset (ClassProperty.offset classProperty) ;;;
     resolveScale (ClassProperty.scale classProperty) ;;;
     resolveMax (ClassProperty.max classProperty) ;;;
     resolveMin (ClassProperty.min classProperty) ;;;
     resolveNoData (ClassProperty.noData classProperty) ;;;
     resolveDefault (ClassProperty.defaultProperty classProperty))
    (initialMembers (validateArrayPropertyType E classProperty) classProperty).

(** [PropertyView(const ClassProperty&, const PropertyTableProperty&)],
    lines 1884-1933. *)
Definition ofPropertyTableProperty (classProperty : ClassProperty.t)
    (property : PropertyTableProperty.t) : t :=
  exec
    (if_ (λ v, notValid (_status v)) return_ ;;;
     resolveOffset (PropertyTableProperty.offset property) ;;;
     overrideScale (PropertyTableProperty.scale property) ;;;
     resolveMax (PropertyTableProperty.max property) ;;;
     resolveMin (PropertyTableProperty.min property))
    (ofClassProperty classProperty).

(** [PropertyView(const ClassProperty&, const PropertyTextureProperty&)],
    lines 1939-1988. *)
Definition ofPropertyTextureProperty (classProperty : ClassProperty.t)
    (property : PropertyTextureProperty.t) : t :=
  exec
    (if_ (λ v, notValid (_status v)) return_ ;;;
     resolveOffset (PropertyTextureProperty.offset property) ;;;
     overrideScale (PropertyTextureProperty.scale property) ;;;
     resolveMax (PropertyTextureProperty.max property) ;;;
     resolveMin (PropertyTextureProperty.min property))
    (ofClassProperty classProperty).

(** The public accessors, lines 1994-2083. *)
Definition status (v : t) : PropertyViewStatus := _status v.
Definition arrayCount (v : t) : Z := _count v.
Definition normalized (v : t) : bool := true.
Definition offset (v : t) : option (list Z) := _offset v.
Definition scale (v : t) : option (list Z) := _scale v.
Definition max (v : t) : option (list Z) := _max v.
Definition min (v : t) : option (list Z) := _min v.
Definition required (v : t) : bool := _required v.
Definition noData (v : t) : option (list Z) := _noData v.
Definition defaultValue (v : t) : option (list Z) := _defaultValue v.

(** [applyValueTransforms] (lines 2088-2108) has no embedding: line 2099
    assigns the scaled element to the vector [result] where lines 2096 and
    2103 write [result[i]], and [size()] and [operator[]] are applied to the
    optionals that [offset()] and [scale()] return, so the member function is
    ill-formed once instantiated. *)
End WithElementType.
End NormalizedArrayPropertyView.

(** ** Validation by traits

    [validatePropertyType<T>] and [validateArrayPropertyType<T>] (lines 95-152)
    read [T] through [TypeToPropertyType<T>::value] and [::component] only;
    here they are for given traits, which covers [bool] and
    [std::string_view], whose traits no numeric shape yields. *)

Definition validatePropertyTypeFor (value : PropertyType)
    (component : PropertyComponentType) (classProperty : ClassProperty.t)
  : PropertyViewStatus :=
  if bool_decide (value ≠
                  convertStringToPropertyType (ClassProperty.type classProperty))
  then ErrorTypeMismatch
  else
    let expectedComponentType := component in
    match ClassProperty.componentType classProperty with
    | None =>
        if bool_decide (expectedComponentType ≠ None_)
        then ErrorComponentTypeMismatch
        else if ClassProperty.array classProperty then ErrorArrayTypeMismatch
        else Valid
    | Some componentType =>
        if bool_decide (expectedComponentType ≠
                        convertStringToPropertyComponentType componentType)
        then ErrorComponentTypeMismatch
        else if ClassProperty.array classProperty then ErrorArrayTypeMismatch
        else Valid
    end.

Definition validateArrayPropertyTypeFor (value : PropertyType)
    (component : PropertyComponentType) (classProperty : ClassProperty.t)
  : PropertyViewStatus :=
  if bool_decide (value ≠
                  convertStringToPropertyType (ClassProperty.type classProperty))
  then ErrorTypeMismatch
  else
    let expectedComponentType := component in
    match ClassProperty.componentType classProperty with
    | None =>
        if bool_decide (expectedComponentType ≠ None_)
        then ErrorComponentTypeMismatch
        else if negb (ClassProperty.array classProperty)
        then ErrorArrayTypeMismatch
        else Valid
    | Some componentType =>
        if bool_decide (expectedComponentType ≠
                        convertStringToPropertyComponentType componentType)
        then ErrorComponentTypeMismatch
        else if negb (ClassProperty.array classProperty)
        then ErrorArrayTypeMismatch
        else Valid
    end.

(** ** [PropertyView<bool>] (lines 993-1120) *)
Module BooleanPropertyView.

Record t := {
  _status : PropertyViewStatus;
  _required : bool;
  _defaultValue : option bool
}.

Definition set_status (x : PropertyViewStatus) (v : t) : t :=
  {| _status := x; _required := _required v;
     _defaultValue := _defaultValue v |}.

Definition set_defaultValue (x : option bool) (v : t) : t :=
  {| _status := _status v; _required := _required v; _defaultValue := x |}.

(** [getBooleanValue], lines 1112-1119. *)
Definition getBooleanValue (value : JsonValue) : option bool :=
  if negb (isBool value) then None else Some (getBool value).

(** [PropertyView(const ClassProperty&)], lines 1006-1025; the traits of
    [bool] are the type [Boolean] and the component type [None]. *)
Definition ofClassProperty (classProperty : ClassProperty.t) : t :=
  exec
    (if_ (λ v, notValid (_status v)) return_ ;;;
     ifSome (ClassProperty.defaultProperty classProperty) (λ defaultProperty,
       if_ (λ v, negb (_required v))
           (assign (set_defaultValue (getBooleanValue defaultProperty))) ;;;
       if_ (λ v, isNone (_defaultValue v))
           (assign (set_status ErrorInvalidDefaultValue) ;;; return_)))
    {| _status := validatePropertyTypeFor Boolean None_ classProperty;
       _required := ClassProperty.required classProperty;
       _defaultValue := None |}.

(** Lines 1040-1043: the property table property is not read. *)
Definition ofPropertyTableProperty (classProperty : ClassProperty.t)
    (property : PropertyTableProperty.t) : t :=
  ofClassProperty classProperty.

(** Lines 1049-1052: the property texture property is not read. *)
Definition ofPropertyTextureProperty (classProperty : ClassProperty.t)
    (property : PropertyTextureProperty.t) : t :=
  ofClassProperty classProperty.

(** The public accessors, lines 1058-1103. *)
Definition status (v : t) : PropertyViewStatus := _status v.
Definition arrayCount (v : t) : Z := 0.
Definition normalized (v : t) : bool := false.
Definition offset (v : t) : option bool := None.
Definition scale (v : t) : option bool := None.
Definition max (v : t) : option bool := None.
Definition min (v : t) : option bool := None.
Definition required (v : t) : bool := _required v.
Definition noData (v : t) : option bool := None.
Definition defaultValue (v : t) : option bool := _defaultValue v.

End BooleanPropertyView.

(** ** [PropertyView<std::string_view>] (lines 1126-1285) *)

(** The string a [const char*] stands for: the characters before the first
    NUL of [s.c_str()]. *)
Fixpoint c_str (s : string) : string :=
  match s with
  | EmptyString => EmptyString
  | String.String a rest =>
      if Ascii.eqb a Ascii.zero then EmptyString
      else String.String a (c_str rest)
  end.

Module StringPropertyView.

Record t := {
  _status : PropertyViewStatus;
  _required : bool;
  _noData : option string;
  _defaultValue : option string
}.

Definition set_status (x : PropertyViewStatus) (v : t) : t :=
  {| _status := x; _required := _required v; _noData := _noData v;
     _defaultValue := _defaultValue v |}.

Definition set_noData (x : option string) (v : t) : t :=
  {| _status := _status v; _required := _required v; _noData := x;
     _defaultValue := _defaultValue v |}.

Definition set_defaultValue (x : option string) (v : t) : t :=
  {| _status := _status v; _required := _required v; _noData := _noData v;
     _defaultValue := x |}.

(** [getStringValue], lines 1277-1284: the string is rebuilt from
    [value.getString().c_str()]. *)
Definition getStringValue (value : JsonValue) : option string :=
  if negb (isString value) then None else Some (c_str (getString value)).

(** [PropertyView(const ClassProperty&)], lines 1140-1172; the traits of
    [std::string_view] are the type [String] and the component type [None]. *)
Definition ofClassProperty (classProperty : ClassProperty.t) : t :=
  exec
    (if_ (λ v, notValid (_status v)) return_ ;;;
     ifSome (ClassProperty.noData classProperty) (λ noData,
       if_ (λ v, negb (_required v))
           (assign (set_noData (getStringValue noData))) ;;;
       if_ (λ v, isNone (_noData v))
           (assign (set_status ErrorInvalidNoDataValue) ;;; return_)) ;;;
     ifSome (ClassProperty.defaultProperty classProperty) (λ defaultProperty,
       if_ (λ v, negb (_required v))
           (assign (set_defaultValue (getStringValue defaultProperty))) ;;;
       if_ (λ v, isNone (_defaultValue v))
           (assign (set_status ErrorInvalidDefaultValue) ;;; return_)))
    {| _status := validatePropertyTypeFor String None_ classProperty;
       _required := ClassProperty.required classProperty;
       _noData := None;
       _defaultValue := None |}.

(** Lines 1190-1193: the property table property is not read. *)
Definition ofPropertyTableProperty (classProperty : ClassProperty.t)
    (property : PropertyTableProperty.t) : t :=
  ofClassProperty classProperty.

(** Lines 1199-1202: the property texture property is not read. *)
Definition ofPropertyTextureProperty (classProperty : ClassProperty.t)
    (property : PropertyTextureProperty.t) : t :=
  ofClassProperty classProperty.

(** The public accessors, lines 1208-1267. *)
Definition status (v : t) : PropertyViewStatus := _status v.
Definition arrayCount (v : t) : Z := 0.
Definition normalized (v : t) : bool := false.
Definition offset (v : t) : option string := None.
Definition scale (v : t) : option string := None.
Definition max (v : t) : option string := None.
Definition min (v : t) : option string := None.
Definition required (v : t) : bool := _required v.
Definition noData (v : t) : option string := _noData v.
Definition defaultValue (v : t) : option string := _defaultValue v.

End StringPropertyView.

(** ** Undefined behaviour

    An access past the end of a buffer ([operator[]] or [std::memcpy]) has no
    defined result; a function that can reach one returns an [Outcome]. *)
Inductive Outcome (A : Type) :=
| Done (a : A)
| OutOfBounds.
Arguments Done {A} a.
Arguments OutOfBounds {A}.

#[global] Instance Outcome_ret : MRet Outcome := λ A a, Done a.
#[global] Instance Outcome_bind : MBind Outcome :=
  λ A B f x, match x with Done a => f a | OutOfBounds => OutOfBounds end.

(** ** [PropertyView<PropertyArrayView<bool>>::getBooleanArrayValue]
    (lines 2329-2366) *)
Module BooleanArrayPropertyView.

(** The locals of the loop and the [size] out-parameter.  [byteIndex] is a
    [size_t], [bitIndex] a [uint8_t]. *)
Record Locals := {
  values : list Z;
  byteIndex : Z;
  bitIndex : Z;
  size_ : Z
}.

(** One iteration of the loop body on a boolean element, followed by the
    increment [size++]. *)
Definition iteration (element : bool) (l : Locals) : Outcome Locals :=
  (* if (values.size() < byteIndex - 1) values.push_back(std::byte(0)); *)
  let values1 :=
    if bool_decide (size (values l) < (byteIndex l - 1) `mod` 2 ^ 64)
    then values l ++ [0]
    else values l in
  (* std::byte value = std::byte(b ? 1 : 0); value = value << bitIndex; *)
  let value := Z.shiftl (if element then 1 else 0) (bitIndex l) `mod` 256 in
  (* values[byteIndex] |= value; *)
  match values1 !! Z.to_nat (byteIndex l) with
  | None => OutOfBounds
  | Some old =>
      let values2 := <[Z.to_nat (byteIndex l) := Z.lor old value]> values1 in
      (* bitIndex++; if (bitIndex > 7) { byteIndex++; bitIndex = 0; } *)
      let bitIndex1 := (bitIndex l + 1) `mod` 256 in
      Done
        (if bool_decide (7 < bitIndex1)
         then {| values := values2;
                 byteIndex := (byteIndex l + 1) `mod` 2 ^ 64;
                 bitIndex := 0;
                 size_ := size_ l + 1 |}
         else {| values := values2;
                 byteIndex := byteIndex l;
                 bitIndex := bitIndex1;
                 size_ := size_ l + 1 |})
  end.

(** The [for] loop over the elements left to visit.  An element that is not
    a boolean resets [size] and returns the buffer built so far. *)
Fixpoint loop (array : list JsonValue) (l : Locals)
  : Outcome (list Z * Z) :=
  match array with
  | [] => Done (values l, size_ l)
  | element :: rest =>
      if negb (isBool element) then Done (values l, 0)
      else l' ← iteration (getBool element) l; loop rest l'
  end.

(** [getBooleanArrayValue(jsonValue, size)]: the returned buffer and the
    final value of the [size] reference. *)
Definition getBooleanArrayValue (jsonValue : JsonValue) (size0 : Z)
  : Outcome (list Z * Z) :=
  if negb (isArray jsonValue) then Done ([], size0)
  else
    loop (getArray jsonValue)
         {| values := []; byteIndex := 0; bitIndex := 0; size_ := size0 |}.

(** The members of the view, lines 2319-2327. *)
Record t := {
  _status : PropertyViewStatus;
  _count : Z;
  _required : bool;
  _defaultValue : list Z;
  _size : Z
}.

Definition set_status (x : PropertyViewStatus) (v : t) : t :=
  {| _status := x; _count := _count v; _required := _required v;
     _defaultValue := _defaultValue v; _size := _size v |}.

(** [_defaultValue = getBooleanArrayValue(json, _size)], lines 2205-2206. *)
Definition assignDefaultValue (json : JsonValue) (v : t) : Outcome t :=
  '(buffer, size') ← getBooleanArrayValue json (_size v);
  Done {| _status := _status v; _count := _count v;
          _required := _required v;
          _defaultValue := buffer; _size := size' |}.

(** [PropertyView(const ClassProperty&)], lines 2192-2214; the traits of
    [bool] are the type [Boolean] and the component type [None]. *)
Definition ofClassProperty (classProperty : ClassProperty.t) : Outcome t :=
  let v :=
    {| _status := validateArrayPropertyTypeFor Boolean None_ classProperty;
       _count := match ClassProperty.count classProperty with
                 | Some count => count
                 | None => 0
                 end;
       _required := ClassProperty.required classProperty;
       _defaultValue := [];
       _size := 0 |} in
  if notValid (_status v) then Done v
  else
    match ClassProperty.defaultProperty classProperty with
    | None => Done v
    | Some defaultProperty =>
        v' ← (if negb (_required v)
              then assignDefaultValue defaultProperty v else Done v);
        if bool_decide (_size v' = 0)
           || (bool_decide (0 < _count v')
               && bool_decide (_size v' ≠ _count v'))
        then Done (set_status ErrorInvalidDefaultValue v')
        else Done v'
    end.

(** What a [PropertyArrayView<bool>] is built from: the buffer, the bit
    offset and the number of booleans. *)
Record PropertyArrayView := {
  viewBuffer : list Z;
  viewBitOffset : Z;
  viewSize : Z
}.

Definition status (v : t) : PropertyViewStatus := _status v.
Definition arrayCount (v : t) : Z := _count v.
Definition required (v : t) : bool := _required v.

(** [defaultValue()], lines 2306-2317. *)
Definition defaultValue (v : t) : option PropertyArrayView :=
  if bool_decide (0 < _size v)
  then Some {| viewBuffer := _defaultValue v;
               viewBitOffset := 0;
               viewSize := _size v |}
  else None.

End BooleanArrayPropertyView.

(** ** [PropertyView<PropertyArrayView<std::string_view>>]
    (lines 2373-2652) *)

(** The bytes of a [std::string]. *)
Definition stringBytes (s : string) : list Z :=
  (λ a, Z.of_N (Ascii.N_of_ascii a)) <$> String.list_ascii_of_string s.

(** The object representation of an unsigned integer of [width] bytes, least
    significant byte first (the buffers are produced on a little-endian
    target). *)
Definition littleEndian (width : nat) (x : Z) : list Z :=
  (λ i : nat, (x `div` 256 ^ Z.of_nat i) `mod` 256) <$> seq 0 width.

(** The unsigned integer a little-endian byte sequence stands for. *)
Fixpoint fromLittleEndian (bytes : list Z) : Z :=
  match bytes with
  | [] => 0
  | b :: rest => b + 256 * fromLittleEndian rest
  end.

(** The bytes of [dst] after [std::memcpy(dst.data() + pos, src, n)] with
    [src] holding [n] bytes. *)
Definition splice (dst : list Z) (pos : nat) (src : list Z) : list Z :=
  take pos dst ++ src ++ drop (pos + length src) dst.

(** [std::memcpy] into a buffer: defined only when the destination range lies
    inside the buffer. *)
Definition memcpy (dst : list Z) (pos : Z) (src : list Z)
  : Outcome (list Z) :=
  if bool_decide (0 ≤ pos ∧ pos + size src ≤ size dst)
  then Done (splice dst (Z.to_nat pos) src)
  else OutOfBounds.

Module StringArrayPropertyView.

(** [narrowOffsetsBuffer<T>] (lines 2640-2651), [T] of [width] bytes: each
    offset is cast to [T] and copied at [bufferOffset]. *)
Fixpoint narrowLoop (width : nat) (offsets : list Z) (bufferOffset : nat)
    (result : list Z) : list Z :=
  match offsets with
  | [] => result
  | o :: rest =>
      let offset := o `mod` 256 ^ Z.of_nat width in
      narrowLoop width rest (bufferOffset + width)
                 (splice result bufferOffset (littleEndian width offset))
  end.

Definition narrowOffsetsBuffer (width : nat) (offsets : list Z) : list Z :=
  narrowLoop width offsets 0 (replicate (length offsets * width) 0).

(** The first loop of [getStringArrayValue] (lines 2600-2609): the strings
    and the running offsets, or nothing when an element is not a string.
    [stringOffsets] is a vector of [uint64_t]. *)
Fixpoint collect (array : list JsonValue) (strings : list string)
    (stringOffsets : list Z) : option (list string * list Z) :=
  match array with
  | [] => Some (strings, stringOffsets)
  | element :: rest =>
      if negb (isString element) then None
      else
        let string := getString element in
        let i := length strings in
        collect rest (strings ++ [string])
                (stringOffsets ++
                 [(default 0 (stringOffsets !! i) + size (stringBytes string))
                    `mod` 2 ^ 64])
  end.

(** The second loop (lines 2613-2618): string [i] is copied at
    [stringOffsets[i]]. *)
Fixpoint copyStrings (strings : list string) (stringOffsets : list Z)
    (values : list Z) : Outcome (list Z) :=
  match strings, stringOffsets with
  | string :: strings', offset :: stringOffsets' =>
      values' ← memcpy values offset (stringBytes string);
      copyStrings strings' stringOffsets' values'
  | [], _ => Done values
  | _ :: _, [] => OutOfBounds
  end.

(** The three out-parameters of [getStringArrayValue]. *)
Record Out := {
  offsets : list Z;
  offsetType : PropertyComponentType;
  size_ : Z
}.

(** [getStringArrayValue] (lines 2583-2638): the returned buffer and the
    out-parameters after the call. *)
Definition getStringArrayValue (jsonValue : JsonValue) (out : Out)
  : Outcome (list Z * Out) :=
  if negb (isArray jsonValue) then Done ([], out)
  else
    match collect (getArray jsonValue) [] [0] with
    | None => Done ([], out)
    | Some (strings, stringOffsets) =>
        let totalLength := default 0 (last stringOffsets) in
        values ← copyStrings strings stringOffsets
                             (replicate (Z.to_nat totalLength) 0);
        let out' :=
          if bool_decide (totalLength ≤ 255)
          then {| offsets := narrowOffsetsBuffer 1 stringOffsets;
                  offsetType := Uint8;
                  size_ := size strings |}
          else if bool_decide (totalLength ≤ 65535)
          then {| offsets := narrowOffsetsBuffer 2 stringOffsets;
                  offsetType := Uint16;
                  size_ := size strings |}
          else if bool_decide (totalLength ≤ 4294967295)
          then {| offsets := narrowOffsetsBuffer 4 stringOffsets;
                  offsetType := Uint32;
                  size_ := size strings |}
          else {| offsets := concat (littleEndian 8 <$> stringOffsets);
                  offsetType := Uint64;
                  size_ := size strings |} in
        Done (values, out')
    end.

Record t := {
  _status : PropertyViewStatus;
  _count : Z;
  _required : bool;
  _noData : list Z;
  _noDataOffsets : list Z;
  _noDataOffsetType : PropertyComponentType;
  _noDataSize : Z;
  _defaultValue : list Z;
  _defaultValueOffsets : list Z;
  _defaultValueOffsetType : PropertyComponentType;
  _defaultValueSize : Z
}.

Definition set_status (x : PropertyViewStatus) (v : t) : t :=
  {| _status := x; _count := _count v; _required := _required v;
     _noData := _noData v; _noDataOffsets := _noDataOffsets v;
     _noDataOffsetType := _noDataOffsetType v;
     _noDataSize := _noDataSize v;
     _defaultValue := _defaultValue v;
     _defaultValueOffsets := _defaultValueOffsets v;
     _defaultValueOffsetType := _defaultValueOffsetType v;
     _defaultValueSize := _defaultValueSize v |}.

(** [_noData = getStringArrayValue(json, _noDataOffsets, _noDataOffsetType,
    _noDataSize)] (lines 2413-2417). *)
Definition assignNoData (json : JsonValue) (v : t) : Outcome t :=
  '(values, out) ← getStringArrayValue json
                     {| offsets := _noDataOffsets v;
                        offsetType := _noDataOffsetType v;
                        size_ := _noDataSize v |};
  Done {| _status := _status v; _count := _count v;
          _required := _required v;
          _noData := values; _noDataOffsets := offsets out;
          _noDataOffsetType := offsetType out;
          _noDataSize := size_ out;
          _defaultValue := _defaultValue v;
          _defaultValueOffsets := _defaultValueOffsets v;
          _defaultValueOffsetType := _defaultValueOffsetType v;
          _defaultValueSize := _defaultValueSize v |}.

(** [_defaultValue = getStringArrayValue(json, _defaultValueOffsets,
    _defaultValueOffsetType, _defaultValueSize)] (lines 2428-2432). *)
Definition assignDefaultValue (json : JsonValue) (v : t) : Outcome t :=
  '(values, out) ← getStringArrayValue json
                     {| offsets := _defaultValueOffsets v;
                        offsetType := _defaultValueOffsetType v;
                        size_ := _defaultValueSize v |};
  Done {| _status := _status v; _count := _count v;
          _required := _required v;
          _noData := _noData v; _noDataOffsets := _noDataOffsets v;
          _noDataOffsetType := _noDataOffsetType v;
          _noDataSize := _noDataSize v;
          _defaultValue := values;
          _defaultValueOffsets := offsets out;
          _defaultValueOffsetType := offsetType out;
          _defaultValueSize := size_ out |}.

(** Lines 2411-2424. *)
Definition resolveNoData (raw : option JsonValue) (v : t)
  : Outcome (Flow * t) :=
  match raw with
  | None => Done (Next, v)
  | Some noData =>
      v' ← (if negb (_required v) then assignNoData noData v else Done v);
      if bool_decide (_noDataSize v' = 0)
         || (bool_decide (0 < _count v')
             && bool_decide (_noDataSize v' ≠ _count v'))
      then Done (Returned, set_status ErrorInvalidNoDataValue v')
      else Done (Next, v')
  end.

(** Lines 2426-2440.  The count test reads [_noDataSize]. *)
Definition resolveDefault (raw : option JsonValue) (v : t)
  : Outcome (Flow * t) :=
  match raw with
  | None => Done (Next, v)
  | Some defaultProperty =>
      v' ← (if negb (_required v)
            then assignDefaultValue defaultProperty v else Done v);
      if bool_decide (_defaultValueSize v' = 0)
         || (bool_decide (0 < _count v')
             && bool_decide (_noDataSize v' ≠ _count v'))
      then Done (Returned, set_status ErrorInvalidDefaultValue v')
      else Done (Next, v')
  end.

(** [validateArrayPropertyType<PropertyArrayView<std::string_view>>]
    (lines 124-152): the traits of [std::string_view] are the type [String]
    and the component type [None]. *)
Definition validateStringArrayPropertyType (classProperty : ClassProperty.t)
  : PropertyViewStatus :=
  if bool_decide (String ≠
                  convertStringToPropertyType (ClassProperty.type classProperty))
  then ErrorTypeMismatch
  else
    let expectedComponentType := None_ in
    match ClassProperty.componentType classProperty with
    | None =>
        if bool_decide (expectedComponentType ≠ None_)
        then ErrorComponentTypeMismatch
        else if negb (ClassProperty.array classProperty)
        then ErrorArrayTypeMismatch
        else Valid
    | Some componentType =>
        if bool_decide (expectedComponentType ≠
                        convertStringToPropertyComponentType componentType)
        then ErrorComponentTypeMismatch
        else if negb (ClassProperty.array classProperty)
        then ErrorArrayTypeMismatch
        else Valid
    end.

(** [PropertyView(const ClassProperty&)], lines 2394-2441. *)
Definition ofClassProperty (classProperty : ClassProperty.t) : Outcome t :=
  let v :=
    {| _status := validateStringArrayPropertyType classProperty;
       _count := match ClassProperty.count classProperty with
                 | Some count => count
                 | None => 0
                 end;
       _required := ClassProperty.required classProperty;
       _noData := []; _noDataOffsets := [];
       _noDataOffsetType := None_; _noDataSize := 0;
       _defaultValue := []; _defaultValueOffsets := [];
       _defaultValueOffsetType := None_; _defaultValueSize := 0 |} in
  if notValid (_status v) then Done v
  else
    '(flow, v1) ← resolveNoData (ClassProperty.noData classProperty) v;
    match flow with
    | Returned => Done v1
    | Next =>
        '(_, v2) ← resolveDefault
                     (ClassProperty.defaultProperty classProperty) v1;
        Done v2
    end.

(** What a [PropertyArrayView<std::string_view>] is built from: the value
    bytes, the offset bytes, the offset type and the number of strings. *)
Record PropertyArrayView := {
  viewValues : list Z;
  viewOffsets : list Z;
  viewOffsetType : PropertyComponentType;
  viewSize : Z
}.

Definition status (v : t) : PropertyViewStatus := _status v.
Definition arrayCount (v : t) : Z := _count v.

(** [noData()], lines 2532-2544. *)
Definition noData (v : t) : option PropertyArrayView :=
  if bool_decide (0 < _noDataSize v)
  then Some {| viewValues := _noData v;
               viewOffsets := _noDataOffsets v;
               viewOffsetType := _noDataOffsetType v;
               viewSize := _noDataSize v |}
  else None.

(** [defaultValue()], lines 2549-2564.  The guard reads [_noDataSize]. *)
Definition defaultValue (v : t) : option PropertyArrayView :=
  if bool_decide (0 < _noDataSize v)
  then Some {| viewValues := _defaultValue v;
               viewOffsets := _defaultValueOffsets v;
               viewOffsetType := _defaultValueOffsetType v;
               viewSize := _defaultValueSize v |}
  else None.

End StringArrayPropertyView.

(** ** Component types *)

(** Modelled from the spec: [JsonValue::getSafeNumber<T>] of JsonValue.h for
    an integer type [T], the safe numeric extraction that yields no value when
    the node is not a number or the number does not fit [T].  The type has
    [width] bytes, holds [lowest .. highest] and is stored in two's
    complement. *)
Definition integerType (component : PropertyComponentType)
    (lowest highest : Z) (width : nat) : ScalarType :=
  {| carrier := Z;
     componentOf := component;
     sizeofScalar := Z.of_nat width;
     getSafeNumber := λ j,
       match j with
       | JNumber n =>
           if bool_decide (lowest ≤ n ≤ highest) then Number n
           else narrowing_error
       | _ => JsonValueNotRealValue
       end;
     scalarBytes := λ x, littleEndian width (x `mod` 256 ^ Z.of_nat width) |}.

Definition int8_t : ScalarType := integerType Int8 (-128) 127 1.
Definition uint8_t : ScalarType := integerType Uint8 0 255 1.
Definition int16_t : ScalarType := integerType Int16 (-32768) 32767 2.
Definition uint16_t : ScalarType := integerType Uint16 0 65535 2.
Definition int32_t : ScalarType := integerType Int32 (-2147483648) 2147483647 4.
Definition uint32_t : ScalarType := integerType Uint32 0 4294967295 4.
Definition int64_t : ScalarType :=
  integerType Int64 (-9223372036854775808) 9223372036854775807 8.
Definition uint64_t : ScalarType :=
  integerType Uint64 0 18446744073709551615 8.

(** The binary64 pattern of an integer, when the integer is a binary64 value:
    sign, biased exponent and the 52 stored bits of the significand. *)
Definition binary64_of_Z (n : Z) : option Z :=
  if bool_decide (n = 0) then Some 0
  else
    let a := Z.abs n in
    let e := Z.log2 a in
    let sign := if bool_decide (n < 0) then 2 ^ 63 else 0 in
    if bool_decide (e ≤ 52)
    then Some (sign + (e + 1023) * 2 ^ 52 + (a * 2 ^ (52 - e) - 2 ^ 52))
    else if bool_decide (a `mod` 2 ^ (e - 52) = 0)
    then Some (sign + (e + 1023) * 2 ^ 52 + (a `div` 2 ^ (e - 52) - 2 ^ 52))
    else None.

(** Modelled from the spec: [JsonValue::getSafeNumber<double>] of
    JsonValue.h, which yields no value when the node is not a number or the
    number is not a binary64 value.  A [double] is its 64-bit pattern. *)
Definition double : ScalarType :=
  {| carrier := Z;
     componentOf := Float64;
     sizeofScalar := 8;
     getSafeNumber := λ j,
       match j with
       | JNumber n =>
           match binary64_of_Z n with
           | Some bits => Number bits
           | None => narrowing_error
           end
       | _ => JsonValueNotRealValue
       end;
     scalarBytes := littleEndian 8 |}.

(** The scalar element type over a component type. *)
Definition scalarElement (T : ScalarType) : ElementType :=
  {| scalarOf := T; shapeOf := IsMetadataScalar |}.

(** The vector element type [glm::vec<N, T>]. *)
Definition vecElement (N : nat) (T : ScalarType) : ElementType :=
  {| scalarOf := T; shapeOf := IsMetadataVecN N |}.

(** The matrix element type [glm::mat<N, N, T>]. *)
Definition matElement (N : nat) (T : ScalarType) : ElementType :=
  {| scalarOf := T; shapeOf := IsMetadataMatN N |}.

(** * Inputs and reference definitions

    The class properties and overrides the properties below are evaluated
    at, and the functions the codecs are compared with. *)

(** A raw value that is absent, or that [getValue] parses. *)
Definition parsesIfDeclared (E : ElementType) (raw : option JsonValue) : bool :=
  match raw with
  | Some j => negb (isNone (getValue E j))
  | None => true
  end.

(** What is left of an override once its offset is resolved: a declared scale
    parses, a declared max or min finds a scale, the override's or the class
    property's, and a declared max or min parses. *)
Definition restResolves (E : ElementType) (classScale : option (ValueOf E))
    (scale max min : option JsonValue) : bool :=
  match scale with
  | Some s => negb (isNone (getValue E s))
  | None => true
  end
  && (if negb (isNone max) || negb (isNone min)
      then negb (isNone scale) || negb (isNone classScale)
      else true)
  && parsesIfDeclared E max
  && parsesIfDeclared E min.

(** A [double] class property declaring the offset 10, and overrides
    declaring the offset 20. *)
Definition offset10 : ClassProperty.t :=
  {| ClassProperty.type := "SCALAR";
     ClassProperty.componentType := Some "FLOAT64"%string;
     ClassProperty.array := false;
     ClassProperty.count := None;
     ClassProperty.normalized := false;
     ClassProperty.offset := Some (JNumber 10);
     ClassProperty.scale := None;
     ClassProperty.max := None;
     ClassProperty.min := None;
     ClassProperty.required := false;
     ClassProperty.noData := None;
     ClassProperty.defaultProperty := None |}.

Definition tableOffset20 : PropertyTableProperty.t :=
  {| PropertyTableProperty.offset := Some (JNumber 20);
     PropertyTableProperty.scale := None;
     PropertyTableProperty.max := None;
     PropertyTableProperty.min := None |}.

Definition textureOffset20 : PropertyTextureProperty.t :=
  {| PropertyTextureProperty.offset := Some (JNumber 20);
     PropertyTextureProperty.scale := None;
     PropertyTextureProperty.max := None;
     PropertyTextureProperty.min := None |}.

(** The binary64 patterns of 10.0 and 20.0. *)
Definition ten : Z := 0x4024000000000000.
Definition twenty : Z := 0x4034000000000000.

(** A [uint8_t] class property, scalar or array, with a raw offset and a raw
    scale. *)
Definition uint8Property (array : bool) (offset scale : option JsonValue)
  : ClassProperty.t :=
  {| ClassProperty.type := "SCALAR";
     ClassProperty.componentType := Some "UINT8"%string;
     ClassProperty.array := array;
     ClassProperty.count := None;
     ClassProperty.normalized := false;
     ClassProperty.offset := offset;
     ClassProperty.scale := scale;
     ClassProperty.max := None;
     ClassProperty.min := None;
     ClassProperty.required := false;
     ClassProperty.noData := None;
     ClassProperty.defaultProperty := None |}.

(** A non-array class property of type SCALAR. *)
Definition scalarProperty (componentType : string) (normalized : bool)
    (offset scale max min : option JsonValue) : ClassProperty.t :=
  {| ClassProperty.type := "SCALAR";
     ClassProperty.componentType := Some componentType;
     ClassProperty.array := false;
     ClassProperty.count := None;
     ClassProperty.normalized := normalized;
     ClassProperty.offset := offset;
     ClassProperty.scale := scale;
     ClassProperty.max := max;
     ClassProperty.min := min;
     ClassProperty.required := false;
     ClassProperty.noData := None;
     ClassProperty.defaultProperty := None |}.

(** An array class property of element type SCALAR. *)
Definition arrayProperty (componentType : string) (count : option Z)
    (normalized : bool) (offset scale max min noData : option JsonValue)
  : ClassProperty.t :=
  {| ClassProperty.type := "SCALAR";
     ClassProperty.componentType := Some componentType;
     ClassProperty.array := true;
     ClassProperty.count := count;
     ClassProperty.normalized := normalized;
     ClassProperty.offset := offset;
     ClassProperty.scale := scale;
     ClassProperty.max := max;
     ClassProperty.min := min;
     ClassProperty.required := false;
     ClassProperty.noData := noData;
     ClassProperty.defaultProperty := None |}.

Definition tableScale (scale : JsonValue) : PropertyTableProperty.t :=
  {| PropertyTableProperty.offset := None;
     PropertyTableProperty.scale := Some scale;
     PropertyTableProperty.max := None;
     PropertyTableProperty.min := None |}.

Definition textureScale (scale : JsonValue) : PropertyTextureProperty.t :=
  {| PropertyTextureProperty.offset := None;
     PropertyTextureProperty.scale := Some scale;
     PropertyTextureProperty.max := None;
     PropertyTextureProperty.min := None |}.

(** The byte length of a string. *)
Definition byteLength (s : string) : Z := size (stringBytes s).
Arguments byteLength : simpl never.

(** The sum of a list of lengths. *)
Fixpoint sumOf (lengths : list Z) : Z :=
  match lengths with
  | [] => 0
  | l :: rest => l + sumOf rest
  end.

(** The running totals [start], [start + l1], [start + l1 + l2], ... *)
Fixpoint prefixSums (start : Z) (lengths : list Z) : list Z :=
  match lengths with
  | [] => [start]
  | l :: rest => start :: prefixSums (start + l) rest
  end.

(** [sizeof(T)] of the unsigned type an offset type names. *)
Definition offsetWidth (offsetType : PropertyComponentType) : nat :=
  match offsetType with
  | Uint8 => 1
  | Uint16 => 2
  | Uint32 => 4
  | Uint64 => 8
  | _ => 0
  end.

(** Out-parameters before any call. *)
Definition noOut : StringArrayPropertyView.Out :=
  {| StringArrayPropertyView.offsets := [];
     StringArrayPropertyView.offsetType := None_;
     StringArrayPropertyView.size_ := 0 |}.

(** A string-array class property with a default of three strings. *)
Definition stringArrayDefault (count : option Z) : ClassProperty.t :=
  {| ClassProperty.type := "STRING";
     ClassProperty.componentType := None;
     ClassProperty.array := true;
     ClassProperty.count := count;
     ClassProperty.normalized := false;
     ClassProperty.offset := None;
     ClassProperty.scale := None;
     ClassProperty.max := None;
     ClassProperty.min := None;
     ClassProperty.required := false;
     ClassProperty.noData := None;
     ClassProperty.defaultProperty :=
       Some (JArray (JString <$> ["ab"; "c"; "de"]%string)) |}.

(** ** Reading the encodings back *)

(** Modelled from the spec: element [i] of a bit-packed boolean buffer is
    bit [i mod 8] of byte [i / 8], the least significant bit first; a bit
    beyond the buffer reads as [false]. *)
Definition bitAt (buffer : list Z) (i : nat) : bool :=
  match buffer !! (i / 8)%nat with
  | Some byte => Z.testbit byte (Z.of_nat (i mod 8))
  | None => false
  end.

(** The bytes of a buffer hold the booleans [bs], one bit each, and nothing
    else. *)
Definition packs (bs : list bool) (buffer : list Z) : Prop :=
  ∀ (k : nat) (byte : Z), buffer !! k = Some byte →
    0 ≤ byte < 256 ∧
    ∀ j : nat, (j < 8)%nat →
      Z.testbit byte (Z.of_nat j) = default false (bs !! (8 * k + j)%nat).

(** The locals after the booleans [bs] have been visited. *)
Definition visited (size0 : Z) (bs : list bool) (l : BooleanArrayPropertyView.Locals) : Prop :=
  ∃ q r : nat,
    length bs = (8 * q + r)%nat ∧ (r < 8)%nat ∧
    BooleanArrayPropertyView.byteIndex l = Z.of_nat q ∧ BooleanArrayPropertyView.bitIndex l = Z.of_nat r ∧
    BooleanArrayPropertyView.size_ l = size0 + size bs ∧
    length (BooleanArrayPropertyView.values l) = Nat.min (length bs) 8 ∧
    packs bs (BooleanArrayPropertyView.values l).

(** Modelled from the spec: entry [i] of an offset buffer whose entries are
    [width] bytes wide, least significant byte first. *)
Definition offsetAt (width : nat) (offsets : list Z) (i : nat) : Z :=
  fromLittleEndian (take width (drop (i * width) offsets)).

(** Modelled from the spec: string [i] of an encoded string array, the bytes
    of the value buffer from offset [i] up to offset [i + 1]. *)
Definition stringAt (width : nat) (values offsets : list Z) (i : nat)
  : list Z :=
  let first := offsetAt width offsets i in
  let next := offsetAt width offsets (S i) in
  take (Z.to_nat (next - first)) (drop (Z.to_nat first) values).

(** * Properties *)

(** Unfolds the statements of a constructor body. *)
Ltac run_body :=
  unfold exec, andThen, if_, ifSome, assign, fail, ArrayMembers.fail,
    return_, skip; simpl.

(** ** The plain scalar view *)
Section PlainScalarView.
Variable E : ElementType.

(** A view that reaches the override statements with a valid status, a
    floating-point component type and an override offset that parses ends
    with that offset; its status stays [Valid] when the override's scale
    parses and a scale is at hand for a declared max or min. *)
Lemma override_statements_offset (v : PropertyView.t E)
    (offset scale max min : option JsonValue) (j : JsonValue) (x : ValueOf E) :
  isFloatComponent (TypeToPropertyType_component E) = true →
  _status v = Valid →
  offset = Some j →
  getValue E j = Some x →
  (∀ s, scale = Some s → is_Some (getValue E s)) →
  (is_Some max ∨ is_Some min → is_Some scale ∨ is_Some (_scale v)) →
  let v' :=
    exec (if_ (λ v, notValid (_status v)) return_ ;;;
          PropertyView.resolveOffset E offset ;;;
          PropertyView.resolveScale E scale ;;;
          PropertyView.resolveMax E max ;;;
          PropertyView.resolveMin E min) v in
  _status v' = Valid ∧ _offset v' = Some x.
Proof.
  intros Hfloat Hvalid -> Hx Hscale Hbound.
  destruct v as [st rq vo vs vmax vmin vnd vdf]; simpl in *; subst st.
  unfold PropertyView.resolveOffset, PropertyView.resolveScale,
    PropertyView.resolveMax, PropertyView.resolveMin.
  rewrite Hfloat. run_body. rewrite Hx. simpl.
  destruct scale as [s|].
  - destruct (Hscale s eq_refl) as [y Hy]. rewrite Hy. simpl.
    destruct max, min; simpl; auto.
  - simpl. destruct vs as [y|].
    + destruct max, min; simpl; auto.
    + assert (max = None ∧ min = None) as [-> ->].
      { destruct max, min; try (split; reflexivity);
          exfalso; (destruct Hbound as [[? Hs]|[? Hs]];
                    [auto| discriminate Hs |discriminate Hs]); eauto. }
      simpl. auto.
Qed.

End PlainScalarView.

(** A plain view that ends [Valid] holds the class property's offset. *)
Lemma class_offset_kept (E : ElementType) (classProperty : ClassProperty.t)
    (j : JsonValue) (x : ValueOf E) :
  PropertyView.status E (PropertyView.ofClassProperty E classProperty) = Valid →
  ClassProperty.offset classProperty = Some j →
  getValue E j = Some x →
  PropertyView.offset E (PropertyView.ofClassProperty E classProperty) = Some x.
Proof.
  unfold PropertyView.status, PropertyView.offset, PropertyView.ofClassProperty,
    PropertyView.resolveOffset, PropertyView.resolveScale,
    PropertyView.resolveMax, PropertyView.resolveMin,
    PropertyView.resolveNoData, PropertyView.resolveDefault.
  intros Hvalid Hj Hx. rewrite Hj in *.
  destruct (validatePropertyType E classProperty);
    try (run_body; discriminate Hvalid).
  destruct (ClassProperty.normalized classProperty);
    [discriminate Hvalid|].
  destruct (isFloatComponent (TypeToPropertyType_component E));
    [|discriminate Hvalid].
  revert Hvalid. run_body. rewrite Hx. simpl.
  destruct (ClassProperty.scale classProperty) as [s|];
    [destruct (getValue E s)|]; simpl;
  destruct (ClassProperty.max classProperty) as [m|]; simpl;
  destruct (ClassProperty.min classProperty) as [m'|]; simpl;
  destruct (ClassProperty.required classProperty); simpl;
  (destruct (ClassProperty.noData classProperty) as [nd|];
     [try destruct (getValue E nd)|]); simpl;
  (destruct (ClassProperty.defaultProperty classProperty) as [df|];
     [try destruct (getValue E df)|]); simpl;
  first [discriminate | reflexivity].
Qed.

Lemma restResolves_spec (E : ElementType) (classScale : option (ValueOf E))
    (scale max min : option JsonValue) :
  restResolves E classScale scale max min = true →
  (∀ s, scale = Some s → is_Some (getValue E s)) ∧
  (is_Some max ∨ is_Some min → is_Some scale ∨ is_Some classScale).
Proof.
  unfold restResolves. intros H.
  apply andb_prop in H as [H _]. apply andb_prop in H as [H _].
  apply andb_prop in H as [Hs Hb]. split.
  - intros s ->. destruct (getValue E s); [eauto|discriminate].
  - intros Hdecl.
    assert (negb (isNone max) || negb (isNone min) = true) as Hm.
    { destruct Hdecl as [[? ->]|[? ->]]; simpl; auto using orb_true_r. }
    rewrite Hm in Hb. apply orb_prop in Hb as [Hb|Hb].
    + left. destruct scale; [eauto|discriminate].
    + right. destruct classScale; [eauto|discriminate].
Qed.

(** C2, as amended: on a plain view of Float32 or Float64 component type
    whose class property by itself gives a [Valid] view, with a declared,
    parseable offset and with a max and a min that parse where declared, a
    table (or texture) override that declares a parseable offset, and whose
    other declared fields resolve (the scale parses, a max or min parses and
    finds a scale), gives a view of status [Valid] whose [offset()] is the
    override's value, where the view of the class property alone has the
    class-level value.  A max or min that does not parse, or that comes
    without a scale, is left out. *)
Theorem override_offset_supersedes_class_offset (E : ElementType)
    (classProperty : ClassProperty.t)
    (table : PropertyTableProperty.t) (texture : PropertyTextureProperty.t)
    (jc jt jx : JsonValue) (xc xt xx : ValueOf E) :
  isFloatComponent (TypeToPropertyType_component E) = true →
  PropertyView.status E (PropertyView.ofClassProperty E classProperty) = Valid →
  ClassProperty.offset classProperty = Some jc →
  getValue E jc = Some xc →
  parsesIfDeclared E (ClassProperty.max classProperty) = true →
  parsesIfDeclared E (ClassProperty.min classProperty) = true →
  PropertyTableProperty.offset table = Some jt →
  getValue E jt = Some xt →
  restResolves E
    (PropertyView.scale E (PropertyView.ofClassProperty E classProperty))
    (PropertyTableProperty.scale table) (PropertyTableProperty.max table)
    (PropertyTableProperty.min table) = true →
  PropertyTextureProperty.offset texture = Some jx →
  getValue E jx = Some xx →
  restResolves E
    (PropertyView.scale E (PropertyView.ofClassProperty E classProperty))
    (PropertyTextureProperty.scale texture) (PropertyTextureProperty.max texture)
    (PropertyTextureProperty.min texture) = true →
  let tableView := PropertyView.ofPropertyTableProperty E classProperty table in
  let textureView :=
    PropertyView.ofPropertyTextureProperty E classProperty texture in
  PropertyView.offset E (PropertyView.ofClassProperty E classProperty)
  = Some xc ∧
  PropertyView.status E tableView = Valid ∧
  PropertyView.offset E tableView = Some xt ∧
  PropertyView.status E textureView = Valid ∧
  PropertyView.offset E textureView = Some xx.
Proof.
  intros Hfloat Hvalid Hjc Hxc _ _ Hjt Hxt Htable Hjx Hxx Htexture.
  split; [exact (class_offset_kept E classProperty jc xc Hvalid Hjc Hxc)|].
  apply restResolves_spec in Htable as [Ht1 Ht2].
  apply restResolves_spec in Htexture as [Hx1 Hx2].
  pose proof (override_statements_offset E _ _ _ _ _ jt xt
                Hfloat Hvalid Hjt Hxt Ht1 Ht2) as [H1 H2].
  pose proof (override_statements_offset E _ _ _ _ _ jx xx
                Hfloat Hvalid Hjx Hxx Hx1 Hx2) as [H3 H4].
  repeat split; assumption.
Qed.

(** Class offset 10 with override offset 20 gives [offset() == 20]. *)
Lemma override_offset_supersedes_class_offset_witness :
  PropertyView.offset (scalarElement double)
    (PropertyView.ofClassProperty (scalarElement double) offset10)
  = Some (scalar ten) ∧
  PropertyView.status (scalarElement double)
    (PropertyView.ofPropertyTableProperty (scalarElement double)
       offset10 tableOffset20) = Valid ∧
  PropertyView.offset (scalarElement double)
    (PropertyView.ofPropertyTableProperty (scalarElement double)
       offset10 tableOffset20) = Some (scalar twenty) ∧
  PropertyView.status (scalarElement double)
    (PropertyView.ofPropertyTextureProperty (scalarElement double)
       offset10 textureOffset20) = Valid ∧
  PropertyView.offset (scalarElement double)
    (PropertyView.ofPropertyTextureProperty (scalarElement double)
       offset10 textureOffset20) = Some (scalar twenty).
Proof.
  apply (override_offset_supersedes_class_offset (scalarElement double)
           offset10 tableOffset20 textureOffset20
           (JNumber 10) (JNumber 20) (JNumber 20)
           (scalar ten) (scalar twenty) (scalar twenty));
    vm_compute; reflexivity.
Defined.

(** C2, as it is written, fails where another field does not resolve: with
    offsets 10 and 20 that parse, a FLOAT64 class property whose scale is the
    string [x] gives [ErrorInvalidScale] and keeps the class-level offset 10
    under a table and under a texture, and a table that declares the scale
    [x] beside its offset gives [ErrorInvalidScale] too. *)
Lemma override_offset_does_not_make_the_view_valid :
  let E := scalarElement double in
  let classScaleX :=
    scalarProperty "FLOAT64" false (Some (JNumber 10)) (Some (JString "x"))
      None None in
  let tableScaleX :=
    {| PropertyTableProperty.offset := Some (JNumber 20);
       PropertyTableProperty.scale := Some (JString "x");
       PropertyTableProperty.max := None;
       PropertyTableProperty.min := None |} in
  (isFloatComponent (TypeToPropertyType_component E) = true ∧
   ClassProperty.normalized classScaleX = false ∧
   ClassProperty.offset classScaleX ≫= getValue E = Some (scalar ten) ∧
   PropertyTableProperty.offset tableOffset20 ≫= getValue E
   = Some (scalar twenty) ∧
   PropertyTextureProperty.offset textureOffset20 ≫= getValue E
   = Some (scalar twenty) ∧
   PropertyTableProperty.offset tableScaleX ≫= getValue E
   = Some (scalar twenty)) ∧
  (PropertyView.status E
     (PropertyView.ofPropertyTableProperty E classScaleX tableOffset20)
   = ErrorInvalidScale ∧
   PropertyView.offset E
     (PropertyView.ofPropertyTableProperty E classScaleX tableOffset20)
   = Some (scalar ten)) ∧
  (PropertyView.status E
     (PropertyView.ofPropertyTextureProperty E classScaleX textureOffset20)
   = ErrorInvalidScale ∧
   PropertyView.offset E
     (PropertyView.ofPropertyTextureProperty E classScaleX textureOffset20)
   = Some (scalar ten)) ∧
  (PropertyView.status E (PropertyView.ofClassProperty E offset10) = Valid ∧
   PropertyView.status E
     (PropertyView.ofPropertyTableProperty E offset10 tableScaleX)
   = ErrorInvalidScale).
Proof. vm_compute. repeat split; reflexivity. Qed.

(** ** Type gating of offset and scale *)

(** C8: for an element type whose component type is neither Float32 nor
    Float64, on the plain scalar view and on the plain array view, a class
    property that passes the type validation and is not normalized yields
    [ErrorInvalidOffset] when it declares an offset, and [ErrorInvalidScale]
    when it declares a scale (and no offset, which is resolved first),
    whatever the raw value is. *)
Theorem plain_views_reject_offset_and_scale_of_integer_types
    (E : ElementType) (classProperty : ClassProperty.t) :
  isFloatComponent (TypeToPropertyType_component E) = false →
  ClassProperty.normalized classProperty = false →
  (validatePropertyType E classProperty = Valid →
   (is_Some (ClassProperty.offset classProperty) →
    PropertyView.status E (PropertyView.ofClassProperty E classProperty)
    = ErrorInvalidOffset) ∧
   (ClassProperty.offset classProperty = None →
    is_Some (ClassProperty.scale classProperty) →
    PropertyView.status E (PropertyView.ofClassProperty E classProperty)
    = ErrorInvalidScale)) ∧
  (validateArrayPropertyType E classProperty = Valid →
   (is_Some (ClassProperty.offset classProperty) →
    ArrayPropertyView.status
      (ArrayPropertyView.ofClassProperty E classProperty)
    = ErrorInvalidOffset) ∧
   (ClassProperty.offset classProperty = None →
    is_Some (ClassProperty.scale classProperty) →
    ArrayPropertyView.status
      (ArrayPropertyView.ofClassProperty E classProperty)
    = ErrorInvalidScale)).
Proof.
  intros Hinteger Hplain. split; intros Hvalid; split.
  - intros [j Hj].
    unfold PropertyView.status, PropertyView.ofClassProperty,
      PropertyView.resolveOffset.
    rewrite Hvalid, Hplain, Hj, Hinteger. reflexivity.
  - intros Hoffset [j Hj].
    unfold PropertyView.status, PropertyView.ofClassProperty,
      PropertyView.resolveOffset, PropertyView.resolveScale.
    rewrite Hvalid, Hplain, Hoffset, Hj, Hinteger. reflexivity.
  - intros [j Hj].
    unfold ArrayPropertyView.status, ArrayPropertyView.ofClassProperty,
      ArrayPropertyView.resolveOffset.
    rewrite Hvalid, Hplain, Hj, Hinteger. reflexivity.
  - intros Hoffset [j Hj].
    unfold ArrayPropertyView.status, ArrayPropertyView.ofClassProperty,
      ArrayPropertyView.resolveOffset, ArrayPropertyView.resolveScale.
    rewrite Hvalid, Hplain, Hoffset, Hj, Hinteger. reflexivity.
Qed.

(** On [uint8_t], the offset 1 and the scale 2 are rejected although both
    numbers fit the type. *)
Lemma plain_views_reject_offset_and_scale_of_integer_types_witness :
  PropertyView.status (scalarElement uint8_t)
    (PropertyView.ofClassProperty (scalarElement uint8_t)
       (uint8Property false (Some (JNumber 1)) None)) = ErrorInvalidOffset ∧
  PropertyView.status (scalarElement uint8_t)
    (PropertyView.ofClassProperty (scalarElement uint8_t)
       (uint8Property false None (Some (JNumber 2)))) = ErrorInvalidScale ∧
  ArrayPropertyView.status
    (ArrayPropertyView.ofClassProperty (scalarElement uint8_t)
       (uint8Property true (Some (JArray [JNumber 1])) None))
  = ErrorInvalidOffset ∧
  ArrayPropertyView.status
    (ArrayPropertyView.ofClassProperty (scalarElement uint8_t)
       (uint8Property true None (Some (JArray [JNumber 2]))))
  = ErrorInvalidScale.
Proof.
  split; [|split; [|split]].
  - apply (plain_views_reject_offset_and_scale_of_integer_types
             (scalarElement uint8_t)
             (uint8Property false (Some (JNumber 1)) None));
      [reflexivity | reflexivity | vm_compute; reflexivity | eexists; reflexivity].
  - apply (plain_views_reject_offset_and_scale_of_integer_types
             (scalarElement uint8_t)
             (uint8Property false None (Some (JNumber 2))));
      [reflexivity | reflexivity | vm_compute; reflexivity | reflexivity
      | eexists; reflexivity].
  - apply (plain_views_reject_offset_and_scale_of_integer_types
             (scalarElement uint8_t)
             (uint8Property true (Some (JArray [JNumber 1])) None));
      [reflexivity | reflexivity | vm_compute; reflexivity | eexists; reflexivity].
  - apply (plain_views_reject_offset_and_scale_of_integer_types
             (scalarElement uint8_t)
             (uint8Property true None (Some (JArray [JNumber 2]))));
      [reflexivity | reflexivity | vm_compute; reflexivity | reflexivity
      | eexists; reflexivity].
Defined.

(** ** Short-circuiting *)

(** In the plain scalar view the normalization error is final: nothing is
    resolved after it. *)
Lemma plain_view_normalization_error_is_final (E : ElementType)
    (classProperty : ClassProperty.t) :
  validatePropertyType E classProperty = Valid →
  ClassProperty.normalized classProperty = true →
  PropertyView.ofClassProperty E classProperty
  = initialMembers ErrorInvalidNormalization
                   (ClassProperty.required classProperty).
Proof.
  intros Hvalid Hnormalized. unfold PropertyView.ofClassProperty.
  rewrite Hvalid, Hnormalized. reflexivity.
Qed.

(** In the normalized scalar view the statements after the normalization
    test still run: an offset that does not parse replaces the status. *)
Lemma normalized_view_offset_error_replaces_normalization_error
    (E N : ElementType) (classProperty : ClassProperty.t) (j : JsonValue) :
  validatePropertyType E classProperty = Valid →
  ClassProperty.normalized classProperty = false →
  ClassProperty.offset classProperty = Some j →
  getValue N j = None →
  NormalizedPropertyView.status E N
    (NormalizedPropertyView.ofClassProperty E N classProperty)
  = ErrorInvalidOffset.
Proof.
  intros Hvalid Hplain Hj Hparse.
  unfold NormalizedPropertyView.status, NormalizedPropertyView.ofClassProperty,
    NormalizedPropertyView.resolveOffset.
  rewrite Hvalid, Hplain, Hj. run_body. rewrite Hparse. reflexivity.
Qed.

(** C1, at a failing input: the normalized view of a [uint8_t] class property
    with [normalized = false] and the offset ["x"] ends with
    [ErrorInvalidOffset], and with the scale 2 it resolves the scale after the
    error; the same class property without offset, and the normalized array
    view of the same declaration, end with [ErrorInvalidNormalization]. *)
Theorem normalized_view_does_not_stop_at_normalization_error :
  let E := scalarElement uint8_t in
  let N := scalarElement double in
  validatePropertyType E
    (scalarProperty "UINT8" false (Some (JString "x")) None None None) = Valid ∧
  NormalizedPropertyView.status E N
    (NormalizedPropertyView.ofClassProperty E N
       (scalarProperty "UINT8" false (Some (JString "x")) None None None))
  = ErrorInvalidOffset ∧
  NormalizedPropertyView.ofClassProperty E N
    (scalarProperty "UINT8" false None (Some (JNumber 2)) None None)
  = set_scale (Some (scalar 0x4000000000000000))
      (initialMembers ErrorInvalidNormalization false) ∧
  NormalizedPropertyView.status E N
    (NormalizedPropertyView.ofClassProperty E N
       (scalarProperty "UINT8" false None None None None))
  = ErrorInvalidNormalization ∧
  NormalizedArrayPropertyView.ofClassProperty E N
    (arrayProperty "UINT8" None false (Some (JString "x")) None None None None)
  = ArrayMembers.initialMembers ErrorInvalidNormalization
      (arrayProperty "UINT8" None false (Some (JString "x")) None None None None).
Proof. vm_compute. repeat split. Qed.

(** ** Max and min of the scalar views *)

(** C7, at a failing input: on the plain [double] view with the scale 2, a max
    (a min) that is a string does not parse, yet the status is [Valid] and the
    field is empty; without a scale, the max 5 (the min 5), which parses, ends
    with [ErrorInvalidMax] ([ErrorInvalidMin]). *)
Theorem scalar_view_max_min_test_reads_scale :
  let E := scalarElement double in
  getValue E (JString "high") = None ∧
  PropertyView.ofClassProperty E
    (scalarProperty "FLOAT64" false None (Some (JNumber 2))
                    (Some (JString "high")) None)
  = set_scale (Some (scalar 0x4000000000000000)) (initialMembers Valid false) ∧
  PropertyView.ofClassProperty E
    (scalarProperty "FLOAT64" false None (Some (JNumber 2))
                    None (Some (JString "low")))
  = set_scale (Some (scalar 0x4000000000000000)) (initialMembers Valid false) ∧
  PropertyView.ofClassProperty E
    (scalarProperty "FLOAT64" false None None (Some (JNumber 5)) None)
  = set_max (Some (scalar 0x4014000000000000))
      (initialMembers ErrorInvalidMax false) ∧
  PropertyView.ofClassProperty E
    (scalarProperty "FLOAT64" false None None None (Some (JNumber 5)))
  = set_min (Some (scalar 0x4014000000000000))
      (initialMembers ErrorInvalidMin false).
Proof. vm_compute. repeat split. Qed.

(** ** Count checks of the numeric array views *)

(** Under a fixed count the override's scale of the normalized array view is
    rejected whatever it holds. *)
Lemma override_scale_rejected_under_fixed_count (E N : ElementType)
    (v : ArrayMembers.t) (offset max min : option JsonValue)
    (scale : JsonValue) :
  ArrayMembers._status v = Valid →
  0 < ArrayMembers._count v →
  offset = None →
  ArrayMembers._status
    (exec (if_ (λ v, notValid (ArrayMembers._status v)) return_ ;;;
           NormalizedArrayPropertyView.resolveOffset N offset ;;;
           NormalizedArrayPropertyView.overrideScale N (Some scale) ;;;
           NormalizedArrayPropertyView.resolveMax N max ;;;
           NormalizedArrayPropertyView.resolveMin N min) v)
  = ErrorInvalidScale.
Proof.
  intros Hvalid Hcount ->. destruct v; simpl in *; subst.
  unfold NormalizedArrayPropertyView.overrideScale. run_body.
  destruct (getArrayValue N scale); simpl; [|reflexivity].
  rewrite bool_decide_eq_true_2 by assumption. reflexivity.
Qed.

(** C3, at a failing input: on the normalized [uint8_t] array view, the
    override scale [[2]] parses, and is rejected with [ErrorInvalidScale] both
    for a variable-length array (no count) and under the fixed count 1, from a
    table and from a texture; the class property alone is [Valid]. *)
Theorem normalized_array_override_scale_rejected :
  let E := scalarElement uint8_t in
  let N := scalarElement double in
  let variable :=
    arrayProperty "UINT8" None true None None None None None in
  let fixed :=
    arrayProperty "UINT8" (Some 1) true None None None None None in
  let two := JArray [JNumber 2] in
  getArrayValue N two = Some [0; 0; 0; 0; 0; 0; 0; 64] ∧
  NormalizedArrayPropertyView.status
    (NormalizedArrayPropertyView.ofClassProperty E N variable) = Valid ∧
  NormalizedArrayPropertyView.status
    (NormalizedArrayPropertyView.ofClassProperty E N fixed) = Valid ∧
  NormalizedArrayPropertyView.status
    (NormalizedArrayPropertyView.ofPropertyTableProperty E N variable
       (tableScale two)) = ErrorInvalidScale ∧
  NormalizedArrayPropertyView.status
    (NormalizedArrayPropertyView.ofPropertyTextureProperty E N variable
       (textureScale two)) = ErrorInvalidScale ∧
  NormalizedArrayPropertyView.status
    (NormalizedArrayPropertyView.ofPropertyTableProperty E N fixed
       (tableScale two)) = ErrorInvalidScale ∧
  NormalizedArrayPropertyView.status
    (NormalizedArrayPropertyView.ofPropertyTextureProperty E N fixed
       (textureScale two)) = ErrorInvalidScale.
Proof. vm_compute. repeat split. Qed.

(** C4, at failing inputs: the count tests compare the count with the number
    of bytes of the parsed buffer.  On the plain [uint16_t] array view with
    count 2, the max [[1, 2]] of two elements is rejected and the max [[7]] of
    one element is accepted; on the plain [uint8_t] array view with count 3 a
    no-data array of one element is accepted.  With one-byte elements the
    max test agrees with the element count: count 3 rejects a max of length 2
    and accepts a max of length 3. *)
Theorem array_count_tests_compare_bytes :
  let U16 := scalarElement uint16_t in
  let U8 := scalarElement uint8_t in
  ArrayPropertyView.ofClassProperty U16
    (arrayProperty "UINT16" (Some 2) false None None
       (Some (JArray [JNumber 1; JNumber 2])) None None)
  = ArrayMembers.set_max (Some [1; 0; 2; 0])
      (ArrayMembers.initialMembers ErrorInvalidMax
         (arrayProperty "UINT16" (Some 2) false None None None None None)) ∧
  ArrayPropertyView.ofClassProperty U16
    (arrayProperty "UINT16" (Some 2) false None None
       (Some (JArray [JNumber 7])) None None)
  = ArrayMembers.set_max (Some [7; 0])
      (ArrayMembers.initialMembers Valid
         (arrayProperty "UINT16" (Some 2) false None None None None None)) ∧
  ArrayPropertyView.ofClassProperty U8
    (arrayProperty "UINT8" (Some 3) false None None None None
       (Some (JArray [JNumber 7])))
  = ArrayMembers.set_noData (Some [7])
      (ArrayMembers.initialMembers Valid
         (arrayProperty "UINT8" (Some 3) false None None None None None)) ∧
  ArrayPropertyView.status
    (ArrayPropertyView.ofClassProperty U8
       (arrayProperty "UINT8" (Some 3) false None None
          (Some (JArray [JNumber 7; JNumber 8])) None None))
  = ErrorInvalidMax ∧
  ArrayPropertyView.status
    (ArrayPropertyView.ofClassProperty U8
       (arrayProperty "UINT8" (Some 3) false None None
          (Some (JArray [JNumber 7; JNumber 8; JNumber 9])) None None))
  = Valid.
Proof. vm_compute. repeat split. Qed.

(** ** The boolean array codec *)

(** C5, at a failing input: [[true, false, true]] is packed into three bytes,
    the first equal to 5, with logical size 3; 64 booleans give 8 bytes, and
    the 65th is written past the end of the buffer. *)
Theorem boolean_array_buffer_grows_per_element :
  BooleanArrayPropertyView.getBooleanArrayValue
    (JArray [JBool true; JBool false; JBool true]) 0
  = Done ([5; 0; 0], 3) ∧
  BooleanArrayPropertyView.getBooleanArrayValue
    (JArray (replicate 64 (JBool true))) 0
  = Done (replicate 8 255, 64) ∧
  BooleanArrayPropertyView.getBooleanArrayValue
    (JArray (replicate 65 (JBool true))) 0
  = OutOfBounds.
Proof. vm_compute. repeat split. Qed.

(** ** The string array codec *)

Section StringArrayCodec.
Import StringArrayPropertyView.

Lemma byteLength_nonneg (s : string) : 0 ≤ byteLength s.
Proof. unfold byteLength, size. lia. Qed.

Lemma sumOf_byteLength_nonneg (strings : list string) :
  0 ≤ sumOf (byteLength <$> strings).
Proof.
  induction strings as [|s strings IH]; csimpl; [lia|].
  pose proof (byteLength_nonneg s). lia.
Qed.

Lemma prefixSums_head (start : Z) (lengths : list Z) :
  prefixSums start lengths = start :: tail (prefixSums start lengths).
Proof. destruct lengths; reflexivity. Qed.

Lemma prefixSums_length (start : Z) (lengths : list Z) :
  length (prefixSums start lengths) = S (length lengths).
Proof.
  revert start. induction lengths as [|l lengths IH]; intros start; csimpl;
    [reflexivity|]. now rewrite IH.
Qed.

Lemma prefixSums_last (start : Z) (lengths : list Z) :
  last (prefixSums start lengths) = Some (start + sumOf lengths).
Proof.
  revert start. induction lengths as [|l lengths IH]; intros start; csimpl.
  - f_equal. lia.
  - rewrite (prefixSums_head (start + l) lengths), last_cons_cons,
      <- prefixSums_head, IH. f_equal. lia.
Qed.

(** Over lengths that are not negative the running totals lie between the
    start and the final total. *)
Lemma prefixSums_bounds (start : Z) (lengths : list Z) :
  Forall (λ l, 0 ≤ l) lengths →
  Forall (λ o, start ≤ o ≤ start + sumOf lengths) (prefixSums start lengths).
Proof.
  intros Hnonneg. revert start.
  induction Hnonneg as [|l lengths Hl Hrest IH]; intros start; csimpl.
  - constructor; [lia|constructor].
  - assert (0 ≤ sumOf lengths) as Htotal.
    { clear IH. induction Hrest; csimpl; lia. }
    constructor; [lia|].
    eapply Forall_impl; [apply IH|]. csimpl. intros o Ho. lia.
Qed.

Lemma splice_app (pre filler src : list Z) :
  splice (pre ++ filler) (length pre) src
  = pre ++ src ++ drop (length src) filler.
Proof.
  unfold splice. rewrite take_app_length. do 2 f_equal.
  rewrite drop_app_ge by lia. f_equal. lia.
Qed.

(** The first loop collects the strings and their running offsets. *)
Lemma collect_strings (strings : list string) :
  ∀ (collected : list string) (stringOffsets : list Z) (current : Z),
    length stringOffsets = S (length collected) →
    last stringOffsets = Some current →
    0 ≤ current →
    current + sumOf (byteLength <$> strings) < 2 ^ 64 →
    collect (JString <$> strings) collected stringOffsets
    = Some (collected ++ strings,
            stringOffsets
            ++ tail (prefixSums current (byteLength <$> strings))).
Proof.
  induction strings as [|s strings IH];
    intros collected stringOffsets current Hlength Hlast Hnonneg Hfits; csimpl.
  - now rewrite !app_nil_r.
  - csimpl in Hfits.
    pose proof (byteLength_nonneg s) as Hs.
    pose proof (sumOf_byteLength_nonneg strings) as Hrest.
    assert (stringOffsets !! length collected = Some current) as ->.
    { rewrite last_lookup, Hlength in Hlast. exact Hlast. }
    csimpl. fold (byteLength s).
    rewrite Z.mod_small by lia.
    rewrite (IH (collected ++ [s]) (stringOffsets ++ [current + byteLength s])
                (current + byteLength s)).
    + rewrite <- !app_assoc. csimpl.
      now rewrite <- prefixSums_head.
    + rewrite !length_app. csimpl. lia.
    + apply last_snoc.
    + lia.
    + lia.
Qed.

(** The second loop writes the strings one after the other. *)
Lemma copyStrings_concat (strings : list string) :
  ∀ pre filler : list Z,
    size filler = sumOf (byteLength <$> strings) →
    copyStrings strings (prefixSums (size pre) (byteLength <$> strings))
                (pre ++ filler)
    = Done (pre ++ concat (stringBytes <$> strings)).
Proof.
  induction strings as [|s strings IH]; intros pre filler Hfiller; csimpl.
  - csimpl in Hfiller. destruct filler; [reflexivity|].
    unfold size in Hfiller. csimpl in Hfiller. lia.
  - csimpl in Hfiller.
    pose proof (sumOf_byteLength_nonneg strings) as Hrest.
    unfold memcpy. rewrite bool_decide_eq_true_2.
    2:{ unfold byteLength, size in *. rewrite length_app. lia. }
    csimpl. unfold size at 2. rewrite Nat2Z.id, splice_app.
    replace (pre ++ stringBytes s ++ drop (length (stringBytes s)) filler)
      with ((pre ++ stringBytes s) ++ drop (length (stringBytes s)) filler)
      by now rewrite <- app_assoc.
    replace (size pre + byteLength s) with (size (pre ++ stringBytes s)).
    2:{ unfold byteLength, size. rewrite length_app. lia. }
    rewrite IH.
    + now rewrite <- app_assoc.
    + unfold byteLength, size in *. rewrite length_drop. lia.
Qed.

Lemma littleEndian_length (width : nat) (x : Z) :
  length (littleEndian width x) = width.
Proof. unfold littleEndian. now rewrite length_fmap, length_seq. Qed.

(** The narrowing loop writes the truncated offsets one after the other. *)
Lemma narrowLoop_concat (width : nat) (offsets : list Z) :
  ∀ pre filler : list Z,
    length filler = (length offsets * width)%nat →
    narrowLoop width offsets (length pre) (pre ++ filler)
    = pre ++ concat (littleEndian width
                     <$> ((λ o, o `mod` 256 ^ Z.of_nat width) <$> offsets)).
Proof.
  induction offsets as [|o offsets IH]; intros pre filler Hfiller; csimpl.
  - csimpl in Hfiller. apply nil_length_inv in Hfiller. now subst.
  - csimpl in Hfiller. rewrite splice_app, littleEndian_length.
    set (bytes := littleEndian width (o `mod` 256 ^ Z.of_nat width)).
    replace (length pre + width)%nat with (length (pre ++ bytes))
      by (subst bytes; now rewrite length_app, littleEndian_length).
    rewrite (app_assoc pre bytes), IH.
    + now rewrite <- app_assoc.
    + rewrite length_drop. lia.
Qed.

Lemma narrowOffsetsBuffer_encodes (width : nat) (offsets : list Z) :
  Forall (λ o, 0 ≤ o < 256 ^ Z.of_nat width) offsets →
  narrowOffsetsBuffer width offsets = concat (littleEndian width <$> offsets).
Proof.
  intros Hfit. unfold narrowOffsetsBuffer.
  pose proof (narrowLoop_concat width offsets []
                (replicate (length offsets * width) 0)
                (length_replicate _ _)) as Hloop.
  simpl in Hloop. rewrite Hloop. clear Hloop. do 2 f_equal.
  induction Hfit as [|o offsets Ho _ IH]; csimpl; [reflexivity|].
  rewrite IH. f_equal. apply Z.mod_small. exact Ho.
Qed.

(** Little-endian bytes are read back to the number they were made from. *)
Lemma fromLittleEndian_from (width : nat) (x : Z) :
  ∀ start : nat,
    0 ≤ x →
    fromLittleEndian
      ((λ i : nat, (x `div` 256 ^ Z.of_nat i) `mod` 256) <$> seq start width)
    = (x `div` 256 ^ Z.of_nat start) `mod` 256 ^ Z.of_nat width.
Proof.
  induction width as [|width IH]; intros start Hx; simpl seq.
  - csimpl. now rewrite Z.mod_1_r.
  - rewrite fmap_cons. simpl fromLittleEndian. rewrite IH by exact Hx.
    replace (256 ^ Z.of_nat (S width)) with (256 * 256 ^ Z.of_nat width)
      by (rewrite Nat2Z.inj_succ, Z.pow_succ_r by lia; reflexivity).
    rewrite Z.rem_mul_r by lia.
    rewrite Z.div_div by lia.
    replace (256 ^ Z.of_nat start * 256) with (256 ^ Z.of_nat (S start))
      by (rewrite Nat2Z.inj_succ, Z.pow_succ_r by lia; lia).
    reflexivity.
Qed.

Lemma fromLittleEndian_littleEndian (width : nat) (x : Z) :
  0 ≤ x < 256 ^ Z.of_nat width →
  fromLittleEndian (littleEndian width x) = x.
Proof.
  intros [Hlow Hhigh]. unfold littleEndian.
  rewrite fromLittleEndian_from by exact Hlow.
  csimpl. rewrite Z.div_1_r. now apply Z.mod_small.
Qed.

(** What [getStringArrayValue] does on an array of strings whose bytes fit
    the address space. *)
Lemma getStringArrayValue_strings (strings : list string) (out : Out) :
  sumOf (byteLength <$> strings) < 2 ^ 64 →
  getStringArrayValue (JArray (JString <$> strings)) out
  = let offsets := prefixSums 0 (byteLength <$> strings) in
    let totalLength := sumOf (byteLength <$> strings) in
    Done (concat (stringBytes <$> strings),
          if bool_decide (totalLength ≤ 255)
          then {| offsets := narrowOffsetsBuffer 1 offsets;
                  offsetType := Uint8; size_ := size strings |}
          else if bool_decide (totalLength ≤ 65535)
          then {| offsets := narrowOffsetsBuffer 2 offsets;
                  offsetType := Uint16; size_ := size strings |}
          else if bool_decide (totalLength ≤ 4294967295)
          then {| offsets := narrowOffsetsBuffer 4 offsets;
                  offsetType := Uint32; size_ := size strings |}
          else {| offsets := concat (littleEndian 8 <$> offsets);
                  offsetType := Uint64; size_ := size strings |}).
Proof.
  intros Hfits. pose proof (sumOf_byteLength_nonneg strings) as Hnonneg.
  unfold getStringArrayValue. cbn [isArray getArray negb].
  rewrite (collect_strings strings [] [0] 0) by (simpl; (reflexivity || lia)).
  cbn [app]. rewrite <- prefixSums_head, prefixSums_last. cbn [from_option id].
  rewrite Z.add_0_l.
  pose proof (copyStrings_concat strings []
                (replicate (Z.to_nat (sumOf (byteLength <$> strings))) 0))
    as Hcopy.
  cbn [app] in Hcopy. change (size []) with 0 in Hcopy.
  rewrite Hcopy by (unfold size; rewrite length_replicate; lia).
  reflexivity.
Qed.

(** C6: for an array of N strings (whose bytes fit the address space), the
    value buffer is the concatenation of the strings' bytes in order, the
    logical size is N, and the offset buffer holds, in the narrowest of the
    widths 8/16/32/64 bits that can represent the total length, the N + 1
    running totals of the byte lengths, from 0 to the total length; every
    entry is read back unchanged from its bytes. *)
Theorem string_array_encoding (strings : list string) (out : Out) :
  let lengths := byteLength <$> strings in
  sumOf lengths < 2 ^ 64 →
  ∃ out' : Out,
    getStringArrayValue (JArray (JString <$> strings)) out
    = Done (concat (stringBytes <$> strings), out') ∧
    size_ out' = size strings ∧
    length (prefixSums 0 lengths) = S (length strings) ∧
    head (prefixSums 0 lengths) = Some 0 ∧
    last (prefixSums 0 lengths) = Some (sumOf lengths) ∧
    let width := offsetWidth (offsetType out') in
    offsets out' = concat (littleEndian width <$> prefixSums 0 lengths) ∧
    Forall (λ o, fromLittleEndian (littleEndian width o) = o)
           (prefixSums 0 lengths) ∧
    offsetType out' ∈ [Uint8; Uint16; Uint32; Uint64] ∧
    sumOf lengths < 256 ^ Z.of_nat width ∧
    ∀ narrower, narrower ∈ [Uint8; Uint16; Uint32; Uint64] →
                sumOf lengths < 256 ^ Z.of_nat (offsetWidth narrower) →
                (width ≤ offsetWidth narrower)%nat.
Proof.
  intros lengths Hfits. subst lengths.
  set (lengths := byteLength <$> strings) in *.
  assert (Forall (λ o, 0 ≤ o ≤ sumOf lengths) (prefixSums 0 lengths))
    as Hbounds.
  { eapply Forall_impl.
    - apply prefixSums_bounds. subst lengths.
      clear. induction strings; csimpl; constructor;
        [apply byteLength_nonneg|assumption].
    - simpl. intros o Ho. lia. }
  assert (∀ width : nat, sumOf lengths < 256 ^ Z.of_nat width →
            Forall (λ o, 0 ≤ o < 256 ^ Z.of_nat width) (prefixSums 0 lengths))
    as Hwidth.
  { intros width Hlt. eapply Forall_impl; [exact Hbounds|].
    simpl. intros o Ho. lia. }
  assert (∀ width : nat, sumOf lengths < 256 ^ Z.of_nat width →
            Forall (λ o, fromLittleEndian (littleEndian width o) = o)
                   (prefixSums 0 lengths)) as Hread.
  { intros width Hlt. eapply Forall_impl; [exact (Hwidth width Hlt)|].
    simpl. intros o Ho. now apply fromLittleEndian_littleEndian. }
  rewrite getStringArrayValue_strings by exact Hfits. fold lengths. cbv zeta.
  eexists. split; [reflexivity|].
  assert (length (prefixSums 0 lengths) = S (length strings)) as Hlength.
  { rewrite prefixSums_length. subst lengths. now rewrite length_fmap. }
  assert (head (prefixSums 0 lengths) = Some 0) as Hhead.
  { now rewrite prefixSums_head. }
  assert (last (prefixSums 0 lengths) = Some (sumOf lengths)) as Hlast.
  { rewrite prefixSums_last. reflexivity. }
  repeat case_bool_decide; cbn [offsets offsetType size_ offsetWidth];
    (split; [reflexivity|]); (split; [exact Hlength|]);
    (split; [exact Hhead|]); (split; [exact Hlast|]).
  - split; [apply narrowOffsetsBuffer_encodes, Hwidth; simpl; lia|].
    split; [apply Hread; simpl; lia|].
    split; [repeat constructor|]. split; [simpl; lia|].
    intros narrower Hin _. decompose_list_elem_of; subst narrower; simpl; lia.
  - split; [apply narrowOffsetsBuffer_encodes, Hwidth; simpl; lia|].
    split; [apply Hread; simpl; lia|].
    split; [repeat constructor|]. split; [simpl; lia|].
    intros narrower Hin Hlt. decompose_list_elem_of; subst narrower; simpl in *; lia.
  - split; [apply narrowOffsetsBuffer_encodes, Hwidth; simpl; lia|].
    split; [apply Hread; simpl; lia|].
    split; [repeat constructor|]. split; [simpl; lia|].
    intros narrower Hin Hlt. decompose_list_elem_of; subst narrower; simpl in *; lia.
  - split; [reflexivity|].
    split; [apply Hread; simpl; lia|].
    split; [repeat constructor|]. split; [simpl; lia|].
    intros narrower Hin Hlt. decompose_list_elem_of; subst narrower; simpl in *; lia.
Qed.

(** Encoding [["ab", "c", "de"]] yields the bytes of "abcde", the offsets
    [0, 2, 3, 5] and the offset type Uint8. *)
Lemma string_array_encoding_witness :
  let strings := ["ab"; "c"; "de"]%string in
  let lengths := byteLength <$> strings in
  sumOf lengths < 2 ^ 64 ∧
  getStringArrayValue (JArray (JString <$> strings)) noOut
  = Done (stringBytes "abcde",
          {| offsets := [0; 2; 3; 5]; offsetType := Uint8; size_ := 3 |}) ∧
  ∃ out' : Out,
    getStringArrayValue (JArray (JString <$> strings)) noOut
    = Done (concat (stringBytes <$> strings), out') ∧
    size_ out' = size strings ∧
    length (prefixSums 0 lengths) = S (length strings) ∧
    head (prefixSums 0 lengths) = Some 0 ∧
    last (prefixSums 0 lengths) = Some (sumOf lengths) ∧
    let width := offsetWidth (offsetType out') in
    offsets out' = concat (littleEndian width <$> prefixSums 0 lengths) ∧
    Forall (λ o, fromLittleEndian (littleEndian width o) = o)
           (prefixSums 0 lengths) ∧
    offsetType out' ∈ [Uint8; Uint16; Uint32; Uint64] ∧
    sumOf lengths < 256 ^ Z.of_nat width ∧
    ∀ narrower, narrower ∈ [Uint8; Uint16; Uint32; Uint64] →
                sumOf lengths < 256 ^ Z.of_nat (offsetWidth narrower) →
                (width ≤ offsetWidth narrower)%nat.
Proof.
  intros strings lengths.
  split; [vm_compute; reflexivity|].
  split; [vm_compute; reflexivity|].
  apply (string_array_encoding strings noOut).
  vm_compute. reflexivity.
Defined.

(** ** The string array view *)

(** C10: for a string-array class property that passes the type validation,
    is not required, declares no noData and declares as default an array of
    strings (whose bytes fit the address space), the default is parsed and
    stored, [defaultValue()] is nevertheless empty, and under a fixed count
    greater than 0 the status is [ErrorInvalidDefaultValue]. *)
Theorem string_array_default_is_guarded_by_noData_size
    (classProperty : ClassProperty.t) (strings : list string) :
  validateStringArrayPropertyType classProperty = Valid →
  ClassProperty.required classProperty = false →
  ClassProperty.noData classProperty = None →
  ClassProperty.defaultProperty classProperty
  = Some (JArray (JString <$> strings)) →
  sumOf (byteLength <$> strings) < 2 ^ 64 →
  ∃ v : StringArrayPropertyView.t,
    ofClassProperty classProperty = Done v ∧
    _defaultValue v = concat (stringBytes <$> strings) ∧
    _defaultValueSize v = size strings ∧
    _noDataSize v = 0 ∧
    defaultValue v = None ∧
    ∀ count, ClassProperty.count classProperty = Some count →
             0 < count →
             status v = ErrorInvalidDefaultValue.
Proof.
  intros Hvalid Hoptional HnoData Hdefault Hfits.
  unfold ofClassProperty, resolveDefault, assignDefaultValue.
  rewrite Hvalid, Hoptional, HnoData, Hdefault. cbn -[getStringArrayValue].
  rewrite getStringArrayValue_strings by exact Hfits.
  cbn -[narrowOffsetsBuffer littleEndian prefixSums sumOf byteLength
        stringBytes].
  set (out := if bool_decide (sumOf (byteLength <$> strings) ≤ 255)
              then _ else _).
  assert (size_ out = size strings) as Hsize.
  { subst out. repeat case_bool_decide; reflexivity. }
  rewrite Hsize.
  destruct (bool_decide (size strings = 0)
            || bool_decide (0 < match ClassProperty.count classProperty with
                                | Some count => count
                                | None => 0
                                end)
               && bool_decide (0 ≠ match ClassProperty.count classProperty with
                                  | Some count => count
                                  | None => 0
                                  end)) eqn:Htest;
    cbn; eexists; (split; [reflexivity|]); cbn;
    (split; [reflexivity|]); (split; [reflexivity|]);
    (split; [reflexivity|]); (split; [reflexivity|]).
  - intros count Hcount Hpositive. reflexivity.
  - intros count Hcount Hpositive. rewrite Hcount in Htest.
    rewrite (bool_decide_eq_true_2 (0 < count)) in Htest by exact Hpositive.
    rewrite (bool_decide_eq_true_2 (0 ≠ count)) in Htest by lia.
    rewrite orb_true_r in Htest. discriminate Htest.
Qed.

(** With the count 3 the default of three strings is rejected; without a
    count the view is valid and [defaultValue()] is empty all the same. *)
Lemma string_array_default_is_guarded_by_noData_size_witness :
  (∃ v : StringArrayPropertyView.t,
     ofClassProperty (stringArrayDefault (Some 3)) = Done v ∧
     _defaultValue v = stringBytes "abcde" ∧
     _defaultValueSize v = 3 ∧
     defaultValue v = None ∧
     status v = ErrorInvalidDefaultValue) ∧
  (∃ v : StringArrayPropertyView.t,
     ofClassProperty (stringArrayDefault None) = Done v ∧
     _defaultValue v = stringBytes "abcde" ∧
     _defaultValueSize v = 3 ∧
     defaultValue v = None ∧
     status v = Valid).
Proof.
  split.
  - destruct (string_array_default_is_guarded_by_noData_size
                (stringArrayDefault (Some 3)) ["ab"; "c"; "de"]%string)
      as (v & Hv & Hbytes & Hsize & _ & Hhidden & Hstatus);
      try (vm_compute; reflexivity).
    exists v. repeat (split; [assumption|]).
    apply (Hstatus 3); [reflexivity|lia].
  - destruct (string_array_default_is_guarded_by_noData_size
                (stringArrayDefault None) ["ab"; "c"; "de"]%string)
      as (v & Hv & Hbytes & Hsize & _ & Hhidden & _);
      try (vm_compute; reflexivity).
    exists v. repeat (split; [assumption|]).
    vm_compute in Hv. injection Hv as <-. reflexivity.
Defined.

End StringArrayCodec.

(** * Further properties *)

(** ** The type validators *)

(** The validators of a numeric element type are the validators by traits at
    the traits of the type. *)
Lemma validatePropertyType_traits (E : ElementType)
    (classProperty : ClassProperty.t) :
  validatePropertyType E classProperty
  = validatePropertyTypeFor (TypeToPropertyType_value E)
      (TypeToPropertyType_component E) classProperty ∧
  validateArrayPropertyType E classProperty
  = validateArrayPropertyTypeFor (TypeToPropertyType_value E)
      (TypeToPropertyType_component E) classProperty ∧
  StringArrayPropertyView.validateStringArrayPropertyType classProperty
  = validateArrayPropertyTypeFor String None_ classProperty.
Proof. repeat split. Qed.

(** X1: the scalar and the array validator report the same type and component
    mismatches, and disagree on the array flag only: one is [Valid] exactly
    when the other reports [ErrorArrayTypeMismatch].  No other status is
    returned. *)
Theorem validators_differ_on_array_flag_only (value : PropertyType)
    (component : PropertyComponentType) (classProperty : ClassProperty.t) :
  let scalar := validatePropertyTypeFor value component classProperty in
  let array := validateArrayPropertyTypeFor value component classProperty in
  (scalar = ErrorTypeMismatch ∧ array = ErrorTypeMismatch) ∨
  (scalar = ErrorComponentTypeMismatch ∧ array = ErrorComponentTypeMismatch) ∨
  (scalar = Valid ∧ array = ErrorArrayTypeMismatch ∧
   ClassProperty.array classProperty = false) ∨
  (scalar = ErrorArrayTypeMismatch ∧ array = Valid ∧
   ClassProperty.array classProperty = true).
Proof.
  unfold validatePropertyTypeFor, validateArrayPropertyTypeFor.
  destruct (bool_decide (value ≠ _)); [auto|].
  destruct (ClassProperty.componentType classProperty) as [c|]; simpl;
    destruct (bool_decide (component ≠ _)); auto;
    destruct (ClassProperty.array classProperty); simpl; auto 10.
Qed.

(** X2: the scalar validator returns [Valid] exactly when the declared type
    is the type of the view, the declared component type is its component
    type (an absent one standing for [None]) and the property is not an
    array; a type mismatch is reported whatever the rest declares. *)
Theorem validatePropertyType_Valid_iff (value : PropertyType)
    (component : PropertyComponentType) (classProperty : ClassProperty.t) :
  (validatePropertyTypeFor value component classProperty = Valid ↔
   convertStringToPropertyType (ClassProperty.type classProperty) = value ∧
   match ClassProperty.componentType classProperty with
   | Some c => convertStringToPropertyComponentType c
   | None => None_
   end = component ∧
   ClassProperty.array classProperty = false) ∧
  (validatePropertyTypeFor value component classProperty = ErrorTypeMismatch ↔
   convertStringToPropertyType (ClassProperty.type classProperty) ≠ value).
Proof.
  unfold validatePropertyTypeFor.
  case_bool_decide as Htype.
  - split; split; try discriminate; try done.
    intros [Heq _]. congruence.
  - destruct (ClassProperty.componentType classProperty) as [c|]; simpl;
      case_bool_decide as Hcomponent;
      destruct (ClassProperty.array classProperty);
      (split; split; try discriminate; try done; try congruence;
       try (intros (_ & ? & _); congruence);
       try (intros (_ & _ & ?); congruence)).
Qed.

(** ** The value parsers *)

Lemma columns_shape {A} (N : nat) :
  ∀ (M : nat) (l : list A),
    length l = (M * N)%nat →
    length (columns N M l) = M ∧
    Forall (λ column, length column = N) (columns N M l) ∧
    concat (columns N M l) = l.
Proof.
  induction M as [|M IH]; intros l Hlength; simpl.
  - simpl in Hlength. apply nil_length_inv in Hlength. now subst.
  - destruct (IH (drop N l)) as (Hcount & Hcolumns & Hconcat).
    { rewrite length_drop. lia. }
    rewrite Hcount, Hconcat, take_drop. repeat split.
    constructor; [|exact Hcolumns]. rewrite length_take. lia.
Qed.

Lemma getVecN_Some (T : ScalarType) (N : nat) (vector : JsonValue)
    (components : list (carrier T)) :
  getVecN T N vector = Some components →
  isArray vector = true ∧
  length (getArray vector) = N ∧
  length components = N ∧
  Forall2 (λ element x, getScalar T element = Some x)
          (getArray vector) components.
Proof.
  unfold getVecN. intros Hvector.
  destruct (isArray vector); [|discriminate]. simpl in Hvector.
  case_bool_decide as Hlength; [discriminate|].
  apply mapM_Some in Hvector.
  repeat split; try assumption.
  rewrite <- Hlength. symmetry. eapply Forall2_length, Hvector.
Qed.

Lemma getMatN_Some (T : ScalarType) (N : nat) (matrix : JsonValue)
    (cols : list (list (carrier T))) :
  getMatN T N matrix = Some cols →
  isArray matrix = true ∧
  length (getArray matrix) = (N * N)%nat ∧
  length cols = N ∧
  Forall (λ column, length column = N) cols ∧
  Forall2 (λ element x, getScalar T element = Some x)
          (getArray matrix) (concat cols).
Proof.
  unfold getMatN. intros Hmatrix.
  destruct (isArray matrix); [|discriminate]. simpl in Hmatrix.
  case_bool_decide as Hlength; [discriminate|].
  apply fmap_Some in Hmatrix as (parsed & Hparsed & ->).
  apply mapM_Some in Hparsed.
  destruct (columns_shape N N parsed) as (Hcount & Hcolumns & Hconcat).
  { rewrite <- Hlength. symmetry. eapply Forall2_length, Hparsed. }
  rewrite Hconcat. repeat split; assumption.
Qed.

(** X3: a vector is parsed only from an array of exactly [N] numbers, and
    has [N] components, component [i] parsed from element [i]; a matrix is
    parsed only from an array of [N * N] numbers, and has [N] columns of [N]
    components, which put end to end are the elements parsed in order. *)
Theorem parsed_vector_and_matrix_shape (T : ScalarType) (N : nat)
    (vector matrix : JsonValue) (components : list (carrier T))
    (cols : list (list (carrier T))) :
  getVecN T N vector = Some components →
  getMatN T N matrix = Some cols →
  (isArray vector = true ∧
   length (getArray vector) = N ∧
   length components = N ∧
   Forall2 (λ element x, getScalar T element = Some x)
           (getArray vector) components) ∧
  (isArray matrix = true ∧
   length (getArray matrix) = (N * N)%nat ∧
   length cols = N ∧
   Forall (λ column, length column = N) cols ∧
   Forall2 (λ element x, getScalar T element = Some x)
           (getArray matrix) (concat cols)).
Proof.
  intros Hvector Hmatrix. split.
  - exact (getVecN_Some T N vector components Hvector).
  - exact (getMatN_Some T N matrix cols Hmatrix).
Qed.

(** The vector [[1, 2]] and the 2 x 2 matrix [[1, 2, 3, 4]] on [uint8_t]. *)
Lemma parsed_vector_and_matrix_shape_witness :
  getVecN uint8_t 2 (JArray [JNumber 1; JNumber 2]) = Some [1; 2] ∧
  getMatN uint8_t 2 (JArray [JNumber 1; JNumber 2; JNumber 3; JNumber 4])
  = Some [[1; 2]; [3; 4]] ∧
  length [1; 2] = 2%nat ∧
  Forall (λ column : list Z, length column = 2%nat) [[1; 2]; [3; 4]].
Proof.
  split; [reflexivity|]. split; [reflexivity|].
  destruct (parsed_vector_and_matrix_shape uint8_t 2
              (JArray [JNumber 1; JNumber 2])
              (JArray [JNumber 1; JNumber 2; JNumber 3; JNumber 4])
              [1; 2] [[1; 2]; [3; 4]])
    as [(_ & _ & Hlength & _) (_ & _ & _ & Hcolumns & _)];
    [reflexivity|reflexivity|].
  split; assumption.
Defined.

(** ** The numeric array parser *)

Lemma size_concat_constant (chunk : Z) (chunks : list (list Z)) :
  Forall (λ bytes, size bytes = chunk) chunks →
  size (concat chunks) = size chunks * chunk.
Proof.
  unfold size. induction 1 as [|bytes chunks Hbytes _ IH]; simpl; [lia|].
  rewrite length_app. lia.
Qed.

(** A parsed value occupies [sizeof(T)] bytes when every component does. *)
Lemma valueBytes_size (E : ElementType) (j : JsonValue) (v : ValueOf E) :
  (∀ x, size (scalarBytes (scalarOf E) x) = sizeofScalar (scalarOf E)) →
  getValue E j = Some v →
  size (valueBytes E v) = sizeof E.
Proof.
  intros Hlayout. unfold getValue, sizeof, valueBytes.
  assert (∀ xs : list (carrier (scalarOf E)),
            size (concat (scalarBytes (scalarOf E) <$> xs))
            = size xs * sizeofScalar (scalarOf E)) as Hrow.
  { intros xs. rewrite (size_concat_constant (sizeofScalar (scalarOf E))).
    - unfold size. now rewrite length_fmap.
    - apply Forall_fmap, Forall_forall. intros x _. apply Hlayout. }
  destruct (shapeOf E) as [|N|N]; intros Hparsed;
    apply fmap_Some in Hparsed as (parsed & Hparsed & ->).
  - apply Hlayout.
  - apply getVecN_Some in Hparsed as (_ & _ & Hlength & _).
    rewrite Hrow. unfold size. rewrite Hlength. reflexivity.
  - apply getMatN_Some in Hparsed as (_ & _ & Hcount & Hcolumns & _).
    rewrite (size_concat_constant (Z.of_nat N * sizeofScalar (scalarOf E))).
    + unfold size. rewrite length_fmap, Hcount. lia.
    + apply Forall_fmap. eapply Forall_impl; [exact Hcolumns|].
      simpl. intros column Hcolumn. rewrite Hrow. unfold size.
      now rewrite Hcolumn.
Qed.

(** The bytes of the parsed elements of an array. *)
Lemma parsed_values_size (E : ElementType) (elements : list JsonValue)
    (values : list (ValueOf E)) :
  (∀ x, size (scalarBytes (scalarOf E) x) = sizeofScalar (scalarOf E)) →
  mapM (getValue E) elements = Some values →
  size (concat (valueBytes E <$> values)) = size elements * sizeof E.
Proof.
  intros Hlayout Hvalues. apply mapM_Some in Hvalues.
  rewrite (size_concat_constant (sizeof E)).
  - unfold size. rewrite length_fmap.
    now rewrite (Forall2_length _ _ _ Hvalues).
  - apply Forall_fmap.
    induction Hvalues as [|element v elements values Hv _ IH];
      constructor; [|exact IH].
    simpl. eapply valueBytes_size; eassumption.
Qed.

(** X4: when every component of the element type occupies [sizeof] bytes, the
    buffer parsed from a JSON array holds [sizeof(T)] bytes per element: its
    size is the number of elements times [sizeof(T)], not the number of
    elements. *)
Theorem array_buffer_size (E : ElementType) (jsonValue : JsonValue)
    (buffer : list Z) :
  (∀ x, size (scalarBytes (scalarOf E) x) = sizeofScalar (scalarOf E)) →
  getArrayValue E jsonValue = Some buffer →
  isArray jsonValue = true ∧
  size buffer = size (getArray jsonValue) * sizeof E.
Proof.
  intros Hlayout. unfold getArrayValue.
  destruct (isArray jsonValue); [|discriminate]. simpl. intros Hparsed.
  apply bind_Some in Hparsed as (values & Hvalues & Hbuffer).
  injection Hbuffer as <-. split; [reflexivity|].
  eapply parsed_values_size; eassumption.
Qed.

(** The layout of the integer types and of [double]. *)
Lemma littleEndian_size (width : nat) (x : Z) :
  size (littleEndian width x) = Z.of_nat width.
Proof. unfold size. now rewrite littleEndian_length. Qed.

(** Three [uint16_t] elements are parsed into six bytes. *)
Lemma array_buffer_size_witness :
  getArrayValue (scalarElement uint16_t)
    (JArray [JNumber 1; JNumber 2; JNumber 515])
  = Some [1; 0; 2; 0; 3; 2] ∧
  size [1; 0; 2; 0; 3; 2] = 3 * sizeof (scalarElement uint16_t).
Proof.
  split; [reflexivity|].
  apply (array_buffer_size (scalarElement uint16_t)
           (JArray [JNumber 1; JNumber 2; JNumber 515]) [1; 0; 2; 0; 3; 2]).
  - intros x. apply littleEndian_size.
  - reflexivity.
Defined.

(** ** The plain scalar view *)

Ltac unfold_plain_view :=
  unfold PropertyView.status, PropertyView.ofClassProperty,
    PropertyView.resolveOffset, PropertyView.resolveScale,
    PropertyView.resolveMax, PropertyView.resolveMin,
    PropertyView.resolveNoData, PropertyView.resolveDefault.

(** X5: the plain scalar view of a class property is [Valid] exactly when the
    type validation passes, the property is not normalized, a declared offset
    or scale is of a floating-point component type and parses, a declared max
    or min comes with a declared scale, and a declared noData or default
    belongs to a property that is not required and parses. *)
Theorem plain_view_valid_iff (E : ElementType)
    (classProperty : ClassProperty.t) :
  PropertyView.status E (PropertyView.ofClassProperty E classProperty) = Valid
  ↔
  validatePropertyType E classProperty = Valid ∧
  ClassProperty.normalized classProperty = false ∧
  (∀ j, ClassProperty.offset classProperty = Some j →
        isFloatComponent (TypeToPropertyType_component E) = true ∧
        is_Some (getValue E j)) ∧
  (∀ j, ClassProperty.scale classProperty = Some j →
        isFloatComponent (TypeToPropertyType_component E) = true ∧
        is_Some (getValue E j)) ∧
  (is_Some (ClassProperty.max classProperty) ∨
   is_Some (ClassProperty.min classProperty) →
   is_Some (ClassProperty.scale classProperty)) ∧
  (∀ j, ClassProperty.noData classProperty = Some j →
        ClassProperty.required classProperty = false ∧
        is_Some (getValue E j)) ∧
  (∀ j, ClassProperty.defaultProperty classProperty = Some j →
        ClassProperty.required classProperty = false ∧
        is_Some (getValue E j)).
Proof.
  unfold_plain_view. split.
  - destruct (validatePropertyType E classProperty);
      try (run_body; discriminate).
    destruct (ClassProperty.normalized classProperty); [discriminate|].
    run_body.
    destruct (ClassProperty.required classProperty);
    destruct (isFloatComponent (TypeToPropertyType_component E));
    (destruct (ClassProperty.offset classProperty) as [o|];
       [try destruct (getValue E o) eqn:Ho|]); simpl; try discriminate;
    (destruct (ClassProperty.scale classProperty) as [s|];
       [try destruct (getValue E s) eqn:Hs|]); simpl; try discriminate;
    destruct (ClassProperty.max classProperty) as [m|];
      simpl; try discriminate;
    destruct (ClassProperty.min classProperty) as [m'|];
      simpl; try discriminate;
    (destruct (ClassProperty.noData classProperty) as [nd|];
       [try destruct (getValue E nd) eqn:Hnd|]); simpl; try discriminate;
    (destruct (ClassProperty.defaultProperty classProperty) as [df|];
       [try destruct (getValue E df) eqn:Hdf|]); simpl; try discriminate;
    intros _; repeat split; try reflexivity; try discriminate;
      try (simplify_eq; eexists; eassumption);
      try (eexists; reflexivity);
      try (intros [[? [=]]|[? [=]]]).
  - intros (Hvalid & Hplain & Hoffset & Hscale & Hbounds & HnoData & Hdefault).
    rewrite Hvalid, Hplain. run_body.
    destruct (ClassProperty.offset classProperty) as [o|];
      [destruct (Hoffset o eq_refl) as [Hfloat [x Hx]];
       rewrite ?Hfloat; simpl; rewrite ?Hx|];
    simpl;
    (destruct (ClassProperty.scale classProperty) as [s|];
      [destruct (Hscale s eq_refl) as [Hfloat' [y Hy]];
       rewrite ?Hfloat'; simpl; rewrite ?Hy|]);
    simpl;
    (destruct (ClassProperty.max classProperty) as [m|]);
    (destruct (ClassProperty.min classProperty) as [m'|]);
    try solve [exfalso;
               assert (is_Some (@None JsonValue)) as [? [=]]
                 by (apply Hbounds;
                     first [left; eexists; reflexivity
                           |right; eexists; reflexivity])];
    simpl;
    (destruct (ClassProperty.noData classProperty) as [nd|];
      [destruct (HnoData nd eq_refl) as [Hoptional [z Hz]];
       rewrite ?Hoptional; simpl; rewrite ?Hz|]);
    simpl;
    (destruct (ClassProperty.defaultProperty classProperty) as [df|];
      [destruct (Hdefault df eq_refl) as [Hoptional' [w Hw]];
       rewrite ?Hoptional'; simpl; rewrite ?Hw|]);
    reflexivity.
Qed.

(** X6: a plain scalar view that is [Valid] holds, for each field, the value
    parsed from what the class property declares for it, and nothing for a
    field that is not declared. *)
Theorem valid_plain_view_fields (E : ElementType)
    (classProperty : ClassProperty.t) :
  PropertyView.status E (PropertyView.ofClassProperty E classProperty) = Valid →
  PropertyView.ofClassProperty E classProperty
  = {| _status := Valid;
       _required := ClassProperty.required classProperty;
       _offset := ClassProperty.offset classProperty ≫= getValue E;
       _scale := ClassProperty.scale classProperty ≫= getValue E;
       _max := ClassProperty.max classProperty ≫= getValue E;
       _min := ClassProperty.min classProperty ≫= getValue E;
       _noData := ClassProperty.noData classProperty ≫= getValue E;
       _defaultValue :=
         ClassProperty.defaultProperty classProperty ≫= getValue E |}.
Proof.
  unfold_plain_view.
  destruct (validatePropertyType E classProperty);
    try (run_body; discriminate).
  destruct (ClassProperty.normalized classProperty); [discriminate|].
  run_body.
  destruct (ClassProperty.required classProperty);
  destruct (isFloatComponent (TypeToPropertyType_component E));
  (destruct (ClassProperty.offset classProperty) as [o|];
     [try destruct (getValue E o) eqn:Ho|]); simpl; try discriminate;
  (destruct (ClassProperty.scale classProperty) as [s|];
     [try destruct (getValue E s) eqn:Hs|]); simpl; try discriminate;
  destruct (ClassProperty.max classProperty) as [m|];
    simpl; try discriminate;
  destruct (ClassProperty.min classProperty) as [m'|];
    simpl; try discriminate;
  (destruct (ClassProperty.noData classProperty) as [nd|];
     [try destruct (getValue E nd) eqn:Hnd|]); simpl; try discriminate;
  (destruct (ClassProperty.defaultProperty classProperty) as [df|];
     [try destruct (getValue E df) eqn:Hdf|]); simpl; try discriminate;
  intros _; cbn;
  repeat (match goal with
          | H : getValue _ _ = _ |- _ => rewrite ?H; clear H
          end);
  reflexivity.
Qed.

(** A [double] class property declaring every field. *)
Lemma valid_plain_view_fields_witness :
  let E := scalarElement double in
  let classProperty :=
    {| ClassProperty.type := "SCALAR";
       ClassProperty.componentType := Some "FLOAT64"%string;
       ClassProperty.array := false;
       ClassProperty.count := None;
       ClassProperty.normalized := false;
       ClassProperty.offset := Some (JNumber 10);
       ClassProperty.scale := Some (JNumber 2);
       ClassProperty.max := Some (JNumber 20);
       ClassProperty.min := Some (JNumber 10);
       ClassProperty.required := false;
       ClassProperty.noData := Some (JNumber 0);
       ClassProperty.defaultProperty := Some (JNumber 5) |} in
  PropertyView.ofClassProperty E classProperty
  = {| _status := Valid;
       _required := false;
       _offset := Some (scalar ten);
       _scale := Some (scalar 0x4000000000000000);
       _max := Some (scalar twenty);
       _min := Some (scalar ten);
       _noData := Some (scalar 0);
       _defaultValue := Some (scalar 0x4014000000000000) |}.
Proof.
  intros E classProperty.
  rewrite (valid_plain_view_fields E classProperty);
    vm_compute; reflexivity.
Defined.

(** X7: in the plain scalar view the fields after the point of the error are
    empty: nothing is held after a type, normalization or offset error; after
    a scale error only the offset may be held; after a max or min error no
    scale, no later bound, no noData and no default; after a noData error no
    noData and no default; after a default error no default. *)
Theorem plain_view_fields_after_error_are_empty (E : ElementType)
    (classProperty : ClassProperty.t) :
  let v := PropertyView.ofClassProperty E classProperty in
  match PropertyView.status E v with
  | Valid => True
  | ErrorInvalidScale =>
      _scale v = None ∧ _max v = None ∧ _min v = None ∧
      _noData v = None ∧ _defaultValue v = None
  | ErrorInvalidMax =>
      _scale v = None ∧ _min v = None ∧
      _noData v = None ∧ _defaultValue v = None
  | ErrorInvalidMin =>
      _scale v = None ∧ _noData v = None ∧ _defaultValue v = None
  | ErrorInvalidNoDataValue => _noData v = None ∧ _defaultValue v = None
  | ErrorInvalidDefaultValue => _defaultValue v = None
  | _ =>
      _offset v = None ∧ _scale v = None ∧ _max v = None ∧ _min v = None ∧
      _noData v = None ∧ _defaultValue v = None
  end.
Proof.
  unfold_plain_view.
  destruct (validatePropertyType E classProperty);
    try (run_body; repeat split; reflexivity).
  destruct (ClassProperty.normalized classProperty);
    [run_body; repeat split; reflexivity|].
  run_body.
  destruct (ClassProperty.required classProperty);
  destruct (isFloatComponent (TypeToPropertyType_component E));
  (destruct (ClassProperty.offset classProperty) as [o|];
     [try destruct (getValue E o) eqn:Ho|]); simpl;
    try (repeat split; reflexivity);
  (destruct (ClassProperty.scale classProperty) as [s|];
     [try destruct (getValue E s) eqn:Hs|]); simpl;
    try (repeat split; reflexivity);
  destruct (ClassProperty.max classProperty) as [m|];
    simpl; try (repeat split; reflexivity);
  destruct (ClassProperty.min classProperty) as [m'|];
    simpl; try (repeat split; reflexivity);
  (destruct (ClassProperty.noData classProperty) as [nd|];
     [try destruct (getValue E nd) eqn:Hnd|]); simpl;
    try (repeat split; reflexivity);
  (destruct (ClassProperty.defaultProperty classProperty) as [df|];
     [try destruct (getValue E df) eqn:Hdf|]); simpl;
    try (repeat split; reflexivity).
Qed.

(** ** The normalized scalar view *)

Ltac unfold_normalized_view :=
  unfold NormalizedPropertyView.status, NormalizedPropertyView.ofClassProperty,
    NormalizedPropertyView.resolveOffset, NormalizedPropertyView.resolveScale,
    NormalizedPropertyView.resolveMax, NormalizedPropertyView.resolveMin.

(** X8: the normalized scalar view of a class property is [Valid] exactly
    when the type validation passes, the property is normalized, a declared
    offset or scale parses as the normalized type, a declared max or min comes
    with a declared scale, a required property declares neither noData nor
    default, a declared noData parses as the element type and a declared
    default parses as the normalized type.  In particular a property that is
    not normalized never gives a [Valid] view, although the constructor goes
    on after recording that error. *)
Theorem normalized_view_valid_iff (E N : ElementType)
    (classProperty : ClassProperty.t) :
  NormalizedPropertyView.status E N
    (NormalizedPropertyView.ofClassProperty E N classProperty) = Valid
  ↔
  validatePropertyType E classProperty = Valid ∧
  ClassProperty.normalized classProperty = true ∧
  (∀ j, ClassProperty.offset classProperty = Some j →
        is_Some (getValue N j)) ∧
  (∀ j, ClassProperty.scale classProperty = Some j →
        is_Some (getValue N j)) ∧
  (is_Some (ClassProperty.max classProperty) ∨
   is_Some (ClassProperty.min classProperty) →
   is_Some (ClassProperty.scale classProperty)) ∧
  (ClassProperty.required classProperty = true →
   ClassProperty.noData classProperty = None ∧
   ClassProperty.defaultProperty classProperty = None) ∧
  (∀ j, ClassProperty.noData classProperty = Some j →
        is_Some (getValue E j)) ∧
  (∀ j, ClassProperty.defaultProperty classProperty = Some j →
        is_Some (getValue N j)).
Proof.
  unfold_normalized_view. split.
  - destruct (validatePropertyType E classProperty);
      try (run_body; discriminate).
    run_body.
    destruct (ClassProperty.normalized classProperty); simpl;
    destruct (ClassProperty.required classProperty);
    (destruct (ClassProperty.offset classProperty) as [o|];
       [destruct (getValue N o) eqn:Ho|]); simpl; try discriminate;
    (destruct (ClassProperty.scale classProperty) as [s|];
       [destruct (getValue N s) eqn:Hs|]); simpl; try discriminate;
    destruct (ClassProperty.max classProperty) as [m|];
      simpl; try discriminate;
    destruct (ClassProperty.min classProperty) as [m'|];
      simpl; try discriminate;
    (destruct (ClassProperty.noData classProperty) as [nd|];
       [try destruct (getValue E nd) eqn:Hnd|]); simpl; try discriminate;
    (destruct (ClassProperty.defaultProperty classProperty) as [df|];
       [try destruct (getValue N df) eqn:Hdf|]); simpl; try discriminate;
    intros _; repeat split; try reflexivity; try discriminate;
      try (simplify_eq; eexists; eassumption);
      try (intros ? [= <-]; eexists; eassumption);
      try (eexists; reflexivity);
      try (intros [[? [=]]|[? [=]]]).
  - intros (Hvalid & Hnormalized & Hoffset & Hscale & Hbounds & Hrequired
            & HnoData & Hdefault).
    rewrite Hvalid, Hnormalized. run_body.
    destruct (ClassProperty.offset classProperty) as [o|];
      [destruct (Hoffset o eq_refl) as [x Hx]; rewrite ?Hx|];
    simpl;
    (destruct (ClassProperty.scale classProperty) as [s|];
      [destruct (Hscale s eq_refl) as [y Hy]; rewrite ?Hy|]);
    simpl;
    (destruct (ClassProperty.max classProperty) as [m|]);
    (destruct (ClassProperty.min classProperty) as [m'|]);
    try solve [exfalso;
               assert (is_Some (@None JsonValue)) as [? [=]]
                 by (apply Hbounds;
                     first [left; eexists; reflexivity
                           |right; eexists; reflexivity])];
    simpl;
    (destruct (ClassProperty.required classProperty);
      [destruct (Hrequired eq_refl) as [-> ->]; reflexivity|]);
    simpl;
    (destruct (ClassProperty.noData classProperty) as [nd|];
      [destruct (HnoData nd eq_refl) as [z Hz]; rewrite ?Hz|]);
    simpl;
    (destruct (ClassProperty.defaultProperty classProperty) as [df|];
      [destruct (Hdefault df eq_refl) as [w Hw]; rewrite ?Hw|]);
    reflexivity.
Qed.

(** ** The numeric array views *)

Lemma validForCount_true (x : option (list Z)) (count : Z) :
  ArrayMembers.validForCount x count = true ↔
  ∃ buffer, x = Some buffer ∧ (count = 0 ∨ size buffer = to_size_t count).
Proof.
  unfold ArrayMembers.validForCount. destruct x as [buffer|].
  - rewrite orb_true_iff, !bool_decide_eq_true. split.
    + intros H. exists buffer. split; [reflexivity|exact H].
    + intros (? & [= <-] & H). exact H.
  - split; [discriminate|]. intros (? & [=] & _).
Qed.

Lemma invalidForCount_false (x : option (list Z)) (count : Z) :
  ArrayMembers.invalidForCount x count = false ↔
  ∃ buffer, x = Some buffer ∧ (0 < count → size buffer = to_size_t count).
Proof.
  unfold ArrayMembers.invalidForCount. destruct x as [buffer|].
  - rewrite andb_false_iff, !bool_decide_eq_false. split.
    + intros H. exists buffer. split; [reflexivity|].
      intros Hcount. destruct H as [H|H]; [contradiction|].
      now apply dec_stable.
    + intros (? & [= <-] & H).
      destruct (decide (0 < count)) as [Hcount|Hcount]; [right|left; exact Hcount].
      intros Hsize. apply Hsize, H, Hcount.
  - split; [discriminate|]. intros (? & [=] & _).
Qed.

Ltac unfold_array_view :=
  unfold ArrayPropertyView.status, ArrayPropertyView.ofClassProperty,
    ArrayPropertyView.resolveOffset, ArrayPropertyView.resolveScale,
    ArrayPropertyView.resolveMax, ArrayPropertyView.resolveMin,
    ArrayPropertyView.resolveNoData, ArrayPropertyView.resolveDefault,
    ArrayMembers.initialMembers.

#[local] Arguments ArrayMembers.validForCount : simpl never.
#[local] Arguments ArrayMembers.invalidForCount : simpl never.

Ltac run_array_body :=
  unfold exec, andThen, if_, ifSome, assign, ArrayMembers.fail, return_, skip;
  simpl.

Ltac step_array := simpl.

(** The condition of validity of the plain array view, on the tests of the
    source. *)
Lemma plain_array_view_valid_tests (E : ElementType)
    (classProperty : ClassProperty.t) :
  let count := match ClassProperty.count classProperty with
               | Some count => count
               | None => 0
               end in
  ArrayPropertyView.status
    (ArrayPropertyView.ofClassProperty E classProperty) = Valid
  ↔
  validateArrayPropertyType E classProperty = Valid ∧
  ClassProperty.normalized classProperty = false ∧
  (∀ j, ClassProperty.offset classProperty = Some j →
        isFloatComponent (TypeToPropertyType_component E) = true ∧
        ArrayMembers.validForCount (getArrayValue E j) count = true) ∧
  (∀ j, ClassProperty.scale classProperty = Some j →
        isFloatComponent (TypeToPropertyType_component E) = true ∧
        ArrayMembers.validForCount (getArrayValue E j) count = true) ∧
  (∀ j, ClassProperty.max classProperty = Some j →
        ArrayMembers.invalidForCount (getArrayValue E j) count = false) ∧
  (∀ j, ClassProperty.min classProperty = Some j →
        ArrayMembers.invalidForCount (getArrayValue E j) count = false) ∧
  (∀ j, ClassProperty.noData classProperty = Some j →
        ClassProperty.required classProperty = false ∧
        is_Some (getArrayValue E j)) ∧
  (∀ j, ClassProperty.defaultProperty classProperty = Some j →
        ClassProperty.required classProperty = false ∧
        is_Some (getArrayValue E j)).
Proof.
  intros count. subst count. unfold_array_view. split.
  - destruct (validateArrayPropertyType E classProperty);
      try (run_array_body; discriminate).
    destruct (ClassProperty.normalized classProperty); [discriminate|].
    run_array_body.
    set (count := match ClassProperty.count classProperty with
                  | Some count => count
                  | None => 0
                  end).
    destruct (ClassProperty.required classProperty);
    destruct (isFloatComponent (TypeToPropertyType_component E));
    (destruct (ClassProperty.offset classProperty) as [o|]; step_array;
       [try destruct (ArrayMembers.validForCount (getArrayValue E o) count)
              eqn:Ho|]); step_array; try discriminate;
    (destruct (ClassProperty.scale classProperty) as [s|]; step_array;
       [try destruct (ArrayMembers.validForCount (getArrayValue E s) count)
              eqn:Hs|]); step_array; try discriminate;
    (destruct (ClassProperty.max classProperty) as [m|]; step_array;
       [destruct (ArrayMembers.invalidForCount (getArrayValue E m) count)
              eqn:Hm|]); step_array; try discriminate;
    (destruct (ClassProperty.min classProperty) as [m'|]; step_array;
       [destruct (ArrayMembers.invalidForCount (getArrayValue E m') count)
              eqn:Hm'|]); step_array; try discriminate;
    (destruct (ClassProperty.noData classProperty) as [nd|];
       [try destruct (getArrayValue E nd) eqn:Hnd|]);
      step_array; try discriminate;
    (destruct (ClassProperty.defaultProperty classProperty) as [df|];
       [try destruct (getArrayValue E df) eqn:Hdf|]);
      step_array; try discriminate;
    intros _; repeat split; try reflexivity; try discriminate;
      try (simplify_eq; assumption);
      try (simplify_eq; eexists; eassumption);
      try (intros ? [= <-]; assumption).
  - intros (Hvalid & Hplain & Hoffset & Hscale & Hmax & Hmin & HnoData
            & Hdefault).
    rewrite Hvalid, Hplain. run_array_body.
    set (count := match ClassProperty.count classProperty with
                  | Some count => count
                  | None => 0
                  end) in *.
    destruct (ClassProperty.offset classProperty) as [o|];
      [destruct (Hoffset o eq_refl) as [Hfloat Hx]; rewrite ?Hfloat;
       step_array; rewrite ?Hx|];
    step_array;
    (destruct (ClassProperty.scale classProperty) as [s|];
      [destruct (Hscale s eq_refl) as [Hfloat' Hy]; rewrite ?Hfloat';
       step_array; rewrite ?Hy|]);
    step_array;
    (destruct (ClassProperty.max classProperty) as [m|];
      [step_array; rewrite (Hmax m eq_refl)|]);
    step_array;
    (destruct (ClassProperty.min classProperty) as [m'|];
      [step_array; rewrite (Hmin m' eq_refl)|]);
    step_array;
    (destruct (ClassProperty.noData classProperty) as [nd|];
      [destruct (HnoData nd eq_refl) as [Hoptional [z Hz]];
       rewrite ?Hoptional; step_array; rewrite ?Hz|]);
    step_array;
    (destruct (ClassProperty.defaultProperty classProperty) as [df|];
      [destruct (Hdefault df eq_refl) as [Hoptional' [w Hw]];
       rewrite ?Hoptional'; step_array; rewrite ?Hw|]);
    reflexivity.
Qed.

(** X9: the plain array view of a class property is [Valid] exactly when the
    array type validation passes, the property is not normalized, a declared
    offset or scale is of a floating-point component type and parses into a
    buffer whose size in bytes is the count (or the count is 0), a declared max
    or min parses into a buffer whose size in bytes is the count when the
    count is positive, and a declared noData or default belongs to a property
    that is not required and parses, whatever its length. *)
Theorem plain_array_view_valid_iff (E : ElementType)
    (classProperty : ClassProperty.t) :
  let count := match ClassProperty.count classProperty with
               | Some count => count
               | None => 0
               end in
  let accepted j :=
    ∃ buffer, getArrayValue E j = Some buffer ∧
              (count = 0 ∨ size buffer = to_size_t count) in
  let bounded j :=
    ∃ buffer, getArrayValue E j = Some buffer ∧
              (0 < count → size buffer = to_size_t count) in
  ArrayPropertyView.status
    (ArrayPropertyView.ofClassProperty E classProperty) = Valid
  ↔
  validateArrayPropertyType E classProperty = Valid ∧
  ClassProperty.normalized classProperty = false ∧
  (∀ j, ClassProperty.offset classProperty = Some j →
        isFloatComponent (TypeToPropertyType_component E) = true ∧
        accepted j) ∧
  (∀ j, ClassProperty.scale classProperty = Some j →
        isFloatComponent (TypeToPropertyType_component E) = true ∧
        accepted j) ∧
  (∀ j, ClassProperty.max classProperty = Some j → bounded j) ∧
  (∀ j, ClassProperty.min classProperty = Some j → bounded j) ∧
  (∀ j, ClassProperty.noData classProperty = Some j →
        ClassProperty.required classProperty = false ∧
        is_Some (getArrayValue E j)) ∧
  (∀ j, ClassProperty.defaultProperty classProperty = Some j →
        ClassProperty.required classProperty = false ∧
        is_Some (getArrayValue E j)).
Proof.
  intros count accepted bounded. subst accepted bounded.
  rewrite plain_array_view_valid_tests. fold count.
  split; intros (Hvalid & Hplain & Hoffset & Hscale & Hmax & Hmin & Hrest);
    (split; [exact Hvalid|]); (split; [exact Hplain|]);
    (split; [intros j Hj; destruct (Hoffset j Hj) as [Hfloat Hj'];
             split; [exact Hfloat|apply validForCount_true; exact Hj']|]);
    (split; [intros j Hj; destruct (Hscale j Hj) as [Hfloat Hj'];
             split; [exact Hfloat|apply validForCount_true; exact Hj']|]);
    (split; [intros j Hj; apply invalidForCount_false, Hmax, Hj|]);
    (split; [intros j Hj; apply invalidForCount_false, Hmin, Hj|]);
    exact Hrest.
Qed.

Ltac unfold_normalized_array_view :=
  unfold NormalizedArrayPropertyView.status,
    NormalizedArrayPropertyView.ofClassProperty,
    NormalizedArrayPropertyView.resolveOffset,
    NormalizedArrayPropertyView.resolveScale,
    NormalizedArrayPropertyView.resolveMax,
    NormalizedArrayPropertyView.resolveMin,
    NormalizedArrayPropertyView.resolveNoData,
    NormalizedArrayPropertyView.resolveDefault,
    ArrayMembers.initialMembers.

(** The condition of validity of the normalized array view, on the tests of
    the source. *)
Lemma normalized_array_view_valid_tests (E N : ElementType)
    (classProperty : ClassProperty.t) :
  let count := match ClassProperty.count classProperty with
               | Some count => count
               | None => 0
               end in
  NormalizedArrayPropertyView.status
    (NormalizedArrayPropertyView.ofClassProperty E N classProperty) = Valid
  ↔
  validateArrayPropertyType E classProperty = Valid ∧
  ClassProperty.normalized classProperty = true ∧
  (∀ j, ClassProperty.offset classProperty = Some j →
        ArrayMembers.invalidForCount (getArrayValue N j) count = false) ∧
  (∀ j, ClassProperty.scale classProperty = Some j →
        ArrayMembers.invalidForCount (getArrayValue N j) count = false) ∧
  (∀ j, ClassProperty.max classProperty = Some j →
        ArrayMembers.invalidForCount (getArrayValue N j) count = false) ∧
  (∀ j, ClassProperty.min classProperty = Some j →
        ArrayMembers.invalidForCount (getArrayValue N j) count = false) ∧
  (∀ j, ClassProperty.noData classProperty = Some j →
        ClassProperty.required classProperty = false ∧
        is_Some (getArrayValue E j)) ∧
  (∀ j, ClassProperty.defaultProperty classProperty = Some j →
        ClassProperty.required classProperty = false ∧
        is_Some (getArrayValue N j)).
Proof.
  intros count. subst count. unfold_normalized_array_view. split.
  - destruct (validateArrayPropertyType E classProperty);
      try (run_array_body; discriminate).
    destruct (ClassProperty.normalized classProperty); [|discriminate].
    run_array_body.
    set (count := match ClassProperty.count classProperty with
                  | Some count => count
                  | None => 0
                  end).
    destruct (ClassProperty.required classProperty);
    (destruct (ClassProperty.offset classProperty) as [o|]; step_array;
       [destruct (ArrayMembers.invalidForCount (getArrayValue N o) count)
              eqn:Ho|]); step_array; try discriminate;
    (destruct (ClassProperty.scale classProperty) as [s|]; step_array;
       [destruct (ArrayMembers.invalidForCount (getArrayValue N s) count)
              eqn:Hs|]); step_array; try discriminate;
    (destruct (ClassProperty.max classProperty) as [m|]; step_array;
       [destruct (ArrayMembers.invalidForCount (getArrayValue N m) count)
              eqn:Hm|]); step_array; try discriminate;
    (destruct (ClassProperty.min classProperty) as [m'|]; step_array;
       [destruct (ArrayMembers.invalidForCount (getArrayValue N m') count)
              eqn:Hm'|]); step_array; try discriminate;
    (destruct (ClassProperty.noData classProperty) as [nd|];
       [try destruct (getArrayValue E nd) eqn:Hnd|]);
      step_array; try discriminate;
    (destruct (ClassProperty.defaultProperty classProperty) as [df|];
       [try destruct (getArrayValue N df) eqn:Hdf|]);
      step_array; try discriminate;
    intros _; repeat split; try reflexivity; try discriminate;
      try (simplify_eq; assumption);
      try (simplify_eq; eexists; eassumption);
      try (intros ? [= <-]; assumption).
  - intros (Hvalid & Hnormalized & Hoffset & Hscale & Hmax & Hmin & HnoData
            & Hdefault).
    rewrite Hvalid, Hnormalized. run_array_body.
    set (count := match ClassProperty.count classProperty with
                  | Some count => count
                  | None => 0
                  end) in *.
    destruct (ClassProperty.offset classProperty) as [o|];
      [step_array; rewrite (Hoffset o eq_refl)|];
    step_array;
    (destruct (ClassProperty.scale classProperty) as [s|];
      [step_array; rewrite (Hscale s eq_refl)|]);
    step_array;
    (destruct (ClassProperty.max classProperty) as [m|];
      [step_array; rewrite (Hmax m eq_refl)|]);
    step_array;
    (destruct (ClassProperty.min classProperty) as [m'|];
      [step_array; rewrite (Hmin m' eq_refl)|]);
    step_array;
    (destruct (ClassProperty.noData classProperty) as [nd|];
      [destruct (HnoData nd eq_refl) as [Hoptional [z Hz]];
       rewrite ?Hoptional; step_array; rewrite ?Hz|]);
    step_array;
    (destruct (ClassProperty.defaultProperty classProperty) as [df|];
      [destruct (Hdefault df eq_refl) as [Hoptional' [w Hw]];
       rewrite ?Hoptional'; step_array; rewrite ?Hw|]);
    reflexivity.
Qed.

(** X10: the normalized array view of a class property is [Valid] exactly
    when the array type validation passes, the property is normalized, each
    declared offset, scale, max and min parses as an array of the normalized
    type into a buffer whose size in bytes is the count when the count is
    positive, and a declared noData (of the element type) or default (of the
    normalized type) belongs to a property that is not required and parses,
    whatever its length. *)
Theorem normalized_array_view_valid_iff (E N : ElementType)
    (classProperty : ClassProperty.t) :
  let count := match ClassProperty.count classProperty with
               | Some count => count
               | None => 0
               end in
  let bounded j :=
    ∃ buffer, getArrayValue N j = Some buffer ∧
              (0 < count → size buffer = to_size_t count) in
  NormalizedArrayPropertyView.status
    (NormalizedArrayPropertyView.ofClassProperty E N classProperty) = Valid
  ↔
  validateArrayPropertyType E classProperty = Valid ∧
  ClassProperty.normalized classProperty = true ∧
  (∀ j, ClassProperty.offset classProperty = Some j → bounded j) ∧
  (∀ j, ClassProperty.scale classProperty = Some j → bounded j) ∧
  (∀ j, ClassProperty.max classProperty = Some j → bounded j) ∧
  (∀ j, ClassProperty.min classProperty = Some j → bounded j) ∧
  (∀ j, ClassProperty.noData classProperty = Some j →
        ClassProperty.required classProperty = false ∧
        is_Some (getArrayValue E j)) ∧
  (∀ j, ClassProperty.defaultProperty classProperty = Some j →
        ClassProperty.required classProperty = false ∧
        is_Some (getArrayValue N j)).
Proof.
  intros count bounded. subst bounded.
  rewrite normalized_array_view_valid_tests. fold count.
  split;
    intros (Hvalid & Hnormalized & Hoffset & Hscale & Hmax & Hmin & Hrest);
    (split; [exact Hvalid|]); (split; [exact Hnormalized|]);
    (split; [intros j Hj; apply invalidForCount_false, Hoffset, Hj|]);
    (split; [intros j Hj; apply invalidForCount_false, Hscale, Hj|]);
    (split; [intros j Hj; apply invalidForCount_false, Hmax, Hj|]);
    (split; [intros j Hj; apply invalidForCount_false, Hmin, Hj|]);
    exact Hrest.
Qed.

(** X26: under a fixed count, the plain array view compares the count with
    the byte size of offset, scale, max and min: in a [Valid] view each one
    that is declared has as many elements as the count divided by
    [sizeof(T)], so that for an element type of more than one byte an array
    of exactly [count] elements is rejected. *)
Theorem fixed_count_is_compared_with_byte_size (E : ElementType)
    (classProperty : ClassProperty.t) (count : Z) (declared : JsonValue) :
  (∀ x, size (scalarBytes (scalarOf E) x) = sizeofScalar (scalarOf E)) →
  ClassProperty.count classProperty = Some count →
  0 < count < 2 ^ 64 →
  Some declared ∈ [ClassProperty.offset classProperty;
                   ClassProperty.scale classProperty;
                   ClassProperty.max classProperty;
                   ClassProperty.min classProperty] →
  ArrayPropertyView.status
    (ArrayPropertyView.ofClassProperty E classProperty) = Valid →
  size (getArray declared) * sizeof E = count.
Proof.
  intros Hlayout Hcount Hrange Hdeclared Hvalid.
  apply plain_array_view_valid_tests in Hvalid. cbv zeta in Hvalid.
  rewrite Hcount in Hvalid.
  destruct Hvalid as (_ & _ & Hoffset & Hscale & Hmax & Hmin & _).
  assert (∃ buffer, getArrayValue E declared = Some buffer ∧
                    size buffer = count) as (buffer & Hparsed & Hsize).
  { assert (to_size_t count = count) as Hcast
      by (unfold to_size_t; apply Z.mod_small; lia).
    decompose_list_elem_of.
    - destruct (Hoffset declared) as [_ Htest]; [congruence |].
      unfold ArrayMembers.validForCount in Htest.
      destruct (getArrayValue E declared) as [buffer|]; [| discriminate].
      exists buffer. split; [reflexivity |].
      rewrite Hcast in Htest.
      rewrite bool_decide_eq_false_2 in Htest by lia.
      apply bool_decide_eq_true_1 in Htest. exact Htest.
    - destruct (Hscale declared) as [_ Htest]; [congruence |].
      unfold ArrayMembers.validForCount in Htest.
      destruct (getArrayValue E declared) as [buffer|]; [| discriminate].
      exists buffer. split; [reflexivity |].
      rewrite Hcast in Htest.
      rewrite bool_decide_eq_false_2 in Htest by lia.
      apply bool_decide_eq_true_1 in Htest. exact Htest.
    - specialize (Hmax declared ltac:(congruence)).
      unfold ArrayMembers.invalidForCount in Hmax.
      destruct (getArrayValue E declared) as [buffer|]; [| discriminate].
      exists buffer. split; [reflexivity |].
      rewrite Hcast in Hmax.
      rewrite (bool_decide_eq_true_2 (0 < count)) in Hmax by lia.
      apply bool_decide_eq_false_1 in Hmax.
      destruct (decide (size buffer = count)); [assumption | contradiction].
    - specialize (Hmin declared ltac:(congruence)).
      unfold ArrayMembers.invalidForCount in Hmin.
      destruct (getArrayValue E declared) as [buffer|]; [| discriminate].
      exists buffer. split; [reflexivity |].
      rewrite Hcast in Hmin.
      rewrite (bool_decide_eq_true_2 (0 < count)) in Hmin by lia.
      apply bool_decide_eq_false_1 in Hmin.
      destruct (decide (size buffer = count)); [assumption | contradiction]. }
  unfold getArrayValue in Hparsed.
  destruct (isArray declared); [| discriminate]. simpl in Hparsed.
  apply bind_Some in Hparsed as (values & Hvalues & [= <-]).
  rewrite <- (parsed_values_size E _ values Hlayout Hvalues). exact Hsize.
Qed.

(** A [uint16_t] array of count 2 whose max is the single element [[1]]. *)
Lemma fixed_count_is_compared_with_byte_size_witness :
  ArrayPropertyView.status
    (ArrayPropertyView.ofClassProperty (scalarElement uint16_t)
       (arrayProperty "UINT16" (Some 2) false None None
          (Some (JArray [JNumber 1])) None None)) = Valid ∧
  size (getArray (JArray [JNumber 1])) * sizeof (scalarElement uint16_t) = 2.
Proof.
  assert (∀ A B : Prop, A → (A → B) → A ∧ B) as both by (intros; split; auto).
  apply both; [vm_compute; reflexivity |]. intros Hvalid.
  apply (fixed_count_is_compared_with_byte_size (scalarElement uint16_t)
           (arrayProperty "UINT16" (Some 2) false None None
              (Some (JArray [JNumber 1])) None None) 2 (JArray [JNumber 1])).
  - intros x. apply littleEndian_size.
  - reflexivity.
  - lia.
  - simpl. right. right. left.
  - exact Hvalid.
Defined.

(** ** Overrides *)

Section OverrideStatements.
Variables E N : ElementType.

(** What the override statements of the plain scalar view keep and set. *)
Lemma plain_override_statements (v : PropertyView.t E)
    (offset scale max min : option JsonValue) :
  let v' :=
    exec (if_ (λ v, notValid (_status v)) return_ ;;;
          PropertyView.resolveOffset E offset ;;;
          PropertyView.resolveScale E scale ;;;
          PropertyView.resolveMax E max ;;;
          PropertyView.resolveMin E min) v in
  (_status v ≠ Valid → v' = v) ∧
  _required v' = _required v ∧
  _noData v' = _noData v ∧
  _defaultValue v' = _defaultValue v ∧
  (_status v' = Valid →
   _offset v' = match offset with
                | Some j => getValue E j
                | None => _offset v
                end ∧
   _scale v' = match scale with
               | Some j => getValue E j
               | None => _scale v
               end ∧
   _max v' = match max with Some j => getValue E j | None => _max v end ∧
   _min v' = match min with Some j => getValue E j | None => _min v end).
Proof.
  destruct v as [st rq vo vs vmax vmin vnd vdf].
  unfold PropertyView.resolveOffset, PropertyView.resolveScale,
    PropertyView.resolveMax, PropertyView.resolveMin.
  destruct st; run_body;
    try (repeat split; first [reflexivity | discriminate | congruence]).
  destruct (isFloatComponent (TypeToPropertyType_component E));
  (destruct offset as [o|]; [try destruct (getValue E o) eqn:Ho|]); simpl;
    try (repeat split; first [reflexivity | discriminate | congruence]);
  (destruct scale as [s|]; [try destruct (getValue E s) eqn:Hs|]); simpl;
    try (repeat split; first [reflexivity | discriminate | congruence]);
  destruct vs; destruct max, min; simpl;
    repeat split; first [reflexivity | discriminate | congruence].
Qed.

(** What the override statements of the normalized scalar view keep and
    set. *)
Lemma normalized_override_statements (v : NormalizedPropertyView.t E N)
    (offset scale max min : option JsonValue) :
  let v' :=
    exec (if_ (λ v, notValid (_status v)) return_ ;;;
          NormalizedPropertyView.resolveOffset E N offset ;;;
          NormalizedPropertyView.resolveScale E N scale ;;;
          NormalizedPropertyView.resolveMax E N max ;;;
          NormalizedPropertyView.resolveMin E N min) v in
  (_status v ≠ Valid → v' = v) ∧
  _required v' = _required v ∧
  _noData v' = _noData v ∧
  _defaultValue v' = _defaultValue v ∧
  (_status v' = Valid →
   _offset v' = match offset with
                | Some j => getValue N j
                | None => _offset v
                end ∧
   _scale v' = match scale with
               | Some j => getValue N j
               | None => _scale v
               end ∧
   _max v' = match max with Some j => getValue N j | None => _max v end ∧
   _min v' = match min with Some j => getValue N j | None => _min v end).
Proof.
  destruct v as [st rq vo vs vmax vmin vnd vdf].
  unfold NormalizedPropertyView.resolveOffset,
    NormalizedPropertyView.resolveScale,
    NormalizedPropertyView.resolveMax, NormalizedPropertyView.resolveMin.
  destruct st; run_body;
    try (repeat split; first [reflexivity | discriminate | congruence]).
  (destruct offset as [o|]; [destruct (getValue N o) eqn:Ho|]); simpl;
    try (repeat split; first [reflexivity | discriminate | congruence]);
  (destruct scale as [s|]; [destruct (getValue N s) eqn:Hs|]); simpl;
    try (repeat split; first [reflexivity | discriminate | congruence]);
  destruct vs; destruct max, min; simpl;
    repeat split; first [reflexivity | discriminate | congruence].
Qed.

End OverrideStatements.

Section ArrayOverrideStatements.
Variables E N : ElementType.

(** What the override statements of the plain array view keep and set. *)
Lemma plain_array_override_statements (v : ArrayMembers.t)
    (offset scale max min : option JsonValue) :
  let v' :=
    exec (if_ (λ v, notValid (ArrayMembers._status v)) return_ ;;;
          ArrayPropertyView.resolveOffset E offset ;;;
          ArrayPropertyView.resolveScale E scale ;;;
          ArrayPropertyView.overrideMax E max ;;;
          ArrayPropertyView.overrideMin E min) v in
  (ArrayMembers._status v ≠ Valid → v' = v) ∧
  ArrayMembers._count v' = ArrayMembers._count v ∧
  ArrayMembers._required v' = ArrayMembers._required v ∧
  ArrayMembers._noData v' = ArrayMembers._noData v ∧
  ArrayMembers._defaultValue v' = ArrayMembers._defaultValue v ∧
  (ArrayMembers._status v' = Valid →
   ArrayMembers._offset v' = match offset with
                             | Some j => getArrayValue E j
                             | None => ArrayMembers._offset v
                             end ∧
   ArrayMembers._scale v' = match scale with
                            | Some j => getArrayValue E j
                            | None => ArrayMembers._scale v
                            end ∧
   ArrayMembers._max v' = match max with
                          | Some j => getArrayValue E j
                          | None => ArrayMembers._max v
                          end ∧
   ArrayMembers._min v' = match min with
                          | Some j => getArrayValue E j
                          | None => ArrayMembers._min v
                          end).
Proof.
  destruct v as [st cnt rq vo vs vmax vmin vnd vdf].
  unfold ArrayPropertyView.resolveOffset, ArrayPropertyView.resolveScale,
    ArrayPropertyView.overrideMax, ArrayPropertyView.overrideMin.
  destruct st; run_array_body;
    try (repeat split; first [reflexivity | discriminate | congruence]).
  destruct (isFloatComponent (TypeToPropertyType_component E));
  (destruct offset as [o|]; simpl;
     [try destruct (ArrayMembers.validForCount (getArrayValue E o) cnt)|]);
    simpl;
    try (repeat split; first [reflexivity | discriminate | congruence]);
  (destruct scale as [s|]; simpl;
     [try destruct (ArrayMembers.validForCount (getArrayValue E s) cnt)
            eqn:Hs|]);
    simpl;
    try (repeat split; first [reflexivity | discriminate | congruence]);
  destruct vs; try destruct (getArrayValue E s); destruct max, min; simpl;
    repeat split; first [reflexivity | discriminate | congruence].
Qed.

(** What the override statements of the normalized array view keep and
    set. *)
Lemma normalized_array_override_statements (v : ArrayMembers.t)
    (offset scale max min : option JsonValue) :
  let v' :=
    exec (if_ (λ v, notValid (ArrayMembers._status v)) return_ ;;;
          NormalizedArrayPropertyView.resolveOffset N offset ;;;
          NormalizedArrayPropertyView.overrideScale N scale ;;;
          NormalizedArrayPropertyView.resolveMax N max ;;;
          NormalizedArrayPropertyView.resolveMin N min) v in
  (ArrayMembers._status v ≠ Valid → v' = v) ∧
  ArrayMembers._count v' = ArrayMembers._count v ∧
  ArrayMembers._required v' = ArrayMembers._required v ∧
  ArrayMembers._noData v' = ArrayMembers._noData v ∧
  ArrayMembers._defaultValue v' = ArrayMembers._defaultValue v ∧
  (ArrayMembers._status v' = Valid →
   ArrayMembers._offset v' = match offset with
                             | Some j => getArrayValue N j
                             | None => ArrayMembers._offset v
                             end ∧
   ArrayMembers._scale v' = match scale with
                            | Some j => getArrayValue N j
                            | None => ArrayMembers._scale v
                            end ∧
   ArrayMembers._max v' = match max with
                          | Some j => getArrayValue N j
                          | None => ArrayMembers._max v
                          end ∧
   ArrayMembers._min v' = match min with
                          | Some j => getArrayValue N j
                          | None => ArrayMembers._min v
                          end).
Proof.
  destruct v as [st cnt rq vo vs vmax vmin vnd vdf].
  unfold NormalizedArrayPropertyView.resolveOffset,
    NormalizedArrayPropertyView.overrideScale,
    NormalizedArrayPropertyView.resolveMax,
    NormalizedArrayPropertyView.resolveMin.
  destruct st; run_array_body;
    try (repeat split; first [reflexivity | discriminate | congruence]).
  (destruct offset as [o|]; simpl;
     [destruct (ArrayMembers.invalidForCount (getArrayValue N o) cnt)|]);
    simpl;
    try (repeat split; first [reflexivity | discriminate | congruence]);
  (destruct scale as [s|]; simpl;
     [destruct (getArrayValue N s) as [bytes|];
      [destruct (bool_decide (0 < cnt)
                 || bool_decide (size bytes ≠ to_size_t cnt))|]|]);
    simpl;
    try (repeat split; first [reflexivity | discriminate | congruence]);
  (destruct max as [m|]; simpl;
     [destruct (ArrayMembers.invalidForCount (getArrayValue N m) cnt)|]);
    simpl;
    try (repeat split; first [reflexivity | discriminate | congruence]);
  (destruct min as [m'|]; simpl;
     [destruct (ArrayMembers.invalidForCount (getArrayValue N m') cnt)|]);
    simpl;
    repeat split; first [reflexivity | discriminate | congruence].
Qed.

End ArrayOverrideStatements.

(** X11: an override never repairs a class property and never touches what
    it does not declare: on the four numeric views, from a table and from a
    texture, a view whose class property is not [Valid] is the view of the
    class property unchanged, and the required flag, the noData value, the
    default value (and the count of an array view) are those of the class
    property whatever the override declares. *)
Theorem override_keeps_class_members (E N : ElementType)
    (classProperty : ClassProperty.t)
    (table : PropertyTableProperty.t) (texture : PropertyTextureProperty.t) :
  let keeps {A B} (v' v : ScalarMembers A B) :=
    (_status v ≠ Valid → v' = v) ∧ _required v' = _required v ∧
    _noData v' = _noData v ∧ _defaultValue v' = _defaultValue v in
  let keepsArray (v' v : ArrayMembers.t) :=
    (ArrayMembers._status v ≠ Valid → v' = v) ∧
    ArrayMembers._count v' = ArrayMembers._count v ∧
    ArrayMembers._required v' = ArrayMembers._required v ∧
    ArrayMembers._noData v' = ArrayMembers._noData v ∧
    ArrayMembers._defaultValue v' = ArrayMembers._defaultValue v in
  keeps (PropertyView.ofPropertyTableProperty E classProperty table)
        (PropertyView.ofClassProperty E classProperty) ∧
  keeps (PropertyView.ofPropertyTextureProperty E classProperty texture)
        (PropertyView.ofClassProperty E classProperty) ∧
  keeps (NormalizedPropertyView.ofPropertyTableProperty E N classProperty table)
        (NormalizedPropertyView.ofClassProperty E N classProperty) ∧
  keeps (NormalizedPropertyView.ofPropertyTextureProperty E N classProperty
           texture)
        (NormalizedPropertyView.ofClassProperty E N classProperty) ∧
  keepsArray (ArrayPropertyView.ofPropertyTableProperty E classProperty table)
             (ArrayPropertyView.ofClassProperty E classProperty) ∧
  keepsArray
    (ArrayPropertyView.ofPropertyTextureProperty E classProperty texture)
    (ArrayPropertyView.ofClassProperty E classProperty) ∧
  keepsArray
    (NormalizedArrayPropertyView.ofPropertyTableProperty E N classProperty
       table)
    (NormalizedArrayPropertyView.ofClassProperty E N classProperty) ∧
  keepsArray
    (NormalizedArrayPropertyView.ofPropertyTextureProperty E N classProperty
       texture)
    (NormalizedArrayPropertyView.ofClassProperty E N classProperty).
Proof.
  cbv zeta.
  pose proof (plain_override_statements E
                (PropertyView.ofClassProperty E classProperty)) as Hplain.
  pose proof (normalized_override_statements E N
                (NormalizedPropertyView.ofClassProperty E N classProperty))
    as Hnormalized.
  pose proof (plain_array_override_statements E
                (ArrayPropertyView.ofClassProperty E classProperty))
    as Harray.
  pose proof (normalized_array_override_statements N
                (NormalizedArrayPropertyView.ofClassProperty E N classProperty))
    as HnormalizedArray.
  cbv zeta in *.
  split; [|split; [|split; [|split; [|split; [|split; [|split]]]]]].
  - destruct (Hplain (PropertyTableProperty.offset table)
                (PropertyTableProperty.scale table)
                (PropertyTableProperty.max table)
                (PropertyTableProperty.min table)) as (? & ? & ? & ? & _).
    auto.
  - destruct (Hplain (PropertyTextureProperty.offset texture)
                (PropertyTextureProperty.scale texture)
                (PropertyTextureProperty.max texture)
                (PropertyTextureProperty.min texture)) as (? & ? & ? & ? & _).
    auto.
  - destruct (Hnormalized (PropertyTableProperty.offset table)
                (PropertyTableProperty.scale table)
                (PropertyTableProperty.max table)
                (PropertyTableProperty.min table)) as (? & ? & ? & ? & _).
    auto.
  - destruct (Hnormalized (PropertyTextureProperty.offset texture)
                (PropertyTextureProperty.scale texture)
                (PropertyTextureProperty.max texture)
                (PropertyTextureProperty.min texture)) as (? & ? & ? & ? & _).
    auto.
  - destruct (Harray (PropertyTableProperty.offset table)
                (PropertyTableProperty.scale table)
                (PropertyTableProperty.max table)
                (PropertyTableProperty.min table))
      as (? & ? & ? & ? & ? & _).
    auto.
  - destruct (Harray (PropertyTextureProperty.offset texture)
                (PropertyTextureProperty.scale texture)
                (PropertyTextureProperty.max texture)
                (PropertyTextureProperty.min texture))
      as (? & ? & ? & ? & ? & _).
    auto.
  - destruct (HnormalizedArray (PropertyTableProperty.offset table)
                (PropertyTableProperty.scale table)
                (PropertyTableProperty.max table)
                (PropertyTableProperty.min table))
      as (? & ? & ? & ? & ? & _).
    auto.
  - destruct (HnormalizedArray (PropertyTextureProperty.offset texture)
                (PropertyTextureProperty.scale texture)
                (PropertyTextureProperty.max texture)
                (PropertyTextureProperty.min texture))
      as (? & ? & ? & ? & ? & _).
    auto.
Qed.

(** X12: in a scalar view built with an override that is [Valid], each of
    offset, scale, max and min is the value parsed from the override when the
    override declares it, and the value of the class property otherwise; this
    holds for the plain view and for the normalized view, from a table and
    from a texture. *)
Theorem scalar_override_supersedes_field_by_field (P E N : ElementType)
    (plainProperty normalizedProperty : ClassProperty.t)
    (table : PropertyTableProperty.t) (texture : PropertyTextureProperty.t) :
  let resolved {A B} (parse : JsonValue → option A)
      (offset scale max min : option JsonValue) (v' v : ScalarMembers A B) :=
    _offset v' = match offset with Some j => parse j | None => _offset v end ∧
    _scale v' = match scale with Some j => parse j | None => _scale v end ∧
    _max v' = match max with Some j => parse j | None => _max v end ∧
    _min v' = match min with Some j => parse j | None => _min v end in
  PropertyView.status P
    (PropertyView.ofPropertyTableProperty P plainProperty table) = Valid →
  PropertyView.status P
    (PropertyView.ofPropertyTextureProperty P plainProperty texture) = Valid →
  NormalizedPropertyView.status E N
    (NormalizedPropertyView.ofPropertyTableProperty E N normalizedProperty
       table) = Valid →
  NormalizedPropertyView.status E N
    (NormalizedPropertyView.ofPropertyTextureProperty E N normalizedProperty
       texture) = Valid →
  resolved (getValue P)
    (PropertyTableProperty.offset table) (PropertyTableProperty.scale table)
    (PropertyTableProperty.max table) (PropertyTableProperty.min table)
    (PropertyView.ofPropertyTableProperty P plainProperty table)
    (PropertyView.ofClassProperty P plainProperty) ∧
  resolved (getValue P)
    (PropertyTextureProperty.offset texture)
    (PropertyTextureProperty.scale texture)
    (PropertyTextureProperty.max texture)
    (PropertyTextureProperty.min texture)
    (PropertyView.ofPropertyTextureProperty P plainProperty texture)
    (PropertyView.ofClassProperty P plainProperty) ∧
  resolved (getValue N)
    (PropertyTableProperty.offset table) (PropertyTableProperty.scale table)
    (PropertyTableProperty.max table) (PropertyTableProperty.min table)
    (NormalizedPropertyView.ofPropertyTableProperty E N normalizedProperty
       table)
    (NormalizedPropertyView.ofClassProperty E N normalizedProperty) ∧
  resolved (getValue N)
    (PropertyTextureProperty.offset texture)
    (PropertyTextureProperty.scale texture)
    (PropertyTextureProperty.max texture)
    (PropertyTextureProperty.min texture)
    (NormalizedPropertyView.ofPropertyTextureProperty E N normalizedProperty
       texture)
    (NormalizedPropertyView.ofClassProperty E N normalizedProperty).
Proof.
  cbv zeta. intros Htable Htexture HnormalizedTable HnormalizedTexture.
  split; [|split; [|split]].
  - exact (proj2 (proj2 (proj2 (proj2
      (plain_override_statements P _ _ _ _ _)))) Htable).
  - exact (proj2 (proj2 (proj2 (proj2
      (plain_override_statements P _ _ _ _ _)))) Htexture).
  - exact (proj2 (proj2 (proj2 (proj2
      (normalized_override_statements E N _ _ _ _ _)))) HnormalizedTable).
  - exact (proj2 (proj2 (proj2 (proj2
      (normalized_override_statements E N _ _ _ _ _)))) HnormalizedTexture).
Qed.

(** A FLOAT64 property and a normalized UINT8 property, both of offset 10 and
    scale 10, under overrides that declare the offset 20 only: the views are
    valid, their offset is 20 and their scale is still 10. *)
Lemma scalar_override_supersedes_field_by_field_witness :
  let plainProperty :=
    scalarProperty "FLOAT64" false (Some (JNumber 10)) (Some (JNumber 10))
      None None in
  let normalizedProperty :=
    scalarProperty "UINT8" true (Some (JNumber 10)) (Some (JNumber 10))
      None None in
  let plainTable :=
    PropertyView.ofPropertyTableProperty (scalarElement double)
      plainProperty tableOffset20 in
  let plainTexture :=
    PropertyView.ofPropertyTextureProperty (scalarElement double)
      plainProperty textureOffset20 in
  let normalizedTable :=
    NormalizedPropertyView.ofPropertyTableProperty (scalarElement uint8_t)
      (scalarElement double) normalizedProperty tableOffset20 in
  let normalizedTexture :=
    NormalizedPropertyView.ofPropertyTextureProperty (scalarElement uint8_t)
      (scalarElement double) normalizedProperty textureOffset20 in
  (_status plainTable = Valid ∧ _status plainTexture = Valid ∧
   _status normalizedTable = Valid ∧ _status normalizedTexture = Valid) ∧
  (_offset plainTable = Some (scalar twenty) ∧
   _scale plainTable = Some (scalar ten)) ∧
  (_offset plainTexture = Some (scalar twenty) ∧
   _scale plainTexture = Some (scalar ten)) ∧
  (_offset normalizedTable = Some (scalar twenty) ∧
   _scale normalizedTable = Some (scalar ten)) ∧
  (_offset normalizedTexture = Some (scalar twenty) ∧
   _scale normalizedTexture = Some (scalar ten)).
Proof.
  cbv zeta.
  assert (∀ A B, A → (A → B) → A ∧ B) as both by (intros; split; auto).
  apply both; [vm_compute; repeat split; reflexivity |].
  intros (Htable & Htexture & HnormalizedTable & HnormalizedTexture).
  destruct (scalar_override_supersedes_field_by_field
              (scalarElement double) (scalarElement uint8_t)
              (scalarElement double) _ _ tableOffset20 textureOffset20
              Htable Htexture HnormalizedTable HnormalizedTexture)
    as ((? & ? & _) & (? & ? & _) & (? & ? & _) & (? & ? & _)).
  split; [|split; [|split]]; (split; [etransitivity; [eassumption | vm_compute; reflexivity] | etransitivity; [eassumption | vm_compute; reflexivity]]).
Defined.

(** X13: in an array view built with an override that is [Valid], each of
    offset, scale, max and min is the buffer parsed from the override when
    the override declares it, and the buffer of the class property otherwise;
    this holds separately for each of the plain and the normalized array
    view, built from a table and from a texture. *)
Theorem array_override_supersedes_field_by_field (P E N : ElementType)
    (plainProperty normalizedProperty : ClassProperty.t)
    (table : PropertyTableProperty.t) (texture : PropertyTextureProperty.t) :
  let resolved (parse : JsonValue → option (list Z))
      (offset scale max min : option JsonValue) (v' v : ArrayMembers.t) :=
    ArrayMembers._offset v' = match offset with
                              | Some j => parse j
                              | None => ArrayMembers._offset v
                              end ∧
    ArrayMembers._scale v' = match scale with
                             | Some j => parse j
                             | None => ArrayMembers._scale v
                             end ∧
    ArrayMembers._max v' = match max with
                           | Some j => parse j
                           | None => ArrayMembers._max v
                           end ∧
    ArrayMembers._min v' = match min with
                           | Some j => parse j
                           | None => ArrayMembers._min v
                           end in
  (ArrayPropertyView.status
     (ArrayPropertyView.ofPropertyTableProperty P plainProperty table)
   = Valid →
   resolved (getArrayValue P)
     (PropertyTableProperty.offset table) (PropertyTableProperty.scale table)
     (PropertyTableProperty.max table) (PropertyTableProperty.min table)
     (ArrayPropertyView.ofPropertyTableProperty P plainProperty table)
     (ArrayPropertyView.ofClassProperty P plainProperty)) ∧
  (ArrayPropertyView.status
     (ArrayPropertyView.ofPropertyTextureProperty P plainProperty texture)
   = Valid →
   resolved (getArrayValue P)
     (PropertyTextureProperty.offset texture)
     (PropertyTextureProperty.scale texture)
     (PropertyTextureProperty.max texture)
     (PropertyTextureProperty.min texture)
     (ArrayPropertyView.ofPropertyTextureProperty P plainProperty texture)
     (ArrayPropertyView.ofClassProperty P plainProperty)) ∧
  (NormalizedArrayPropertyView.status
     (NormalizedArrayPropertyView.ofPropertyTableProperty E N
        normalizedProperty table) = Valid →
   resolved (getArrayValue N)
     (PropertyTableProperty.offset table) (PropertyTableProperty.scale table)
     (PropertyTableProperty.max table) (PropertyTableProperty.min table)
     (NormalizedArrayPropertyView.ofPropertyTableProperty E N
        normalizedProperty table)
     (NormalizedArrayPropertyView.ofClassProperty E N normalizedProperty)) ∧
  (NormalizedArrayPropertyView.status
     (NormalizedArrayPropertyView.ofPropertyTextureProperty E N
        normalizedProperty texture) = Valid →
   resolved (getArrayValue N)
     (PropertyTextureProperty.offset texture)
     (PropertyTextureProperty.scale texture)
     (PropertyTextureProperty.max texture)
     (PropertyTextureProperty.min texture)
     (NormalizedArrayPropertyView.ofPropertyTextureProperty E N
        normalizedProperty texture)
     (NormalizedArrayPropertyView.ofClassProperty E N normalizedProperty)).
Proof.
  cbv zeta. split; [|split; [|split]].
  - exact (proj2 (proj2 (proj2 (proj2 (proj2
      (plain_array_override_statements P _ _ _ _ _)))))).
  - exact (proj2 (proj2 (proj2 (proj2 (proj2
      (plain_array_override_statements P _ _ _ _ _)))))).
  - exact (proj2 (proj2 (proj2 (proj2 (proj2
      (normalized_array_override_statements N _ _ _ _ _)))))).
  - exact (proj2 (proj2 (proj2 (proj2 (proj2
      (normalized_array_override_statements N _ _ _ _ _)))))).
Qed.

(** Variable-length FLOAT64 and normalized UINT8 arrays of class offset [10]
    under overrides that declare the offset [20]: the views are valid and
    their offset is the eight bytes of 20.0. *)
Lemma array_override_supersedes_field_by_field_witness :
  let plainProperty :=
    arrayProperty "FLOAT64" None false (Some (JArray [JNumber 10]))
      None None None None in
  let normalizedProperty :=
    arrayProperty "UINT8" None true (Some (JArray [JNumber 10]))
      None None None None in
  let table :=
    {| PropertyTableProperty.offset := Some (JArray [JNumber 20]);
       PropertyTableProperty.scale := None;
       PropertyTableProperty.max := None;
       PropertyTableProperty.min := None |} in
  let texture :=
    {| PropertyTextureProperty.offset := Some (JArray [JNumber 20]);
       PropertyTextureProperty.scale := None;
       PropertyTextureProperty.max := None;
       PropertyTextureProperty.min := None |} in
  let plainTable :=
    ArrayPropertyView.ofPropertyTableProperty (scalarElement double)
      plainProperty table in
  let plainTexture :=
    ArrayPropertyView.ofPropertyTextureProperty (scalarElement double)
      plainProperty texture in
  let normalizedTable :=
    NormalizedArrayPropertyView.ofPropertyTableProperty
      (scalarElement uint8_t) (scalarElement double) normalizedProperty
      table in
  let normalizedTexture :=
    NormalizedArrayPropertyView.ofPropertyTextureProperty
      (scalarElement uint8_t) (scalarElement double) normalizedProperty
      texture in
  (ArrayMembers._status plainTable = Valid ∧
   ArrayMembers._status plainTexture = Valid ∧
   ArrayMembers._status normalizedTable = Valid ∧
   ArrayMembers._status normalizedTexture = Valid) ∧
  ArrayMembers._offset plainTable = Some (littleEndian 8 twenty) ∧
  ArrayMembers._offset plainTexture = Some (littleEndian 8 twenty) ∧
  ArrayMembers._offset normalizedTable = Some (littleEndian 8 twenty) ∧
  ArrayMembers._offset normalizedTexture = Some (littleEndian 8 twenty).
Proof.
  cbv zeta.
  assert (∀ A B, A → (A → B) → A ∧ B) as both by (intros; split; auto).
  apply both; [vm_compute; repeat split; reflexivity |].
  intros (Htable & Htexture & HnormalizedTable & HnormalizedTexture).
  destruct (array_override_supersedes_field_by_field
              (scalarElement double) (scalarElement uint8_t)
              (scalarElement double)
              (arrayProperty "FLOAT64" None false
                 (Some (JArray [JNumber 10])) None None None None)
              (arrayProperty "UINT8" None true
                 (Some (JArray [JNumber 10])) None None None None)
              {| PropertyTableProperty.offset := Some (JArray [JNumber 20]);
                 PropertyTableProperty.scale := None;
                 PropertyTableProperty.max := None;
                 PropertyTableProperty.min := None |}
              {| PropertyTextureProperty.offset :=
                   Some (JArray [JNumber 20]);
                 PropertyTextureProperty.scale := None;
                 PropertyTextureProperty.max := None;
                 PropertyTextureProperty.min := None |})
    as (Hplain & HplainTexture & Hnormalized & HnormalizedTexture').
  destruct (Hplain Htable) as (? & _).
  destruct (HplainTexture Htexture) as (? & _).
  destruct (Hnormalized HnormalizedTable) as (? & _).
  destruct (HnormalizedTexture' HnormalizedTexture) as (? & _).
  split; [|split; [|split]];
    (etransitivity; [eassumption | vm_compute; reflexivity]).
Defined.

(** ** The boolean view and the string view *)

(** X14: the boolean view is [Valid] exactly when the class property is a
    non-array BOOLEAN whose component type is absent or converts to [None]
    and its default, if declared, is a JSON boolean of a property that is
    not required; a valid view
    exposes that boolean as [defaultValue()], an invalid view exposes none,
    and a property table or texture override changes nothing. *)
Theorem boolean_view_valid_iff (classProperty : ClassProperty.t)
    (table : PropertyTableProperty.t) (texture : PropertyTextureProperty.t) :
  let view := BooleanPropertyView.ofClassProperty classProperty in
  (BooleanPropertyView.status view = Valid ↔
   validatePropertyTypeFor Boolean None_ classProperty = Valid ∧
   ∀ j, ClassProperty.defaultProperty classProperty = Some j →
        ClassProperty.required classProperty = false ∧ isBool j = true) ∧
  (BooleanPropertyView.status view = Valid →
   BooleanPropertyView.defaultValue view
   = getBool <$> ClassProperty.defaultProperty classProperty) ∧
  (BooleanPropertyView.status view ≠ Valid →
   BooleanPropertyView.defaultValue view = None) ∧
  BooleanPropertyView.ofPropertyTableProperty classProperty table = view ∧
  BooleanPropertyView.ofPropertyTextureProperty classProperty texture = view.
Proof.
  cbv zeta.
  unfold BooleanPropertyView.ofPropertyTableProperty,
    BooleanPropertyView.ofPropertyTextureProperty,
    BooleanPropertyView.status, BooleanPropertyView.defaultValue,
    BooleanPropertyView.ofClassProperty,
    BooleanPropertyView.getBooleanValue.
  destruct (validatePropertyTypeFor Boolean None_ classProperty) eqn:Hvalidate;
    run_body;
    try (split; [split; [discriminate | intros [? _]; discriminate] |];
         split; [discriminate |]; repeat split; reflexivity).
  destruct (ClassProperty.defaultProperty classProperty) as [j|]; simpl.
  - destruct (ClassProperty.required classProperty); simpl.
    + split; [split; [discriminate |] |].
      * intros [_ H]. destruct (H j eq_refl). discriminate.
      * split; [discriminate |]. repeat split; reflexivity.
    + destruct (isBool j) eqn:Hbool; simpl.
      * split; [split; [| reflexivity] |].
        -- intros _. split; [reflexivity |]. intros ? [= <-]. auto.
        -- split; [reflexivity |]. split; [congruence |].
           split; reflexivity.
      * split; [split; [discriminate |] |].
        -- intros [_ H]. destruct (H j eq_refl). congruence.
        -- split; [discriminate |]. repeat split; reflexivity.
  - split; [split; [| reflexivity] |].
    + intros _. split; [reflexivity | discriminate].
    + split; [reflexivity |]. split; [congruence |]. split; reflexivity.
Qed.

(** [c_str] keeps a string that holds no NUL. *)
Lemma c_str_without_NUL (s : string) :
  Ascii.zero ∉ String.list_ascii_of_string s → c_str s = s.
Proof.
  induction s as [|a s IH]; simpl; [reflexivity |].
  intros Hnot. destruct (Ascii.eqb_spec a Ascii.zero) as [->|_].
  - exfalso. apply Hnot. left.
  - f_equal. apply IH. intros Hin. apply Hnot. right. exact Hin.
Qed.

(** [c_str] cuts a string at its first NUL. *)
Lemma c_str_cuts_at_NUL (before after : string) :
  Ascii.zero ∉ String.list_ascii_of_string before →
  c_str (before +:+ String.String Ascii.zero after) = before.
Proof.
  induction before as [|a s IH]; simpl; [reflexivity |].
  intros Hnot. destruct (Ascii.eqb_spec a Ascii.zero) as [->|_].
  - exfalso. apply Hnot. left.
  - f_equal. apply IH. intros Hin. apply Hnot. right. exact Hin.
Qed.

(** X15: the string view is [Valid] exactly when the class property is a
    non-array STRING whose component type is absent or converts to [None]
    and its noData and default values, where declared, are JSON strings of
    a property that is not required; a valid view exposes them through
    [noData()] and
    [defaultValue()], each cut at its first NUL, and a property table or
    texture override changes nothing. *)
Theorem string_view_valid_iff (classProperty : ClassProperty.t)
    (table : PropertyTableProperty.t) (texture : PropertyTextureProperty.t) :
  let view := StringPropertyView.ofClassProperty classProperty in
  let accepted (raw : option JsonValue) :=
    ∀ j, raw = Some j →
         ClassProperty.required classProperty = false ∧ isString j = true in
  (StringPropertyView.status view = Valid ↔
   validatePropertyTypeFor String None_ classProperty = Valid ∧
   accepted (ClassProperty.noData classProperty) ∧
   accepted (ClassProperty.defaultProperty classProperty)) ∧
  (StringPropertyView.status view = Valid →
   StringPropertyView.noData view
   = (λ j, c_str (getString j)) <$> ClassProperty.noData classProperty ∧
   StringPropertyView.defaultValue view
   = (λ j, c_str (getString j)) <$>
       ClassProperty.defaultProperty classProperty) ∧
  StringPropertyView.ofPropertyTableProperty classProperty table = view ∧
  StringPropertyView.ofPropertyTextureProperty classProperty texture = view.
Proof.
  cbv zeta.
  unfold StringPropertyView.ofPropertyTableProperty,
    StringPropertyView.ofPropertyTextureProperty,
    StringPropertyView.status, StringPropertyView.defaultValue,
    StringPropertyView.noData,
    StringPropertyView.ofClassProperty,
    StringPropertyView.getStringValue.
  destruct (validatePropertyTypeFor String None_ classProperty) eqn:Hvalidate;
    run_body;
    try (split; [split; [discriminate | intros [? _]; discriminate] |];
         split; [discriminate |]; split; reflexivity).
  destruct (ClassProperty.noData classProperty) as [n|]; simpl.
  - destruct (ClassProperty.required classProperty) eqn:Hrequired; simpl.
    { split; [split; [discriminate |] |].
      - intros (_ & H & _). destruct (H n eq_refl). discriminate.
      - split; [discriminate |]. split; reflexivity. }
    destruct (isString n) eqn:Hn; simpl.
    2: { split; [split; [discriminate |] |].
         - intros (_ & H & _). destruct (H n eq_refl). congruence.
         - split; [discriminate |]. split; reflexivity. }
    destruct (ClassProperty.defaultProperty classProperty) as [d|]; simpl.
    + rewrite ?Hrequired. simpl.
      destruct (isString d) eqn:Hd; simpl.
      * split; [split; [| reflexivity] |].
        -- intros _. split; [reflexivity |].
           split; intros ? [= <-]; auto.
        -- split; [split; reflexivity |]. split; reflexivity.
      * split; [split; [discriminate |] |].
        -- intros (_ & _ & H). destruct (H d eq_refl). congruence.
        -- split; [discriminate |]. split; reflexivity.
    + split; [split; [| reflexivity] |].
      * intros _. split; [reflexivity |].
        split; [intros ? [= <-]; auto | discriminate].
      * split; [split; reflexivity |]. split; reflexivity.
  - destruct (ClassProperty.defaultProperty classProperty) as [d|]; simpl.
    + destruct (ClassProperty.required classProperty) eqn:Hrequired; simpl.
      { split; [split; [discriminate |] |].
        - intros (_ & _ & H). destruct (H d eq_refl). discriminate.
        - split; [discriminate |]. split; reflexivity. }
      destruct (isString d) eqn:Hd; simpl.
      * split; [split; [| reflexivity] |].
        -- intros _. split; [reflexivity |].
           split; [discriminate | intros ? [= <-]; auto].
        -- split; [split; reflexivity |]. split; reflexivity.
      * split; [split; [discriminate |] |].
        -- intros (_ & _ & H). destruct (H d eq_refl). congruence.
        -- split; [discriminate |]. split; reflexivity.
    + split; [split; [| reflexivity] |].
      * intros _. split; [reflexivity |]. split; discriminate.
      * split; [split; reflexivity |]. split; reflexivity.
Qed.

(** X16: the default string of a valid string view is stored up to its
    first NUL: a string without NUL is stored whole, and of a string with a
    NUL what follows the first NUL is lost. *)
Theorem string_view_default_is_cut_at_NUL (classProperty : ClassProperty.t)
    (s before after : string) :
  Ascii.zero ∉ String.list_ascii_of_string before →
  s = before ∨ s = before +:+ String.String Ascii.zero after →
  validatePropertyTypeFor String None_ classProperty = Valid →
  ClassProperty.required classProperty = false →
  ClassProperty.noData classProperty = None →
  ClassProperty.defaultProperty classProperty = Some (JString s) →
  StringPropertyView.status (StringPropertyView.ofClassProperty classProperty)
  = Valid ∧
  StringPropertyView.defaultValue
    (StringPropertyView.ofClassProperty classProperty) = Some before.
Proof.
  intros Hnot Hs Hvalidate Hrequired HnoData Hdefault.
  unfold StringPropertyView.status, StringPropertyView.defaultValue,
    StringPropertyView.ofClassProperty, StringPropertyView.getStringValue.
  rewrite Hvalidate, HnoData, Hdefault, Hrequired. run_body.
  split; [reflexivity |]. f_equal.
  destruct Hs as [-> | ->].
  - apply c_str_without_NUL. exact Hnot.
  - apply c_str_cuts_at_NUL. exact Hnot.
Qed.

(** The default [ab\0cd] of a STRING property is exposed as [ab]. *)
Lemma string_view_default_is_cut_at_NUL_witness :
  let classProperty :=
    {| ClassProperty.type := "STRING";
       ClassProperty.componentType := None;
       ClassProperty.array := false;
       ClassProperty.count := None;
       ClassProperty.normalized := false;
       ClassProperty.offset := None;
       ClassProperty.scale := None;
       ClassProperty.max := None;
       ClassProperty.min := None;
       ClassProperty.required := false;
       ClassProperty.noData := None;
       ClassProperty.defaultProperty :=
         Some (JString ("ab" +:+ String.String Ascii.zero "cd")) |} in
  StringPropertyView.status (StringPropertyView.ofClassProperty classProperty)
  = Valid ∧
  StringPropertyView.defaultValue
    (StringPropertyView.ofClassProperty classProperty) = Some "ab"%string.
Proof.
  cbv zeta.
  apply (string_view_default_is_cut_at_NUL _
           ("ab" +:+ String.String Ascii.zero "cd") "ab" "cd").
  - intros Hin. repeat (apply elem_of_cons in Hin as [[=] | Hin]).
    inversion Hin.
  - right. reflexivity.
  - vm_compute. reflexivity.
  - reflexivity.
  - reflexivity.
  - reflexivity.
Defined.

(** ** The boolean array codec *)

Section BooleanArrayCodec.
Import BooleanArrayPropertyView.

Lemma lor_byte (a b : Z) : 0 ≤ a < 256 → 0 ≤ b < 256 → 0 ≤ Z.lor a b < 256.
Proof.
  intros Ha Hb. split; [apply Z.lor_nonneg; lia |].
  destruct (Z.eq_dec (Z.lor a b) 0) as [-> | Hne]; [lia |].
  assert (0 ≤ Z.lor a b) as Hnonneg by (apply Z.lor_nonneg; lia).
  change 256 with (2 ^ 8). apply Z.log2_lt_pow2; [lia |].
  rewrite Z.log2_lor by lia.
  destruct (Z.eq_dec a 0) as [-> | Ha0], (Z.eq_dec b 0) as [-> | Hb0];
    simpl; try lia.
  - rewrite Z.max_r by apply Z.log2_nonneg.
    apply Z.log2_lt_pow2; lia.
  - rewrite Z.max_l by apply Z.log2_nonneg.
    apply Z.log2_lt_pow2; lia.
  - apply Z.max_lub_lt; apply Z.log2_lt_pow2; lia.
Qed.

Lemma bit_byte (b : bool) (r : nat) :
  (r < 8)%nat →
  Z.shiftl (if b then 1 else 0) (Z.of_nat r) `mod` 256
  = Z.shiftl (if b then 1 else 0) (Z.of_nat r) ∧
  0 ≤ Z.shiftl (if b then 1 else 0) (Z.of_nat r) < 256 ∧
  ∀ j : nat, Z.testbit (Z.shiftl (if b then 1 else 0) (Z.of_nat r))
               (Z.of_nat j) = b && bool_decide (j = r).
Proof.
  intros Hr.
  assert (0 ≤ Z.shiftl (if b then 1 else 0) (Z.of_nat r) < 256) as Hrange.
  { do 8 (destruct r as [|r]; [destruct b; vm_compute; split; easy |]). lia. }
  split; [apply Z.mod_small; exact Hrange |].
  split; [exact Hrange |].
  intros j. destruct b; simpl.
  - rewrite Z.shiftl_1_l, Z.pow2_bits_eqb by lia.
    case_bool_decide as Hj.
    + subst. apply Z.eqb_refl.
    + apply Z.eqb_neq. lia.
  - rewrite Z.shiftl_0_l. apply Z.bits_0.
Qed.

(** One iteration on the 64 first booleans. *)
Lemma iteration_visited (size0 : Z) (bs : list bool) (b : bool) (l : Locals) :
  (length bs < 64)%nat → visited size0 bs l →
  ∃ l', iteration b l = Done l' ∧ visited size0 (bs ++ [b]) l'.
Proof.
  intros Hlength (q & r & Hqr & Hr & HbyteIndex & HbitIndex & Hsize & Hvalues
                  & Hpacks).
  destruct (bit_byte b r Hr) as (Hmod & Hrange & Hbits).
  unfold iteration. rewrite HbyteIndex, HbitIndex, Hmod, Nat2Z.id.
  set (values1 := if bool_decide (_ < _) then _ else _).
  assert (length values1 = Nat.min (S (length bs)) 8 ∧ packs bs values1)
    as [Hvalues1 Hpacks1].
  { subst values1. unfold size. destruct q as [|q].
    - change ((Z.of_nat 0 - 1) `mod` 2 ^ 64) with 18446744073709551615.
      rewrite bool_decide_eq_true_2 by lia.
      split; [rewrite length_app; simpl; lia |].
      intros k byte Hk. apply lookup_app_Some in Hk as [Hk | [Hk Hlast]].
      + apply Hpacks. exact Hk.
      + apply list_lookup_singleton_Some in Hlast as [Hlast <-].
        split; [lia |]. intros j Hj. rewrite Z.bits_0.
        rewrite lookup_ge_None_2; [reflexivity | lia].
    - rewrite bool_decide_eq_false_2; [split; [lia | exact Hpacks] |].
      rewrite Z.mod_small by lia. lia. }
  clearbody values1.
  assert (q < length values1)%nat as Hq by lia.
  apply lookup_lt_is_Some_2 in Hq as [old Hold].
  rewrite Hold.
  destruct (Hpacks1 q old Hold) as [HoldRange HoldBits].
  eexists. split; [reflexivity |].
  assert (packs (bs ++ [b])
            (<[q := Z.lor old (Z.shiftl (if b then 1 else 0) (Z.of_nat r))]>
               values1)) as Hpacks2.
  { intros k byte Hk. destruct (decide (k = q)) as [-> | Hkq].
    - rewrite list_lookup_insert_eq in Hk
        by (apply lookup_lt_is_Some; eauto).
      injection Hk as <-. split; [apply lor_byte; assumption |].
      intros j Hj. rewrite Z.lor_spec, Hbits, HoldBits by exact Hj.
      case_bool_decide as Hjr.
      + subst j. rewrite (lookup_ge_None_2 bs) by lia.
        rewrite <- Hqr, lookup_app_r, Nat.sub_diag by lia.
        simpl. destruct b; reflexivity.
      + rewrite andb_false_r, orb_false_r.
        destruct (decide (8 * q + j < length bs)%nat) as [Hlt | Hge].
        * rewrite lookup_app_l by exact Hlt. reflexivity.
        * rewrite (lookup_ge_None_2 bs) by lia.
          rewrite lookup_ge_None_2; [reflexivity |].
          rewrite length_app. simpl. lia.
    - rewrite list_lookup_insert_ne in Hk by congruence.
      destruct (Hpacks1 k byte Hk) as [Hbyte HbyteBits].
      split; [exact Hbyte |]. intros j Hj. rewrite HbyteBits by exact Hj.
      destruct (decide (8 * k + j < length bs)%nat) as [Hlt | Hge].
      + rewrite lookup_app_l by exact Hlt. reflexivity.
      + rewrite (lookup_ge_None_2 bs) by lia.
        rewrite lookup_ge_None_2; [reflexivity |].
        rewrite length_app. simpl. lia. }
  assert (size (bs ++ [b]) = size bs + 1) as Hsize'
    by (unfold size; rewrite length_app; simpl; lia).
  rewrite (Z.mod_small (Z.of_nat r + 1)) by lia.
  case_bool_decide as Hlast.
  - exists (S q), 0%nat. simpl.
    rewrite length_app, length_insert, Hsize', Hsize. simpl.
    rewrite Z.mod_small by lia.
    split_and!; try lia. exact Hpacks2.
  - exists q, (S r). simpl.
    rewrite length_app, length_insert, Hsize', Hsize. simpl.
    split_and!; try lia. exact Hpacks2.
Qed.

(** The loop over at most 64 booleans followed by other elements. *)
Lemma loop_visited (size0 : Z) (booleans : list bool) :
  ∀ (bs : list bool) (l : Locals),
    (length bs + length booleans ≤ 64)%nat → visited size0 bs l →
    ∃ l', (∀ rest, loop ((JBool <$> booleans) ++ rest) l = loop rest l') ∧
          visited size0 (bs ++ booleans) l'.
Proof.
  induction booleans as [|b booleans IH]; intros bs l Hlength Hvisited.
  - exists l. rewrite app_nil_r. split; [reflexivity | exact Hvisited].
  - simpl in Hlength.
    destruct (iteration_visited size0 bs b l) as (l1 & Hiteration & Hvisited1);
      [lia | exact Hvisited |].
    destruct (IH (bs ++ [b]) l1) as (l' & Hloop & Hvisited');
      [rewrite length_app; simpl; lia | exact Hvisited1 |].
    exists l'. rewrite <- app_assoc in Hvisited'. split; [| exact Hvisited'].
    intros rest. csimpl. rewrite Hiteration. apply Hloop.
Qed.

Lemma visited_initial (size0 : Z) :
  visited size0 []
    {| values := []; byteIndex := 0; bitIndex := 0; size_ := size0 |}.
Proof.
  exists 0%nat, 0%nat. simpl. unfold size. simpl.
  split_and!; try lia. intros ? ? [=].
Qed.

Lemma packs_bitAt (bs : list bool) (buffer : list Z) (i : nat) :
  packs bs buffer → length buffer = Nat.min (length bs) 8 →
  (length bs ≤ 64)%nat →
  bitAt buffer i = default false (bs !! i).
Proof.
  intros Hpacks Hlength Hbs. unfold bitAt.
  pose proof (Nat.div_mod_eq i 8) as Hi.
  pose proof (Nat.mod_upper_bound i 8 ltac:(lia)) as Hmod.
  destruct (buffer !! (i / 8)%nat) as [byte|] eqn:Hbyte.
  - destruct (Hpacks _ _ Hbyte) as [_ Hbits].
    rewrite Hbits by exact Hmod. rewrite <- Hi. reflexivity.
  - apply lookup_ge_None_1 in Hbyte.
    rewrite lookup_ge_None_2; [reflexivity |]. lia.
Qed.

(** The locals at the end of at most 64 booleans: what is returned for
    them, and for the same booleans followed by an element that is not a
    boolean. *)
Lemma getBooleanArrayValue_visited (booleans : list bool) (size0 : Z) :
  (length booleans ≤ 64)%nat →
  ∃ l : Locals,
    visited size0 booleans l ∧
    getBooleanArrayValue (JArray (JBool <$> booleans)) size0
    = Done (values l, size_ l) ∧
    ∀ (element : JsonValue) (rest : list JsonValue),
      isBool element = false →
      getBooleanArrayValue
        (JArray ((JBool <$> booleans) ++ element :: rest)) size0
      = Done (values l, 0).
Proof.
  intros Hlength.
  destruct (loop_visited size0 booleans [] _ Hlength (visited_initial size0))
    as (l & Hloop & Hvisited).
  exists l. split; [exact Hvisited |]. unfold getBooleanArrayValue. simpl.
  split.
  - pose proof (Hloop []) as Hall. rewrite app_nil_r in Hall.
    rewrite Hall. reflexivity.
  - intros element rest Helement. rewrite Hloop. simpl.
    rewrite Helement. reflexivity.
Qed.

(** X17: up to 64 booleans are packed one bit each, element [i] in bit
    [i mod 8] of byte [i / 8]; every other bit is zero, the buffer has one
    byte per element up to eight bytes, and the size grows by the number of
    elements. *)
Theorem boolean_array_packing (booleans : list bool) (size0 : Z) :
  (length booleans ≤ 64)%nat →
  ∃ buffer : list Z,
    getBooleanArrayValue (JArray (JBool <$> booleans)) size0
    = Done (buffer, size0 + size booleans) ∧
    length buffer = Nat.min (length booleans) 8 ∧
    Forall (λ byte, 0 ≤ byte < 256) buffer ∧
    ∀ i : nat, bitAt buffer i = default false (booleans !! i).
Proof.
  intros Hlength.
  destruct (getBooleanArrayValue_visited booleans size0 Hlength)
    as (l & (q & r & _ & _ & _ & _ & Hsize & Hvalues & Hpacks) & Hcodec & _).
  exists (values l). rewrite Hcodec, Hsize.
  split_and!; [reflexivity | exact Hvalues | |].
  - apply Forall_lookup. intros k byte Hk. apply (Hpacks k byte Hk).
  - intros i. apply packs_bitAt; assumption.
Qed.

(** [[true, false, true]] is packed into the bits 1, 0, 1 of the first of
    three bytes. *)
Lemma boolean_array_packing_witness :
  ∃ buffer : list Z,
    getBooleanArrayValue (JArray [JBool true; JBool false; JBool true]) 0
    = Done (buffer, 3) ∧
    length buffer = 3%nat ∧
    Forall (λ byte, 0 ≤ byte < 256) buffer ∧
    ∀ i : nat, bitAt buffer i = default false ([true; false; true] !! i).
Proof.
  apply (boolean_array_packing [true; false; true] 0). simpl. lia.
Defined.

(** X18: an array that starts with more than 64 booleans is written past
    the end of the buffer: the eight bytes pushed while the byte index was 0
    are all there is, and the 65th boolean goes to byte 8. *)
Theorem boolean_array_overflows_after_64 (booleans : list bool)
    (rest : list JsonValue) (size0 : Z) :
  (64 < length booleans)%nat →
  getBooleanArrayValue (JArray ((JBool <$> booleans) ++ rest)) size0
  = OutOfBounds.
Proof.
  intros Hlength.
  rewrite <- (take_drop 64 booleans).
  destruct (drop 64 booleans) as [|b others] eqn:Hdrop.
  { apply (f_equal length) in Hdrop. rewrite length_drop in Hdrop.
    simpl in Hdrop. lia. }
  rewrite fmap_app, <- app_assoc.
  destruct (loop_visited size0 (take 64 booleans) []
              {| values := []; byteIndex := 0; bitIndex := 0;
                 size_ := size0 |})
    as (l & Hloop & q & r & Hqr & Hr & HbyteIndex & HbitIndex & _ & Hvalues
        & _).
  { rewrite length_take. cbn [length]. lia. }
  { apply visited_initial. }
  rewrite app_nil_l, length_take in Hqr, Hvalues.
  unfold getBooleanArrayValue. cbn [isArray negb getArray].
  rewrite Hloop. csimpl. unfold iteration.
  assert (q = 8%nat) as -> by lia.
  rewrite HbyteIndex. unfold size. rewrite Hvalues.
  rewrite bool_decide_eq_false_2
    by (change ((Z.of_nat 8 - 1) `mod` 2 ^ 64) with 7; lia).
  rewrite lookup_ge_None_2; [reflexivity |].
  rewrite Hvalues. simpl. lia.
Qed.

(** 65 booleans. *)
Lemma boolean_array_overflows_after_64_witness :
  getBooleanArrayValue (JArray ((JBool <$> replicate 65 true) ++ [])) 0
  = OutOfBounds.
Proof.
  apply (boolean_array_overflows_after_64 (replicate 65 true) [] 0).
  rewrite length_replicate. lia.
Defined.

(** X19: a value that is not an array leaves the size untouched and gives
    the empty buffer; an element that is not a boolean, after at most 64
    booleans, sets the size to 0 and returns the buffer of the booleans
    before it. *)
Theorem boolean_array_rejects (jsonValue element : JsonValue)
    (booleans : list bool) (rest : list JsonValue) (size0 : Z) :
  isArray jsonValue = false →
  isBool element = false →
  (length booleans ≤ 64)%nat →
  getBooleanArrayValue jsonValue size0 = Done ([], size0) ∧
  ∃ buffer : list Z,
    getBooleanArrayValue (JArray (JBool <$> booleans)) size0
    = Done (buffer, size0 + size booleans) ∧
    getBooleanArrayValue (JArray ((JBool <$> booleans) ++ element :: rest))
      size0
    = Done (buffer, 0).
Proof.
  intros HisArray Helement Hlength. split.
  { unfold getBooleanArrayValue. rewrite HisArray. reflexivity. }
  destruct (getBooleanArrayValue_visited booleans size0 Hlength)
    as (l & (q & r & _ & _ & _ & _ & Hsize & _) & Hcodec & Hstops).
  exists (values l). rewrite Hcodec, Hsize. split; [reflexivity |].
  apply Hstops. exact Helement.
Qed.

(** The string [x] after [[true, true]]. *)
Lemma boolean_array_rejects_witness :
  getBooleanArrayValue (JNumber 1) 7 = Done ([], 7) ∧
  ∃ buffer : list Z,
    getBooleanArrayValue (JArray (JBool <$> [true; true])) 7
    = Done (buffer, 7 + size [true; true]) ∧
    getBooleanArrayValue
      (JArray ((JBool <$> [true; true]) ++ JString "x" :: [JBool true])) 7
    = Done (buffer, 0).
Proof.
  apply (boolean_array_rejects (JNumber 1) (JString "x") [true; true]
           [JBool true] 7).
  - reflexivity.
  - reflexivity.
  - simpl. lia.
Defined.

(** X20: the boolean array view of a class property that passes the type
    validation, is not required and declares between 1 and 64 booleans as
    its default is [Valid] exactly when the count is not positive or equals
    the number of booleans, and is [ErrorInvalidDefaultValue] otherwise; in
    both cases [defaultValue()] is the view of the packed booleans, of bit
    offset 0 and of that many elements. *)
Theorem boolean_array_view_default (classProperty : ClassProperty.t)
    (booleans : list bool) :
  validateArrayPropertyTypeFor Boolean None_ classProperty = Valid →
  ClassProperty.required classProperty = false →
  ClassProperty.defaultProperty classProperty
  = Some (JArray (JBool <$> booleans)) →
  (0 < length booleans ≤ 64)%nat →
  let count := default 0 (ClassProperty.count classProperty) in
  ∃ (view : t) (buffer : list Z),
    ofClassProperty classProperty = Done view ∧
    status view = (if bool_decide (count ≤ 0 ∨ count = size booleans)
                   then Valid else ErrorInvalidDefaultValue) ∧
    arrayCount view = count ∧
    defaultValue view = Some {| viewBuffer := buffer;
                                viewBitOffset := 0;
                                viewSize := size booleans |} ∧
    length buffer = Nat.min (length booleans) 8 ∧
    ∀ i : nat, bitAt buffer i = default false (booleans !! i).
Proof.
  intros Hvalidate Hrequired Hdefault Hlength count.
  destruct (getBooleanArrayValue_visited booleans 0) as
    (l & (q & r & _ & _ & _ & _ & Hl & Hbuffer & Hpacks) & Hcodec & _);
    [lia |].
  rewrite Hl in Hcodec.
  assert (∀ i : nat, bitAt (values l) i = default false (booleans !! i))
    as Hbits by (intros i; apply packs_bitAt; [assumption | assumption | lia]).
  clear Hl Hpacks. set (buffer := values l) in *. clearbody buffer.
  assert (0 < size booleans) as Hsize by (unfold size; lia).
  rewrite Z.add_0_l in Hcodec.
  unfold ofClassProperty, assignDefaultValue. simpl.
  rewrite Hvalidate, Hdefault, Hrequired. simpl. rewrite Hcodec. csimpl.
  replace (match ClassProperty.count classProperty with
           | Some count => count
           | None => 0
           end) with count
    by (subst count; destruct (ClassProperty.count classProperty); reflexivity).
  clearbody count.
  rewrite (bool_decide_eq_false_2 (size booleans = 0)) by lia.
  rewrite ?orb_false_l.
  destruct (decide (count ≤ 0 ∨ count = size booleans)) as [Hcount | Hcount].
  - rewrite (bool_decide_eq_true_2 _ Hcount).
    assert (bool_decide (0 < count) && bool_decide (size booleans ≠ count)
            = false) as ->.
    { apply andb_false_iff. destruct Hcount as [Hcount | Hcount].
      - left. apply bool_decide_eq_false_2. lia.
      - right. apply bool_decide_eq_false_2. lia. }
    eexists _, buffer. split; [reflexivity |].
    unfold status, arrayCount, defaultValue. simpl.
    rewrite bool_decide_eq_true_2 by lia.
    split_and!; try reflexivity; try assumption.
  - rewrite (bool_decide_eq_false_2 _ Hcount).
    rewrite (bool_decide_eq_true_2 (0 < count)) by lia.
    rewrite (bool_decide_eq_true_2 (size booleans ≠ count)) by lia. simpl.
    eexists _, buffer. split; [reflexivity |].
    unfold status, arrayCount, defaultValue. simpl.
    rewrite bool_decide_eq_true_2 by lia.
    split_and!; try reflexivity; try assumption.
Qed.

(** A default of three booleans under no count, and under the count 2. *)
Lemma boolean_array_view_default_witness :
  let booleanArray (count : option Z) :=
    {| ClassProperty.type := "BOOLEAN";
       ClassProperty.componentType := None;
       ClassProperty.array := true;
       ClassProperty.count := count;
       ClassProperty.normalized := false;
       ClassProperty.offset := None;
       ClassProperty.scale := None;
       ClassProperty.max := None;
       ClassProperty.min := None;
       ClassProperty.required := false;
       ClassProperty.noData := None;
       ClassProperty.defaultProperty :=
         Some (JArray (JBool <$> [true; false; true])) |} in
  (∃ (view : t) (buffer : list Z),
     ofClassProperty (booleanArray None) = Done view ∧
     status view = Valid ∧
     arrayCount view = 0 ∧
     defaultValue view = Some {| viewBuffer := buffer;
                                 viewBitOffset := 0;
                                 viewSize := 3 |} ∧
     length buffer = 3%nat ∧
     ∀ i : nat, bitAt buffer i = default false ([true; false; true] !! i)) ∧
  (∃ (view : t) (buffer : list Z),
     ofClassProperty (booleanArray (Some 2)) = Done view ∧
     status view = ErrorInvalidDefaultValue ∧
     arrayCount view = 2 ∧
     defaultValue view = Some {| viewBuffer := buffer;
                                 viewBitOffset := 0;
                                 viewSize := 3 |} ∧
     length buffer = 3%nat ∧
     ∀ i : nat, bitAt buffer i = default false ([true; false; true] !! i)).
Proof.
  cbv zeta. split.
  - destruct (boolean_array_view_default
                {| ClassProperty.type := "BOOLEAN";
                   ClassProperty.componentType := None;
                   ClassProperty.array := true;
                   ClassProperty.count := None;
                   ClassProperty.normalized := false;
                   ClassProperty.offset := None;
                   ClassProperty.scale := None;
                   ClassProperty.max := None;
                   ClassProperty.min := None;
                   ClassProperty.required := false;
                   ClassProperty.noData := None;
                   ClassProperty.defaultProperty :=
                     Some (JArray (JBool <$> [true; false; true])) |}
                [true; false; true])
      as (view & buffer & Hview & Hstatus & Hcount & Hdefault & Hlength
          & Hbits);
      [vm_compute; reflexivity | reflexivity | reflexivity | simpl; lia |].
    exists view, buffer. split_and!; assumption.
  - destruct (boolean_array_view_default
                {| ClassProperty.type := "BOOLEAN";
                   ClassProperty.componentType := None;
                   ClassProperty.array := true;
                   ClassProperty.count := Some 2;
                   ClassProperty.normalized := false;
                   ClassProperty.offset := None;
                   ClassProperty.scale := None;
                   ClassProperty.max := None;
                   ClassProperty.min := None;
                   ClassProperty.required := false;
                   ClassProperty.noData := None;
                   ClassProperty.defaultProperty :=
                     Some (JArray (JBool <$> [true; false; true])) |}
                [true; false; true])
      as (view & buffer & Hview & Hstatus & Hcount & Hdefault & Hlength
          & Hbits);
      [vm_compute; reflexivity | reflexivity | reflexivity | simpl; lia |].
    exists view, buffer. split_and!; assumption.
Defined.

(** X21: a boolean array property that passes the type validation and
    declares a default is [ErrorInvalidDefaultValue], and exposes no default,
    when it is required, when the default is not an array or is the empty
    array, and when an element after at most 64 booleans is not a boolean. *)
Theorem boolean_array_view_rejects_default (classProperty : ClassProperty.t)
    (defaultProperty element : JsonValue) (booleans : list bool)
    (rest : list JsonValue) :
  validateArrayPropertyTypeFor Boolean None_ classProperty = Valid →
  ClassProperty.defaultProperty classProperty = Some defaultProperty →
  isBool element = false →
  (length booleans ≤ 64)%nat →
  ClassProperty.required classProperty = true ∨
  isArray defaultProperty = false ∨
  defaultProperty = JArray [] ∨
  defaultProperty = JArray ((JBool <$> booleans) ++ element :: rest) →
  ∃ view : t,
    ofClassProperty classProperty = Done view ∧
    status view = ErrorInvalidDefaultValue ∧
    defaultValue view = None.
Proof.
  intros Hvalidate Hdefault Helement Hlength Hcases.
  unfold ofClassProperty, assignDefaultValue. simpl.
  rewrite Hvalidate, Hdefault. simpl.
  destruct (ClassProperty.required classProperty) eqn:Hrequired; simpl.
  { eexists. split; [reflexivity |]. split; reflexivity. }
  destruct Hcases as [[=] | [HisArray | [-> | ->]]].
  - unfold getBooleanArrayValue. rewrite HisArray.
    csimpl. eexists. split; [reflexivity |]. split; reflexivity.
  - csimpl. eexists. split; [reflexivity |]. split; reflexivity.
  - destruct (getBooleanArrayValue_visited booleans 0 Hlength)
      as (l & _ & _ & Hstops).
    rewrite (Hstops element rest Helement).
    csimpl. eexists. split; [reflexivity |]. split; reflexivity.
Qed.

(** The default [[true, 1]] of an optional BOOLEAN array. *)
Lemma boolean_array_view_rejects_default_witness :
  ∃ view : t,
    ofClassProperty
      {| ClassProperty.type := "BOOLEAN";
         ClassProperty.componentType := None;
         ClassProperty.array := true;
         ClassProperty.count := None;
         ClassProperty.normalized := false;
         ClassProperty.offset := None;
         ClassProperty.scale := None;
         ClassProperty.max := None;
         ClassProperty.min := None;
         ClassProperty.required := false;
         ClassProperty.noData := None;
         ClassProperty.defaultProperty :=
           Some (JArray ((JBool <$> [true]) ++ JNumber 1 :: [])) |}
    = Done view ∧
    status view = ErrorInvalidDefaultValue ∧
    defaultValue view = None.
Proof.
  apply (boolean_array_view_rejects_default _
           (JArray ((JBool <$> [true]) ++ JNumber 1 :: [])) (JNumber 1)
           [true] []).
  - vm_compute. reflexivity.
  - reflexivity.
  - reflexivity.
  - simpl. lia.
  - right. right. right. reflexivity.
Defined.

End BooleanArrayCodec.

(** ** Reading the string array encoding back *)

Section StringArrayDecoding.
Import StringArrayPropertyView.

(** Entry [i] of a sequence of fixed-width encodings. *)
Lemma chunk_of_concat (width : nat) (xs : list Z) :
  ∀ (i : nat) (x : Z), xs !! i = Some x →
    take width (drop (i * width) (concat (littleEndian width <$> xs)))
    = littleEndian width x.
Proof.
  induction xs as [|x0 xs IH]; intros i x Hx; [discriminate |].
  csimpl. destruct i as [|i]; simpl in Hx.
  - injection Hx as ->. simpl.
    apply take_app_length'. now rewrite littleEndian_length.
  - change (S i * width)%nat with (width + i * width)%nat.
    rewrite drop_app_add' by now rewrite littleEndian_length.
    apply IH. exact Hx.
Qed.

Lemma offsetAt_concat (width : nat) (xs : list Z) (i : nat) (x : Z) :
  xs !! i = Some x → 0 ≤ x < 256 ^ Z.of_nat width →
  offsetAt width (concat (littleEndian width <$> xs)) i = x.
Proof.
  intros Hx Hrange. unfold offsetAt.
  rewrite (chunk_of_concat width xs i x Hx).
  apply fromLittleEndian_littleEndian. exact Hrange.
Qed.

(** The running totals are the start plus the lengths before an entry. *)
Lemma prefixSums_lookup (lengths : list Z) :
  ∀ (start : Z) (i : nat), (i ≤ length lengths)%nat →
    prefixSums start lengths !! i = Some (start + sumOf (take i lengths)).
Proof.
  induction lengths as [|l lengths IH]; intros start i Hi; simpl in Hi.
  - assert (i = 0%nat) as -> by lia. simpl. f_equal. lia.
  - destruct i as [|i]; simpl.
    + f_equal. lia.
    + rewrite IH by lia. f_equal. lia.
Qed.

Lemma sumOf_take_nonneg (strings : list string) (i : nat) :
  0 ≤ sumOf (take i (byteLength <$> strings)) ≤ sumOf (byteLength <$> strings).
Proof.
  revert i. induction strings as [|s strings IH]; intros i.
  - destruct i; simpl; lia.
  - pose proof (byteLength_nonneg s). destruct i as [|i]; csimpl.
    + pose proof (sumOf_byteLength_nonneg strings). lia.
    + specialize (IH i). lia.
Qed.

(** String [i] lies in the concatenation at the total of the lengths before
    it. *)
Lemma slice_of_concat (strings : list string) :
  ∀ (i : nat) (s : string), strings !! i = Some s →
    take (Z.to_nat (byteLength s))
         (drop (Z.to_nat (sumOf (take i (byteLength <$> strings))))
               (concat (stringBytes <$> strings)))
    = stringBytes s.
Proof.
  induction strings as [|s0 strings IH]; intros i s Hs; [discriminate |].
  destruct i as [|i]; simpl in Hs.
  - injection Hs as ->. csimpl.
    apply take_app_length'. unfold byteLength, size. lia.
  - csimpl.
    pose proof (byteLength_nonneg s0).
    pose proof (sumOf_take_nonneg strings i).
    rewrite Z2Nat.inj_add by lia.
    rewrite drop_app_add' by (unfold byteLength, size; lia).
    apply IH. exact Hs.
Qed.

(** The encoding of strings whose bytes fit the address space, with the
    width of its offsets. *)
Lemma getStringArrayValue_offsets (strings : list string) (out : Out) :
  let lengths := byteLength <$> strings in
  sumOf lengths < 2 ^ 64 →
  ∃ out' : Out,
    getStringArrayValue (JArray (JString <$> strings)) out
    = Done (concat (stringBytes <$> strings), out') ∧
    size_ out' = size strings ∧
    offsets out'
    = concat (littleEndian (offsetWidth (offsetType out'))
              <$> prefixSums 0 lengths) ∧
    sumOf lengths < 256 ^ Z.of_nat (offsetWidth (offsetType out')).
Proof.
  intros lengths Hfits. subst lengths.
  set (lengths := byteLength <$> strings) in *.
  assert (Forall (λ o, 0 ≤ o ≤ sumOf lengths) (prefixSums 0 lengths))
    as Hbounds.
  { eapply Forall_impl.
    - apply prefixSums_bounds. subst lengths.
      clear. induction strings; csimpl; constructor;
        [apply byteLength_nonneg | assumption].
    - simpl. intros o Ho. lia. }
  assert (∀ width : nat, sumOf lengths < 256 ^ Z.of_nat width →
            Forall (λ o, 0 ≤ o < 256 ^ Z.of_nat width) (prefixSums 0 lengths))
    as Hwidth.
  { intros width Hlt. eapply Forall_impl; [exact Hbounds |].
    simpl. intros o Ho. lia. }
  rewrite getStringArrayValue_strings by exact Hfits. fold lengths. cbv zeta.
  eexists. split; [reflexivity |].
  repeat case_bool_decide; cbn [offsets offsetType size_ offsetWidth];
    (split; [reflexivity |]).
  - split; [apply narrowOffsetsBuffer_encodes, Hwidth; simpl; lia |].
    simpl; lia.
  - split; [apply narrowOffsetsBuffer_encodes, Hwidth; simpl; lia |].
    simpl; lia.
  - split; [apply narrowOffsetsBuffer_encodes, Hwidth; simpl; lia |].
    simpl; lia.
  - split; [reflexivity |]. simpl; lia.
Qed.

(** Reading string [i] of the encoding of [strings]. *)
Lemma stringAt_encoding (strings : list string) (width : nat) (i : nat)
    (s : string) :
  sumOf (byteLength <$> strings) < 256 ^ Z.of_nat width →
  strings !! i = Some s →
  stringAt width (concat (stringBytes <$> strings))
    (concat (littleEndian width <$> prefixSums 0 (byteLength <$> strings))) i
  = stringBytes s.
Proof.
  intros Hwidth Hs.
  assert (i < length strings)%nat as Hi by (eapply lookup_lt_Some; eauto).
  pose proof (sumOf_take_nonneg strings i) as Hfirst.
  pose proof (sumOf_take_nonneg strings (S i)) as Hnext.
  assert (take (S i) (byteLength <$> strings)
          = take i (byteLength <$> strings) ++ [byteLength s]) as Htake.
  { erewrite take_S_r; [reflexivity |].
    rewrite list_lookup_fmap, Hs. reflexivity. }
  assert (sumOf (take (S i) (byteLength <$> strings))
          = sumOf (take i (byteLength <$> strings)) + byteLength s) as Hsum.
  { rewrite Htake. generalize (take i (byteLength <$> strings)).
    intros l. induction l as [|x l IHl]; simpl; lia. }
  unfold stringAt.
  rewrite (offsetAt_concat width _ i
             (0 + sumOf (take i (byteLength <$> strings)))),
          (offsetAt_concat width _ (S i)
             (0 + sumOf (take (S i) (byteLength <$> strings))));
    try lia;
    try (apply prefixSums_lookup; rewrite length_fmap; lia).
  rewrite Hsum, !Z.add_0_l.
  replace (sumOf (take i (byteLength <$> strings)) + byteLength s
           - sumOf (take i (byteLength <$> strings))) with (byteLength s)
    by lia.
  apply slice_of_concat. exact Hs.
Qed.

(** X22: the strings are read back from the encoding: with the offsets
    decoded at the width of the reported offset type, the bytes between
    offset [i] and offset [i + 1] of the value buffer are string [i], and
    the offset buffer holds one entry more than there are strings. *)
Theorem string_array_round_trip (strings : list string) (out : Out) :
  sumOf (byteLength <$> strings) < 2 ^ 64 →
  ∃ (values : list Z) (out' : Out),
    getStringArrayValue (JArray (JString <$> strings)) out
    = Done (values, out') ∧
    size_ out' = size strings ∧
    length (offsets out')
    = (S (length strings) * offsetWidth (offsetType out'))%nat ∧
    ∀ (i : nat) (s : string), strings !! i = Some s →
      stringAt (offsetWidth (offsetType out')) values (offsets out') i
      = stringBytes s.
Proof.
  intros Hfits.
  destruct (getStringArrayValue_offsets strings out Hfits)
    as (out' & Hcodec & Hsize & Hoffsets & Hwidth).
  exists (concat (stringBytes <$> strings)), out'.
  split; [exact Hcodec |]. split; [exact Hsize |]. split.
  - rewrite Hoffsets.
    assert (∀ (width : nat) (xs : list Z),
              length (concat (littleEndian width <$> xs))
              = (length xs * width)%nat) as Hconcat.
    { intros width xs. induction xs as [|x xs IHxs]; csimpl; [reflexivity |].
      rewrite length_app, littleEndian_length, IHxs. lia. }
    rewrite Hconcat, prefixSums_length, length_fmap. reflexivity.
  - intros i s Hs. rewrite Hoffsets.
    apply stringAt_encoding; assumption.
Qed.

(** The strings [ab], [c] and [de]. *)
Lemma string_array_round_trip_witness :
  ∃ (values : list Z) (out' : Out),
    getStringArrayValue (JArray (JString <$> ["ab"; "c"; "de"]%string)) noOut
    = Done (values, out') ∧
    size_ out' = 3 ∧
    length (offsets out') = (4 * offsetWidth (offsetType out'))%nat ∧
    ∀ (i : nat) (s : string), ["ab"; "c"; "de"]%string !! i = Some s →
      stringAt (offsetWidth (offsetType out')) values (offsets out') i
      = stringBytes s.
Proof.
  apply (string_array_round_trip ["ab"; "c"; "de"]%string noOut).
  vm_compute. reflexivity.
Defined.

(** X23: [narrowOffsetsBuffer] writes the offsets in order, each one cast to
    the narrow type: the buffer has [width] bytes per offset, and entry [i]
    read back is offset [i] modulo [256 ^ width]. *)
Theorem narrowOffsetsBuffer_truncates (width : nat) (offsets : list Z) :
  length (narrowOffsetsBuffer width offsets) = (length offsets * width)%nat ∧
  ∀ (i : nat) (o : Z), offsets !! i = Some o →
    offsetAt width (narrowOffsetsBuffer width offsets) i
    = o `mod` 256 ^ Z.of_nat width.
Proof.
  assert (narrowOffsetsBuffer width offsets
          = concat (littleEndian width
                    <$> ((λ o, o `mod` 256 ^ Z.of_nat width) <$> offsets)))
    as ->.
  { unfold narrowOffsetsBuffer.
    apply (narrowLoop_concat width offsets []). apply length_replicate. }
  split.
  - induction offsets as [|o offsets IH]; csimpl; [reflexivity |].
    rewrite length_app, littleEndian_length, IH. lia.
  - intros i o Ho. apply offsetAt_concat.
    + rewrite list_lookup_fmap, Ho. reflexivity.
    + apply Z.mod_pos_bound. apply Z.pow_pos_nonneg; lia.
Qed.

(** X24: [getStringArrayValue] gives the empty buffer and leaves the three
    out-parameters as they were when the value is not an array, and when
    some element of the array is not a string. *)
Theorem string_array_rejects (jsonValue : JsonValue) (out : Out) :
  isArray jsonValue = false ∨
  (∃ element, element ∈ getArray jsonValue ∧ isString element = false) →
  getStringArrayValue jsonValue out = Done ([], out).
Proof.
  intros [HisArray | (element & Hin & Helement)];
    unfold getStringArrayValue.
  - rewrite HisArray. reflexivity.
  - destruct (isArray jsonValue); [| reflexivity]. simpl.
    assert (∀ strings stringOffsets,
              collect (getArray jsonValue) strings stringOffsets = None)
      as ->; [| reflexivity].
    induction Hin as [element rest | element other rest Hin IH];
      intros strings stringOffsets; simpl.
    + rewrite Helement. reflexivity.
    + destruct (isString other); simpl; [apply IH; exact Helement
                                         | reflexivity].
Qed.

(** The array [["a", 1]]. *)
Lemma string_array_rejects_witness :
  getStringArrayValue (JArray [JString "a"; JNumber 1]) noOut
  = Done ([], noOut).
Proof.
  apply (string_array_rejects (JArray [JString "a"; JNumber 1]) noOut).
  right. exists (JNumber 1). split; [| reflexivity].
  right. left.
Defined.



End StringArrayDecoding.
